(** * Laserfiche WebLink client: a shallow embedding

    The development follows the TypeScript sources
      - [src/lib/types.ts], [src/lib/utils.ts]   (data model, [getEntryType])
      - [src/lib/WebLinkClient.ts]               (the library client)
      - [arcadia-files.ts]                       (the standalone legacy script)

    Conventions.
      - A JavaScript [number] is modelled by [Z]: the codes, identifiers and
        offsets the client handles are integers, printed in plain decimal.
      - Header strings are sequences of one-byte code units, hence [string].
      - A [Map<string,string>] and an object literal keep insertion order, so
        both are association lists updated in place ([Map_set]).
      - [async] code is sequential here: every [await] is a monadic bind in
        [M], which threads the client state, lets an exception propagate and
        carries the fuel bound of the two unbounded loops of the source
        (redirect following and pagination). *)

From Stdlib Require Import ZArith List String Ascii Bool Lia.
From Stdlib Require Import Decimal DecimalString DecimalZ.
Import ListNotations.

Open Scope string_scope.
Open Scope Z_scope.

(* ===================================================================== *)
(** ** JavaScript string primitives used by the client *)
(* ===================================================================== *)

Module Js.

(** [s.startsWith(p)] *)
Definition startsWith (s p : string) : bool := String.prefix p s.

(** [s.indexOf(c)] for a one-character search string; [-1] when absent. *)
Fixpoint indexOf (c : ascii) (s : string) : Z :=
  match s with
  | EmptyString => -1
  | String a r =>
      if Ascii.eqb a c then 0
      else let i := indexOf c r in if i <? 0 then -1 else i + 1
  end.

Fixpoint take (n : nat) (s : string) : string :=
  match n, s with
  | S k, String a r => String a (take k r)
  | _, _ => EmptyString
  end.

Fixpoint drop (n : nat) (s : string) : string :=
  match n, s with
  | S k, String _ r => drop k r
  | _, _ => s
  end.

(** [s.slice(b, e)] and [s.slice(b)] for non-negative offsets, which are
    the only ones the client passes. *)
Definition slice (s : string) (b : Z) (e : option Z) : string :=
  let rest := drop (Z.to_nat b) s in
  match e with
  | Some e => take (Z.to_nat (e - b)) rest
  | None => rest
  end.

(** [s.split(c)[0]]: the text before the first separator. *)
Fixpoint firstSegment (c : ascii) (s : string) : string :=
  match s with
  | EmptyString => EmptyString
  | String a r => if Ascii.eqb a c then EmptyString else String a (firstSegment c r)
  end.

(** White space and line terminators among the one-byte code units:
    TAB, LF, VT, FF, CR, SP and NBSP. *)
Definition isWhiteSpace (a : ascii) : bool :=
  let n := N_of_ascii a in
  (N.eqb n 9 || N.eqb n 10 || N.eqb n 11 || N.eqb n 12 || N.eqb n 13
   || N.eqb n 32 || N.eqb n 160)%bool.

Fixpoint trimStart (s : string) : string :=
  match s with
  | EmptyString => EmptyString
  | String a r => if isWhiteSpace a then trimStart r else s
  end.

Fixpoint trimEnd (s : string) : string :=
  match s with
  | EmptyString => EmptyString
  | String a r =>
      match trimEnd r with
      | EmptyString => if isWhiteSpace a then EmptyString else String a EmptyString
      | r' => String a r'
      end
  end.

(** [s.trim()] *)
Definition trim (s : string) : string := trimEnd (trimStart s).

(** [parts.join(sep)] *)
Definition join (sep : string) (parts : list string) : string :=
  String.concat sep parts.

(** [Number.isSafeInteger(n)]: the integers of magnitude below 2^53.  A
    JavaScript number holds each of them exactly, counts through them one
    by one and prints them in plain decimal; a [Z] stands for the number
    of the program as long as it is one of them. *)
Definition isSafeInteger (n : Z) : bool := Z.abs n <? 2 ^ 53.

(** [String(n)] / template interpolation of an integer: its decimal form,
    which is what the program prints for a safe integer (a number from
    10^21 on is printed with an exponent instead). *)
Definition numberToString (n : Z) : string :=
  NilZero.string_of_int (Z.to_int n).

(** Truthiness of a string: only the empty string is falsy. *)
Definition truthy (s : string) : bool := negb (String.eqb s "").

(** [Map.prototype.set] on an insertion-ordered map, and assignment of an
    own property of an object literal: an existing key keeps its place. *)
Fixpoint Map_set {V : Type} (k : string) (v : V) (m : list (string * V))
  : list (string * V) :=
  match m with
  | [] => [(k, v)]
  | (k', v') :: r =>
      if String.eqb k' k then (k, v) :: r else (k', v') :: Map_set k v r
  end.

Fixpoint Map_get {V : Type} (k : string) (m : list (string * V)) : option V :=
  match m with
  | [] => None
  | (k', v) :: r => if String.eqb k' k then Some v else Map_get k r
  end.

(** [{ ...a, ...b }]: the properties of [b] are assigned over those of [a]. *)
Definition spread {V : Type} (a b : list (string * V)) : list (string * V) :=
  fold_left (fun acc kv => Map_set (fst kv) (snd kv) acc) b a.

(** [xs.findIndex(p)]; [-1] when no element satisfies [p]. *)
Fixpoint findIndex {A : Type} (p : A -> bool) (xs : list A) : Z :=
  match xs with
  | [] => -1
  | x :: r =>
      if p x then 0
      else let i := findIndex p r in if i <? 0 then -1 else i + 1
  end.

(** [xs?.[i]] for an optional array and an index that is not negative. *)
Definition optIndex {A : Type} (xs : option (list A)) (i : Z) : option A :=
  match xs with
  | Some l => if i <? 0 then None else nth_error l (Z.to_nat i)
  | None => None
  end.

#[local] Set Warnings "-register-all".

(** A JSON value as it sits in a row's [data: any[]] array or in a request
    body before [JSON.stringify]. *)
Inductive Value : Type :=
| JNull
| JBool (b : bool)
| JNum (n : Z)
| JStr (s : string)
| JArr (items : list Value)
| JObj (props : list (string * Value)).

End Js.

(* ===================================================================== *)
(** ** Data model ([src/lib/types.ts]) *)
(* ===================================================================== *)

Record WebLinkConfig := {
  baseUrl : string;
  repoName : string;
  dbid : Z
}.

Record FolderEntry := {
  id : Z;
  name : string;
  type : string;
  pageCount : option Js.Value;
  template : option Js.Value;
  creationDate : option Js.Value;
  modificationDate : option Js.Value
}.

(** One element of [results]. *)
Record ResultRow := {
  row_name : string;
  row_entryId : Z;
  row_type : Z;
  row_data : option (list Js.Value)
}.

Record ColType := { col_name : string }.

(** The payload under [data] (or [d]); every field the client guards with
    [||] is optional. *)
Record Payload := {
  p_name : option string;
  p_totalEntries : option Z;
  p_results : option (list ResultRow);
  p_colTypes : option (list ColType)
}.

Record ApiResponse := {
  data : option Payload;
  d : option Payload
}.

Record FolderContents := {
  folderName : string;
  entries : list FolderEntry
}.

Inductive EntryType := Folder | Document | Shortcut | DocumentAlt.

(** The numeric value of each enum member. *)
Definition EntryType_value (t : EntryType) : Z :=
  match t with
  | Folder => 0
  | Document => 1
  | Shortcut => 2
  | DocumentAlt => -2
  end.

(** Property lookup in a [Record<number, string>] literal. *)
Fixpoint Record_get (k : Z) (r : list (Z * string)) : option string :=
  match r with
  | [] => None
  | (k', v) :: rest => if Z.eqb k' k then Some v else Record_get k rest
  end.

(** [a || b] for an optional string [a]. *)
Definition orString (a : option string) (b : string) : string :=
  match a with
  | Some s => if Js.truthy s then s else b
  | None => b
  end.

(** [a || 0] for an optional number. *)
Definition orZero (a : option Z) : Z :=
  match a with
  | Some n => if Z.eqb n 0 then 0 else n
  | None => 0
  end.

(** [a || []] for an optional array. *)
Definition orEmpty {A : Type} (a : option (list A)) : list A :=
  match a with
  | Some l => l
  | None => []
  end.

(* ===================================================================== *)
(** ** [src/lib/utils.ts] *)
(* ===================================================================== *)

Definition getEntryType (typeNum : Z) : string :=
  let types : list (Z * string) :=
    [ (EntryType_value Folder, "Folder");
      (EntryType_value Document, "Document");
      (EntryType_value Shortcut, "Shortcut");
      (EntryType_value DocumentAlt, "Document") ] in
  orString (Record_get typeNum types)
           ("Unknown(" ++ Js.numberToString typeNum ++ ")").

(* ===================================================================== *)
(** ** The platform: requests, responses, exceptions *)
(* ===================================================================== *)

(** The [RequestInit] passed by the callers of [fetch]; [headers] is an
    object literal. *)
Record RequestInit := {
  init_method : option string;
  init_headers : list (string * string);
  init_body : option Js.Value
}.

(** [{}], the default value of the [options] parameter. *)
Definition noOptions : RequestInit :=
  {| init_method := None; init_headers := []; init_body := None |}.

(** What the global [fetch] receives. *)
Record Request := {
  req_url : string;
  req_method : option string;
  req_redirect : string;
  req_headers : list (string * string);
  req_body : option Js.Value
}.

(** What the client reads of a [Response]:
    [status], [headers.get("location")], [headers.getSetCookie?.() || []],
    and the outcome of [json()]: [None] when the body is not JSON,
    [Some None] when it is the JSON text [null], and [Some (Some v)] for
    any other value [v], of which the client reads [data] and [d] only (a
    number, a string or an array has neither). *)
Record Response := {
  status : Z;
  location : option string;
  setCookie : list string;
  body : option (option ApiResponse)
}.

(** [response.ok] *)
Definition ok (r : Response) : bool := (200 <=? status r) && (status r <=? 299).

Inductive Exn := InvalidURL | FetchFailed | JsonSyntaxError.

(** The answer of the network to one request: a response, or a rejected
    promise. *)
Inductive NetResult := Delivered (r : Response) | Rejected.

(** A step of a run, recorded in the order of occurrence: a request handed
    to the global [fetch], or a call of [getFolderListing] with its
    arguments.  The record is kept by the model only, to state which
    requests and calls a run made. *)
Inductive Event :=
| Sent (req : Request)
| Listing (folderId start finish : Z).

Inductive Outcome (A : Type) :=
| Ret (a : A)
| Throw (e : Exn)
| OutOfFuel.
Arguments Ret {A} a.
Arguments Throw {A} e.
Arguments OutOfFuel {A}.

(** The cookie jar: [Map<string, string>]. *)
Definition Jar := list (string * string).

Record State (World : Type) := {
  cookies : Jar;
  world : World;
  trace : list Event
}.
Arguments cookies {World} s.
Arguments world {World} s.
Arguments trace {World} s.
Arguments Build_State {World} cookies world trace.

Definition M (World A : Type) : Type := State World -> Outcome A * State World.

Definition ret {W A} (a : A) : M W A := fun s => (Ret a, s).

Definition throw {W A} (e : Exn) : M W A := fun s => (Throw e, s).

Definition outOfFuel {W A} : M W A := fun s => (OutOfFuel, s).

Definition bind {W A B} (m : M W A) (f : A -> M W B) : M W B :=
  fun s =>
    match m s with
    | (Ret a, s') => f a s'
    | (Throw e, s') => (Throw e, s')
    | (OutOfFuel, s') => (OutOfFuel, s')
    end.

(** [try { m } catch { h }] *)
Definition tryCatch {W A} (m : M W A) (h : M W A) : M W A :=
  fun s =>
    match m s with
    | (Throw _, s') => h s'
    | r => r
    end.

Declare Scope client_scope.
Delimit Scope client_scope with client.
Notation "x <- m ;; k" := (bind m (fun x => k))
  (at level 61, m at next level, right associativity) : client_scope.
Notation "m ;;; k" := (bind m (fun _ => k))
  (at level 61, right associativity) : client_scope.

(** [response.json()]; the value [null] is [None]. *)
Definition json {W} (r : Response) : M W (option ApiResponse) :=
  match body r with
  | Some j => ret j
  | None => throw JsonSyntaxError
  end.

(** [[301, 302, 303, 307, 308].includes(status)] *)
Definition isRedirectStatus (st : Z) : bool :=
  existsb (Z.eqb st) [301; 302; 303; 307; 308].

(** [location && ...]: the header is present and not the empty string. *)
Definition truthyLocation (l : option string) : bool :=
  match l with
  | Some s => Js.truthy s
  | None => false
  end.

(** [response?.data || response?.d] *)
Definition unwrapEnvelope (response : option ApiResponse) : option Payload :=
  match response with
  | Some r => match data r with Some p => Some p | None => d r end
  | None => None
  end.

(** The object literal pushed for one row, given the four column indices
    found on the page (identical in [getAllEntries] and [browseFolder]). *)
Definition entryOf (entryType : Z -> string)
    (pageCountIdx templateIdx creationDateIdx modificationDateIdx : Z)
    (result : ResultRow) : FolderEntry :=
  {| id := row_entryId result;
     name := row_name result;
     type := entryType (row_type result);
     pageCount :=
       if pageCountIdx >=? 0 then Js.optIndex (row_data result) pageCountIdx
       else None;
     template :=
       if templateIdx >=? 0 then Js.optIndex (row_data result) templateIdx
       else None;
     creationDate :=
       if creationDateIdx >=? 0
       then Js.optIndex (row_data result) creationDateIdx else None;
     modificationDate :=
       if modificationDateIdx >=? 0
       then Js.optIndex (row_data result) modificationDateIdx else None |}.

(** [(c) => c.name === n] *)
Definition named (n : string) (c : ColType) : bool := String.eqb (col_name c) n.

(** Reading and updating the client state inside [M]. *)
Definition gets {W A} (f : State W -> A) : M W A := fun s => (Ret (f s), s).

Definition modifyCookies {W} (f : Jar -> Jar) : M W unit :=
  fun s => (Ret tt, Build_State (f (cookies s)) (world s) (trace s)).

Definition emit {W} (e : Event) : M W unit :=
  fun s => (Ret tt, Build_State (cookies s) (world s) (trace s ++ [e])).

Definition userAgent : string :=
  "Mozilla/5.0 (Macintosh; Intel Mac OS X 10_15_7) AppleWebKit/537.36".

(** The [options] of the listing request. *)
Definition listingOptions (repo : string) (folderId start finish : Z)
  : RequestInit :=
  {| init_method := Some "POST";
     init_headers :=
       [ ("Content-Type", "application/json; charset=utf-8");
         ("Accept", "application/json");
         ("X-Requested-With", "XMLHttpRequest") ];
     init_body :=
       Some (Js.JObj
               [ ("repoName", Js.JStr repo);
                 ("folderId", Js.JNum folderId);
                 ("getNewListing", Js.JBool true);
                 ("start", Js.JNum start);
                 ("end", Js.JNum finish);
                 ("sortColumn", Js.JStr "name");
                 ("sortAscending", Js.JBool true) ]) |}.

(* ===================================================================== *)
(** ** The library client ([src/lib/WebLinkClient.ts]) *)
(* ===================================================================== *)

Section WebLinkClient.

Context {World : Type}.

(** [new URL(u).origin]; [None] when the constructor throws. *)
Variable URL_origin : string -> option string.

(** The global [fetch], called with [redirect: "manual"]. *)
Variable transport : Request -> World -> NetResult * World.

(** [this.config] *)
Variable config : WebLinkConfig.

Definition getCookieHeader (jar : Jar) : string :=
  Js.join "; " (map (fun nv => fst nv ++ "=" ++ snd nv) jar).

(** The body of the [for] loop of [parseCookies]. *)
Definition parseCookie (jar : Jar) (cookie : string) : Jar :=
  let nameValue := Js.firstSegment ";" cookie in
  let eqIdx := Js.indexOf "=" nameValue in
  if eqIdx >? 0 then
    let name := Js.trim (Js.slice nameValue 0 (Some eqIdx)) in
    let value := Js.trim (Js.slice nameValue (eqIdx + 1) None) in
    Js.Map_set name value jar
  else jar.

Definition parseCookies (response : Response) (jar : Jar) : Jar :=
  fold_left parseCookie (setCookie response) jar.

Definition resolveUrl (url : string) : M World string :=
  if Js.startsWith url "http" then ret url
  else if Js.startsWith url "/" then
    match URL_origin (baseUrl config) with
    | Some origin => ret (origin ++ url)
    | None => throw InvalidURL
    end
  else ret (baseUrl config ++ "/" ++ url).

Definition global_fetch (req : Request) : M World Response :=
  fun s =>
    let (res, w) := transport req (world s) in
    let s' := Build_State (cookies s) w (trace s ++ [Sent req]) in
    match res with
    | Delivered r => (Ret r, s')
    | Rejected => (Throw FetchFailed, s')
    end.

Definition requestOf (fullUrl cookie : string) (options : RequestInit)
  : Request :=
  {| req_url := fullUrl;
     req_method := init_method options;
     req_redirect := "manual";
     req_headers :=
       Js.spread [ ("User-Agent", userAgent);
                   ("Accept", "*/*");
                   ("Cookie", cookie) ]
                 (init_headers options);
     req_body := init_body options |}.

Fixpoint fetch (fuel : nat) (url : string) (options : RequestInit)
  : M World Response :=
  match fuel with
  | O => outOfFuel
  | S fuel' =>
      (fullUrl <- resolveUrl url ;;
       cookie <- gets (fun s => getCookieHeader (cookies s)) ;;
       response <- global_fetch (requestOf fullUrl cookie options) ;;
       modifyCookies (parseCookies response) ;;;
       match location response with
       | Some loc =>
           if Js.truthy loc && isRedirectStatus (status response)
           then fetch fuel' loc options
           else ret response
       | None => ret response
       end)%client
  end.

Definition initSession (fuel : nat) : M World bool :=
  (fetch fuel (baseUrl config ++ "/") noOptions ;;;
   fetch fuel (baseUrl config ++ "/Login.aspx?dbid="
                 ++ Js.numberToString (dbid config)
                 ++ "&repo=" ++ repoName config) noOptions ;;;
   gets (fun s => Z.of_nat (List.length (cookies s)) >? 0))%client.

Definition getFolderListing (fuel : nat) (folderId start finish : Z)
  : M World (option ApiResponse) :=
  (emit (Listing folderId start finish) ;;;
   let url := baseUrl config ++ "/FolderListingService.aspx/GetFolderListing2" in
   response <- fetch fuel url
                 (listingOptions (repoName config) folderId start finish) ;;
   if negb (ok response) then ret None
   else tryCatch (json response) (ret None))%client.

Definition pageSize : Z := 500.

(** The [for (const result of results) entries.push(...)] loop. *)
Definition pushRows (i1 i2 i3 i4 : Z) (results : list ResultRow)
    (entries : list FolderEntry) : list FolderEntry :=
  fold_left (fun es result => (es ++ [entryOf getEntryType i1 i2 i3 i4 result])%list)
            results entries.

(** The [do ... while] loop of [getAllEntries]; [iter] bounds the number of
    iterations, [fuel] the redirects of each request.  The offset and the
    total are those of the program as long as they are safe integers. *)
Fixpoint getAllEntries_loop (iter fuel : nat) (folderId : Z)
    (entries : list FolderEntry) (folderName : string)
    (start totalEntries : Z) (firstFetch : bool)
  : M World FolderContents :=
  match iter with
  | O => outOfFuel
  | S iter' =>
      (response <- getFolderListing fuel folderId start (start + pageSize) ;;
       match unwrapEnvelope response with
       | None => ret {| folderName := folderName; entries := entries |}
       | Some data =>
           let folderName' :=
             if firstFetch then orString (p_name data) "" else folderName in
           let totalEntries' :=
             if firstFetch then orZero (p_totalEntries data)
             else totalEntries in
           let results := orEmpty (p_results data) in
           let colTypes := orEmpty (p_colTypes data) in
           let pageCountIdx := Js.findIndex (named "PageCount") colTypes in
           let templateIdx := Js.findIndex (named "TemplateName") colTypes in
           let creationDateIdx :=
             Js.findIndex (named "CreationDate") colTypes in
           let modificationDateIdx :=
             Js.findIndex (named "LastModified") colTypes in
           let entries' :=
             pushRows pageCountIdx templateIdx creationDateIdx
                      modificationDateIdx results entries in
           let start' := start + pageSize in
           if start' <? totalEntries'
           then getAllEntries_loop iter' fuel folderId entries' folderName'
                                   start' totalEntries' false
           else ret {| folderName := folderName'; entries := entries' |}
       end)%client
  end.

Definition getAllEntries (fuel : nat) (folderId : Z) : M World FolderContents :=
  getAllEntries_loop fuel fuel folderId [] "" 0 0 true.

Definition browseFolder (fuel : nat) (folderId : Z) : M World FolderContents :=
  (response <- getFolderListing fuel folderId 0 100 ;;
   match unwrapEnvelope response with
   | None => ret {| folderName := ""; entries := [] |}
   | Some data =>
       let folderName := orString (p_name data) "" in
       let results := orEmpty (p_results data) in
       let colTypes := orEmpty (p_colTypes data) in
       let pageCountIdx := Js.findIndex (named "PageCount") colTypes in
       let templateIdx := Js.findIndex (named "TemplateName") colTypes in
       let creationDateIdx := Js.findIndex (named "CreationDate") colTypes in
       let modificationDateIdx :=
         Js.findIndex (named "LastModified") colTypes in
       let entries :=
         map (entryOf getEntryType pageCountIdx templateIdx creationDateIdx
                      modificationDateIdx) results in
       ret {| folderName := folderName; entries := entries |}
   end)%client.

Definition getRootFolder (fuel : nat) : M World FolderContents :=
  browseFolder fuel 1.

End WebLinkClient.

(* ===================================================================== *)
(** ** The standalone legacy script ([arcadia-files.ts]) *)
(* ===================================================================== *)

Module Legacy.

Definition BASE_URL : string := "https://laserfiche.arcadiaca.gov/WebLink".
Definition DEFAULT_FOLDER_ID : Z := 874714.
Definition REPO : string := "CityofArcadia".

Definition getEntryType (typeNum : Z) : string :=
  let types : list (Z * string) :=
    [ (0, "Folder"); (1, "Document"); (2, "Shortcut") ] in
  orString (Record_get typeNum types)
           ("Unknown(" ++ Js.numberToString typeNum ++ ")").

Section Client.

Context {World : Type}.
Variable transport : Request -> World -> NetResult * World.

Definition getCookieHeader (jar : Jar) : string :=
  Js.join "; " (map (fun nv => fst nv ++ "=" ++ snd nv) jar).

Definition parseCookie (jar : Jar) (cookie : string) : Jar :=
  let nameValue := Js.firstSegment ";" cookie in
  let eqIdx := Js.indexOf "=" nameValue in
  if eqIdx >? 0 then
    let name := Js.trim (Js.slice nameValue 0 (Some eqIdx)) in
    let value := Js.trim (Js.slice nameValue (eqIdx + 1) None) in
    Js.Map_set name value jar
  else jar.

Definition parseCookies (response : Response) (jar : Jar) : Jar :=
  fold_left parseCookie (setCookie response) jar.

Definition resolveUrl (url : string) : M World string :=
  if Js.startsWith url "http" then ret url
  else if Js.startsWith url "/"
  then ret ("https://laserfiche.arcadiaca.gov" ++ url)
  else ret (BASE_URL ++ "/" ++ url).

Definition global_fetch (req : Request) : M World Response :=
  fun s =>
    let (res, w) := transport req (world s) in
    let s' := Build_State (cookies s) w (trace s ++ [Sent req]) in
    match res with
    | Delivered r => (Ret r, s')
    | Rejected => (Throw FetchFailed, s')
    end.

Definition requestOf (fullUrl cookie : string) (options : RequestInit)
  : Request :=
  {| req_url := fullUrl;
     req_method := init_method options;
     req_redirect := "manual";
     req_headers :=
       Js.spread [ ("User-Agent", userAgent);
                   ("Accept", "*/*");
                   ("Cookie", cookie) ]
                 (init_headers options);
     req_body := init_body options |}.

Fixpoint fetch (fuel : nat) (url : string) (options : RequestInit)
  : M World Response :=
  match fuel with
  | O => outOfFuel
  | S fuel' =>
      (fullUrl <- resolveUrl url ;;
       cookie <- gets (fun s => getCookieHeader (cookies s)) ;;
       response <- global_fetch (requestOf fullUrl cookie options) ;;
       modifyCookies (parseCookies response) ;;;
       match location response with
       | Some loc =>
           if Js.truthy loc && isRedirectStatus (status response)
           then fetch fuel' loc options
           else ret response
       | None => ret response
       end)%client
  end.

Definition initSession (fuel : nat) : M World bool :=
  (fetch fuel (BASE_URL ++ "/") noOptions ;;;
   fetch fuel (BASE_URL ++ "/Login.aspx?dbid=0&repo=" ++ REPO) noOptions ;;;
   gets (fun s => Z.of_nat (List.length (cookies s)) >? 0))%client.

Definition getFolderListing (fuel : nat) (folderId start finish : Z)
  : M World (option ApiResponse) :=
  (emit (Listing folderId start finish) ;;;
   let url := BASE_URL ++ "/FolderListingService.aspx/GetFolderListing2" in
   response <- fetch fuel url (listingOptions REPO folderId start finish) ;;
   if negb (ok response) then ret None
   else tryCatch (json response) (ret None))%client.

Definition pageSize : Z := 500.

Definition pushRows (i1 i2 i3 i4 : Z) (results : list ResultRow)
    (entries : list FolderEntry) : list FolderEntry :=
  fold_left
    (fun es result => (es ++ [entryOf getEntryType i1 i2 i3 i4 result])%list)
    results entries.

Fixpoint getAllEntries_loop (iter fuel : nat) (folderId : Z)
    (entries : list FolderEntry) (folderName : string)
    (start totalEntries : Z) (firstFetch : bool)
  : M World FolderContents :=
  match iter with
  | O => outOfFuel
  | S iter' =>
      (response <- getFolderListing fuel folderId start (start + pageSize) ;;
       match unwrapEnvelope response with
       | None => ret {| folderName := folderName; entries := entries |}
       | Some data =>
           let folderName' :=
             if firstFetch then orString (p_name data) "" else folderName in
           let totalEntries' :=
             if firstFetch then orZero (p_totalEntries data)
             else totalEntries in
           let results := orEmpty (p_results data) in
           let colTypes := orEmpty (p_colTypes data) in
           let pageCountIdx := Js.findIndex (named "PageCount") colTypes in
           let templateIdx := Js.findIndex (named "TemplateName") colTypes in
           let creationDateIdx :=
             Js.findIndex (named "CreationDate") colTypes in
           let modificationDateIdx :=
             Js.findIndex (named "LastModified") colTypes in
           let entries' :=
             pushRows pageCountIdx templateIdx creationDateIdx
                      modificationDateIdx results entries in
           let start' := start + pageSize in
           if start' <? totalEntries'
           then getAllEntries_loop iter' fuel folderId entries' folderName'
                                   start' totalEntries' false
           else ret {| folderName := folderName'; entries := entries' |}
       end)%client
  end.

Definition getAllEntries (fuel : nat) (folderId : Z) : M World FolderContents :=
  getAllEntries_loop fuel fuel folderId [] "" 0 0 true.

End Client.

End Legacy.

(* ===================================================================== *)
(** ** Specification-side notions *)
(* ===================================================================== *)

(** The entries one page contributes: each row decoded against the column
    positions of that same page. *)
Definition pageEntries (data : Payload) : list FolderEntry :=
  let colTypes := orEmpty (p_colTypes data) in
  map (entryOf getEntryType
               (Js.findIndex (named "PageCount") colTypes)
               (Js.findIndex (named "TemplateName") colTypes)
               (Js.findIndex (named "CreationDate") colTypes)
               (Js.findIndex (named "LastModified") colTypes))
      (orEmpty (p_results data)).

(** [firstAt n cols i]: [i] is the first position of [cols] named [n]. *)
Definition firstAt (n : string) (cols : list ColType) (i : nat) : Prop :=
  (exists c, nth_error cols i = Some c /\ col_name c = n) /\
  (forall j c, (j < i)%nat -> nth_error cols j = Some c -> col_name c <> n).

(** No column of [cols] is named [n]. *)
Definition noColumn (n : string) (cols : list ColType) : Prop :=
  forall c, In c cols -> col_name c <> n.

(** The value a row holds at position [i] of its data array, if any. *)
Definition cell (row : ResultRow) (i : nat) : option Js.Value :=
  match row_data row with
  | Some l => nth_error l i
  | None => None
  end.

(** A run of successive listing calls, one per window of [500] rows from
    offset [start], each of which the backend answers with a payload. *)
Inductive servesPages {World : Type}
    (URL_origin : string -> option string)
    (transport : Request -> World -> NetResult * World)
    (config : WebLinkConfig) (fuel : nat) (folderId : Z)
  : Z -> State World -> list Payload -> State World -> Prop :=
| serves_none : forall start s,
    servesPages URL_origin transport config fuel folderId start s [] s
| serves_page : forall start s r p s1 ps s2,
    getFolderListing URL_origin transport config fuel folderId
                     start (start + 500) s = (Ret r, s1) ->
    unwrapEnvelope r = Some p ->
    servesPages URL_origin transport config fuel folderId (start + 500) s1 ps s2 ->
    servesPages URL_origin transport config fuel folderId start s (p :: ps) s2.

(** The arguments of the listing calls recorded in a trace. *)
Fixpoint listingCalls (tr : list Event) : list (Z * Z * Z) :=
  match tr with
  | [] => []
  | Listing f a b :: r => (f, a, b) :: listingCalls r
  | Sent _ :: r => listingCalls r
  end.

(** The requests recorded in a trace. *)
Fixpoint requestsSent (tr : list Event) : list Request :=
  match tr with
  | [] => []
  | Sent q :: r => q :: requestsSent r
  | Listing _ _ _ :: r => requestsSent r
  end.

(** The windows [start, start + 500) of [n] successive pages. *)
Fixpoint windows (folderId start : Z) (n : nat) : list (Z * Z * Z) :=
  match n with
  | O => []
  | S k => (folderId, start, start + 500) :: windows folderId (start + 500) k
  end.

(** The state after the request [req] has been answered. *)
Definition afterNet {World : Type} (s : State World) (req : Request) (w : World)
  : State World :=
  Build_State (cookies s) w (trace s ++ [Sent req]).

(** The state after the cookies of the answer [r] have been stored as well. *)
Definition afterExchange {World : Type} (s : State World) (req : Request)
    (r : Response) (w : World) : State World :=
  Build_State (parseCookies r (cookies s)) w (trace s ++ [Sent req]).

(** One exchange of [fetch]: the request built for [url] in state [s] is
    answered by [r], and [s'] is the state once the cookies of [r] are
    stored. *)
Definition exchange {World : Type}
    (URL_origin : string -> option string)
    (transport : Request -> World -> NetResult * World)
    (config : WebLinkConfig) (options : RequestInit)
    (url : string) (s : State World) (r : Response) (s' : State World) : Prop :=
  exists fullUrl w,
    resolveUrl URL_origin config url s = (Ret fullUrl, s) /\
    transport (requestOf fullUrl (getCookieHeader (cookies s)) options)
              (world s) = (Delivered r, w) /\
    s' = afterExchange s
           (requestOf fullUrl (getCookieHeader (cookies s)) options) r w.

(** [r] asks to be followed to [loc]. *)
Definition redirectsTo (r : Response) (loc : string) : Prop :=
  In (status r) [301; 302; 303; 307; 308] /\ location r = Some loc /\ loc <> "".

Definition isFinal (r : Response) : Prop := forall loc, ~ redirectsTo r loc.

(** A finite redirect chain starting at [url], ending with [r]. *)
Inductive chain {World : Type}
    (URL_origin : string -> option string)
    (transport : Request -> World -> NetResult * World)
    (config : WebLinkConfig) (options : RequestInit)
  : string -> State World -> Response -> State World -> Prop :=
| chain_last : forall url s r s',
    exchange URL_origin transport config options url s r s' ->
    isFinal r ->
    chain URL_origin transport config options url s r s'
| chain_step : forall url s r s1 loc r' s',
    exchange URL_origin transport config options url s r s1 ->
    redirectsTo r loc ->
    chain URL_origin transport config options loc s1 r' s' ->
    chain URL_origin transport config options url s r' s'.

(** Exchanging the envelope key of a response that carries exactly one. *)
Definition flipEnvelope (r : ApiResponse) : ApiResponse :=
  match data r, d r with
  | Some p, None => {| data := None; d := Some p |}
  | None, Some p => {| data := Some p; d := None |}
  | _, _ => r
  end.

Definition flipResponse (r : Response) : Response :=
  {| status := status r;
     location := location r;
     setCookie := setCookie r;
     body := option_map (option_map flipEnvelope) (body r) |}.

(** The same backend, answering under the other envelope key. *)
Definition flipTransport {World : Type}
    (transport : Request -> World -> NetResult * World)
  : Request -> World -> NetResult * World :=
  fun req w =>
    let (res, w') := transport req w in
    (match res with
     | Delivered r => Delivered (flipResponse r)
     | Rejected => Rejected
     end, w').

(** Every name of the jar is free of leading and trailing white space. *)
Definition trimmedKeys (jar : Jar) : Prop :=
  Forall (fun nv => Js.trim (fst nv) = fst nv) jar.

(** The names bound in a jar. *)
Definition names (jar : Jar) : list string := map fst jar.

(** The label the library gives to the one code the script does not know. *)
Definition relabel (t : string) : string :=
  if String.eqb t "Unknown(-2)" then "Document" else t.

Definition relabelEntry (e : FolderEntry) : FolderEntry :=
  {| id := id e; name := name e; type := relabel (type e);
     pageCount := pageCount e; template := template e;
     creationDate := creationDate e;
     modificationDate := modificationDate e |}.

Definition relabelContents (c : FolderContents) : FolderContents :=
  {| folderName := folderName c; entries := map relabelEntry (entries c) |}.

Definition mapOutcome {A B : Type} (f : A -> B) (o : Outcome A) : Outcome B :=
  match o with
  | Ret a => Ret (f a)
  | Throw e => Throw e
  | OutOfFuel => OutOfFuel
  end.

(* ===================================================================== *)
(** ** Fixtures *)
(* ===================================================================== *)

(** The configuration of the Arcadia portal, as the command line passes it. *)
Definition ARCADIA_CONFIG : WebLinkConfig :=
  {| baseUrl := "https://laserfiche.arcadiaca.gov/WebLink";
     repoName := "CityofArcadia";
     dbid := 0 |}.

(** The origin of the portal's base URL. *)
Definition arcadiaOrigin (u : string) : option string :=
  if String.eqb u "https://laserfiche.arcadiaca.gov/WebLink"
  then Some "https://laserfiche.arcadiaca.gov"
  else None.

(** A backend that plays a fixed sequence of responses, one per request,
    and rejects once the sequence is exhausted. *)
Definition scripted (req : Request) (script : list Response)
  : NetResult * list Response :=
  match script with
  | r :: rest => (Delivered r, rest)
  | [] => (Rejected, [])
  end.

Definition freshClient (script : list Response) : State (list Response) :=
  Build_State [] script [].

Definition okJson (env : ApiResponse) : Response :=
  {| status := 200; location := None; setCookie := [];
     body := Some (Some env) |}.

Definition underData (p : Payload) : ApiResponse :=
  {| data := Some p; d := None |}.

Definition underD (p : Payload) : ApiResponse :=
  {| data := None; d := Some p |}.

Definition plainRow (n : Z) : ResultRow :=
  {| row_name := "row"; row_entryId := n; row_type := 1; row_data := Some [] |}.

Definition pageOf (total : option Z) (rows : nat) : Payload :=
  {| p_name := Some "Agendas";
     p_totalEntries := total;
     p_results := Some (repeat (plainRow 7) rows);
     p_colTypes := Some [] |}.

(** Three pages of 500, 500 and 200 rows; the first reports 1200 entries. *)
Definition threePages : list Response :=
  [ okJson (underData (pageOf (Some 1200) 500));
    okJson (underD (pageOf None 500));
    okJson (underData (pageOf (Some 7) 200)) ].

(** An empty folder: no rows, a total of zero. *)
Definition emptyFolder : Payload :=
  {| p_name := Some "Empty"; p_totalEntries := Some 0;
     p_results := Some []; p_colTypes := Some [] |}.

(** [v] is what the column named [n] of [cols] holds in [row]: the cell at
    the first position carrying that name, nothing when no column does. *)
Definition readsColumn (cols : list ColType) (row : ResultRow) (n : string)
    (v : option Js.Value) : Prop :=
  (forall i, firstAt n cols i -> v = cell row i) /\
  (noColumn n cols -> v = None).

(** [e] is the row [row] decoded against the columns [cols]. *)
Definition decodedFrom (cols : list ColType) (row : ResultRow) (e : FolderEntry)
  : Prop :=
  id e = row_entryId row /\
  name e = row_name row /\
  type e = getEntryType (row_type row) /\
  readsColumn cols row "PageCount" (pageCount e) /\
  readsColumn cols row "TemplateName" (template e) /\
  readsColumn cols row "CreationDate" (creationDate e) /\
  readsColumn cols row "LastModified" (modificationDate e).

(** Two pages whose columns come in a different order. *)
Definition agendaRow (cells : list Js.Value) : ResultRow :=
  {| row_name := "Agenda"; row_entryId := 42; row_type := 1;
     row_data := Some cells |}.

Definition pageTemplateFirst : Payload :=
  {| p_name := Some "Council"; p_totalEntries := Some 600;
     p_results := Some [agendaRow [Js.JStr "CC - Agendas"; Js.JNum 7]];
     p_colTypes := Some [ {| col_name := "TemplateName" |};
                          {| col_name := "PageCount" |} ] |}.

Definition pagePageCountFirst : Payload :=
  {| p_name := Some "Council"; p_totalEntries := Some 600;
     p_results := Some [agendaRow [Js.JNum 3; Js.JStr "CC - Minutes"]];
     p_colTypes := Some [ {| col_name := "PageCount" |};
                          {| col_name := "TemplateName" |} ] |}.

Definition twoLayouts : list Response :=
  [ okJson (underData pageTemplateFirst); okJson (underData pagePageCountFirst) ].

(** The state in which a listing call issues its request. *)
Definition listingStarted {World : Type} (s : State World)
    (folderId start finish : Z) : State World :=
  Build_State (cookies s) (world s) (trace s ++ [Listing folderId start finish]).

(** The URL of the listing service. *)
Definition listingUrl (config : WebLinkConfig) : string :=
  baseUrl config ++ "/FolderListingService.aspx/GetFolderListing2".

Definition notFound : Response :=
  {| status := 404; location := None; setCookie := [];
     body := Some (Some (underData emptyFolder)) |}.

Definition notJson : Response :=
  {| status := 200; location := None; setCookie := []; body := None |}.

(** A success whose body is the JSON text [null]. *)
Definition nullBody : Response :=
  {| status := 200; location := None; setCookie := []; body := Some None |}.

(** No name of the jar is the empty string. *)
Definition nonEmptyKeys (jar : Jar) : Prop :=
  Forall (fun nv => fst nv <> "") jar.

(** The text of one jar entry in a [Cookie] header. *)
Definition pairText (nv : string * string) : string := fst nv ++ "=" ++ snd nv.

(** The character [c] occurs in [s]. *)
Fixpoint occurs (c : ascii) (s : string) : Prop :=
  match s with
  | EmptyString => False
  | String a r => a = c \/ occurs c r
  end.

(** Every character of [s] is white space. *)
Fixpoint blank (s : string) : Prop :=
  match s with
  | EmptyString => True
  | String a r => Js.isWhiteSpace a = true /\ blank r
  end.

Definition withCookies (cs : list string) : Response :=
  {| status := 200; location := None; setCookie := cs; body := None |}.

(** Three requests in a row, as a session makes them. *)
Definition threeFetches : M (list Response) Response :=
  (fetch arcadiaOrigin scripted ARCADIA_CONFIG 1 "Welcome.aspx" noOptions ;;;
   fetch arcadiaOrigin scripted ARCADIA_CONFIG 1 "Login.aspx" noOptions ;;;
   fetch arcadiaOrigin scripted ARCADIA_CONFIG 1 "Browse.aspx" noOptions)%client.

(** The [Cookie] header of each request of a trace. *)
Definition cookieHeaders (tr : list Event) : list (option string) :=
  map (fun q => Js.Map_get "Cookie" (req_headers q)) (requestsSent tr).

(** From [s] to [s'] no name leaves the jar. *)
Definition keepsNames {World : Type} (s s' : State World) : Prop :=
  incl (names (cookies s)) (names (cookies s')).

(** From [s] to [s'] the names of the jar stay trimmed. *)
Definition keepsTrimmed {World : Type} (s s' : State World) : Prop :=
  trimmedKeys (cookies s) -> trimmedKeys (cookies s').

(** The public operations of the client. *)
Inductive Operation :=
| OpFetch (url : string) (options : RequestInit)
| OpInitSession
| OpGetFolderListing (folderId start finish : Z)
| OpGetAllEntries (folderId : Z)
| OpBrowseFolder (folderId : Z)
| OpGetRootFolder.

(** The state an operation leaves, whatever its outcome. *)
Definition finalState {World : Type}
    (URL_origin : string -> option string)
    (transport : Request -> World -> NetResult * World)
    (config : WebLinkConfig) (op : Operation) (fuel : nat) (s : State World)
  : State World :=
  match op with
  | OpFetch url options =>
      snd (fetch URL_origin transport config fuel url options s)
  | OpInitSession => snd (initSession URL_origin transport config fuel s)
  | OpGetFolderListing folderId a b =>
      snd (getFolderListing URL_origin transport config fuel folderId a b s)
  | OpGetAllEntries folderId =>
      snd (getAllEntries URL_origin transport config fuel folderId s)
  | OpBrowseFolder folderId =>
      snd (browseFolder URL_origin transport config fuel folderId s)
  | OpGetRootFolder => snd (getRootFolder URL_origin transport config fuel s)
  end.

(** The no-break space U+00A0, which [trim] removes and which a header
    value may start with. *)
Definition nbsp : ascii := ascii_of_nat 160.

(** A redirect to [/Other.aspx] that sets the cookie [A=1]. *)
Definition movedToOther : Response :=
  {| status := 302; location := Some "/Other.aspx"; setCookie := ["A=1"];
     body := None |}.

(** A redirect status with a [Location] header whose value is empty. *)
Definition movedNowhere : Response :=
  {| status := 302; location := Some ""; setCookie := ["A=1"]; body := None |}.

(** Options whose headers carry a [Cookie] of the caller's own. *)
Definition ownCookie : RequestInit :=
  {| init_method := None; init_headers := [("Cookie", "X=9")];
     init_body := None |}.

(** From [s] to [s'] the trace is only extended. *)
Definition extendsTrace {World : Type} (s s' : State World) : Prop :=
  exists rest, trace s' = (trace s ++ rest)%list.

(** The URL and [Cookie] header of each request of a trace. *)
Definition requestLines (tr : list Event) : list (string * option string) :=
  map (fun q => (req_url q, Js.Map_get "Cookie" (req_headers q)))
      (requestsSent tr).

(** A page with one row whose type is the alternate document code. *)
Definition altDocumentPage : Payload :=
  {| p_name := Some "Minutes"; p_totalEntries := Some 1;
     p_results := Some [ {| row_name := "2024-01-09"; row_entryId := 9;
                            row_type := -2; row_data := None |} ];
     p_colTypes := None |}.

From Stdlib Require Import Permutation.

(* ===================================================================== *)
(** ** Further fixtures of the library client *)
(* ===================================================================== *)

(** A backend without state that answers every request with [r]. *)
Definition always (r : Response) (req : Request) (w : unit)
  : NetResult * unit := (Delivered r, w).

(** A backend that rejects every request. *)
Definition unreachable (req : Request) (w : unit) : NetResult * unit :=
  (Rejected, w).

(** A page that reports 5000 entries and holds [rows] of them. *)
Definition largeFolder (rows : nat) : Payload := pageOf (Some 5000) rows.

(** A response that is a success but carries neither envelope key. *)
Definition noData : Response :=
  okJson {| data := None; d := None |}.

(** A first page of 500 rows out of 1200, then a listing that fails. *)
Definition secondPageFails : list Response :=
  [ okJson (underData (pageOf (Some 1200) 500)); notFound ].

(** Every request to the backend is rejected. *)
Definition rejectsAll {World : Type}
    (transport : Request -> World -> NetResult * World) : Prop :=
  forall req w, fst (transport req w) = Rejected.

(** With [fuel], no listing call is cut short by a redirect chain. *)
Definition listingsFinish {World : Type}
    (URL_origin : string -> option string)
    (transport : Request -> World -> NetResult * World)
    (config : WebLinkConfig) (fuel : nat) : Prop :=
  forall folderId a b (s : State World),
    fst (getFolderListing URL_origin transport config fuel folderId a b s)
    <> OutOfFuel.

(** The outcome is an exception. *)
Definition raises {A : Type} (o : Outcome A) : Prop := exists e, o = Throw e.

(** A name and a value that a Set-Cookie entry can carry as they are. *)
Definition plainPair (nv : string * string) : Prop :=
  fst nv <> "" /\ Js.trim (fst nv) = fst nv /\ Js.trim (snd nv) = snd nv /\
  ~ occurs "=" (fst nv) /\ ~ occurs ";" (fst nv) /\ ~ occurs ";" (snd nv).

(** The request a listing call sends first. *)
Definition listingRequest (config : WebLinkConfig) (cookie : string)
    (folderId start finish : Z) : Request :=
  {| req_url := listingUrl config;
     req_method := Some "POST";
     req_redirect := "manual";
     req_headers :=
       [ ("User-Agent", userAgent);
         ("Accept", "application/json");
         ("Cookie", cookie);
         ("Content-Type", "application/json; charset=utf-8");
         ("X-Requested-With", "XMLHttpRequest") ];
     req_body :=
       Some (Js.JObj
               [ ("repoName", Js.JStr (repoName config));
                 ("folderId", Js.JNum folderId);
                 ("getNewListing", Js.JBool true);
                 ("start", Js.JNum start);
                 ("end", Js.JNum finish);
                 ("sortColumn", Js.JStr "name");
                 ("sortAscending", Js.JBool true) ]) |}.

(* ===================================================================== *)
(** ** More JavaScript primitives, for the command line *)
(* ===================================================================== *)

(** Text typed at the prompt or passed on the command line is modelled like
    header text, with one-byte code units.  Numerals are read as exact
    integers, which is what JavaScript computes below 2^53. *)

Module JsStd.

(** [s.split(c)] for a one-character separator. *)
Fixpoint split (c : ascii) (s : string) : list string :=
  match s with
  | EmptyString => [EmptyString]
  | String a r =>
      if Ascii.eqb a c then EmptyString :: split c r
      else match split c r with
           | seg :: rest => String a seg :: rest
           | [] => [String a EmptyString]
           end
  end.

(** [s.includes(c)] for a one-character search string. *)
Fixpoint includes (c : ascii) (s : string) : bool :=
  match s with
  | EmptyString => false
  | String a r => Ascii.eqb a c || includes c r
  end.

(** The value of a character as a digit, letters counting from ten. *)
Definition digitOf (a : ascii) : option Z :=
  let n := Z.of_N (N_of_ascii a) in
  if (48 <=? n) && (n <=? 57) then Some (n - 48)
  else if (97 <=? n) && (n <=? 122) then Some (n - 87)
  else if (65 <=? n) && (n <=? 90) then Some (n - 55)
  else None.

Definition radixDigit (radix : Z) (a : ascii) : option Z :=
  match digitOf a with
  | Some v => if v <? radix then Some v else None
  | None => None
  end.

(** The values of the longest prefix of [s] made of digits of the radix. *)
Fixpoint leadingDigits (radix : Z) (s : string) : list Z :=
  match s with
  | EmptyString => []
  | String a r =>
      match radixDigit radix a with
      | Some v => v :: leadingDigits radix r
      | None => []
      end
  end.

Definition digitsValue (radix : Z) (ds : list Z) : Z :=
  fold_left (fun acc v => acc * radix + v) ds 0.

(** [parseInt(s)] without a radix; [None] is [NaN].  Leading white space is
    skipped, then a sign, then a [0x] or [0X] prefix, which selects radix
    16; the number is that of the digits that follow, up to the first
    character that is not one.  The result is the exact integer of the
    digits, which is the number of the program when it is a safe integer
    (the program rounds a larger one). *)
Definition parseInt (input : string) : option Z :=
  let s := Js.trimStart input in
  let signed :=
    match s with
    | String a r =>
        if Ascii.eqb a "-" then (-1, r)
        else if Ascii.eqb a "+" then (1, r)
        else (1, s)
    | EmptyString => (1, s)
    end in
  let prefixed :=
    match snd signed with
    | String a (String b r) =>
        if Ascii.eqb a "0" && (Ascii.eqb b "x" || Ascii.eqb b "X")
        then (16, r) else (10, snd signed)
    | _ => (10, snd signed)
    end in
  match leadingDigits (fst prefixed) (snd prefixed) with
  | [] => None
  | ds => Some (fst signed * digitsValue (fst prefixed) ds)
  end.

(** [c.toLowerCase()] on a one-byte code unit: the letters A to Z and the
    accented capitals from 192 to 222, the sign 215 apart, move up by 32. *)
Definition lowerChar (a : ascii) : ascii :=
  let n := N_of_ascii a in
  if ((65 <=? n) && (n <=? 90)
      || (192 <=? n) && (n <=? 222) && negb (n =? 215))%N
  then ascii_of_N (n + 32) else a.

(** [s.toLowerCase()] *)
Fixpoint toLowerCase (s : string) : string :=
  match s with
  | EmptyString => EmptyString
  | String a r => String (lowerChar a) (toLowerCase r)
  end.

(** [set.add(x)] on a [Set<number>] kept in insertion order. *)
Definition Set_add (x : Z) (set : list Z) : list Z :=
  if existsb (Z.eqb x) set then set else (set ++ [x])%list.

Fixpoint insertAscending (x : Z) (l : list Z) : list Z :=
  match l with
  | [] => [x]
  | y :: r => if x <=? y then x :: l else y :: insertAscending x r
  end.

(** [xs.sort((a, b) => a - b)]: the numbers in ascending order. *)
Definition sortAscending (l : list Z) : list Z :=
  fold_right insertAscending [] l.

End JsStd.

(* ===================================================================== *)
(** ** Console helpers ([src/cli/ui.ts]) *)
(* ===================================================================== *)

(** The [for (let i = lo; i <= hi; i++)] loop of [parseSelection]; [n]
    counts the iterations left.  It is the loop of the program for ends
    that are safe integers, where [i++] adds one. *)
Fixpoint addRange (n : nat) (i hi max : Z) (selections : list Z) : list Z :=
  match n with
  | O => selections
  | S n' =>
      if i <=? hi then
        addRange n' (i + 1) hi max
                 (if (i >=? 1) && (i <=? max) then JsStd.Set_add i selections
                  else selections)
      else selections
  end.

(** The body of the [for (const part of parts)] loop. *)
Definition parsePart (max : Z) (selections : list Z) (part : string) : list Z :=
  if JsStd.includes "-" part then
    match map (fun n => JsStd.parseInt (Js.trim n)) (JsStd.split "-" part) with
    | Some start :: Some finish :: _ =>
        addRange (Z.to_nat (Z.max start finish - Z.min start finish + 1))
                 (Z.min start finish) (Z.max start finish) max selections
    | _ => selections
    end
  else
    match JsStd.parseInt part with
    | Some num =>
        if (num >=? 1) && (num <=? max) then JsStd.Set_add num selections
        else selections
    | None => selections
    end.

Definition parseSelection (input : string) (max : Z) : list Z :=
  let parts := map Js.trim (JsStd.split "," input) in
  JsStd.sortAscending (fold_left (parsePart max) parts []).

(** What [parseInt] reads from [s], if anything, is a safe integer. *)
Definition readsSafely (s : string) : bool :=
  match JsStd.parseInt s with
  | Some v => Js.isSafeInteger v
  | None => true
  end.

(** Every piece of [input] that [parseSelection] hands to [parseInt] reads
    as a safe integer.  The numbers of the program are then those of the
    model, and its range loops count one by one up to their end. *)
Definition safeSelection (input : string) : bool :=
  forallb (fun part =>
             forallb (fun piece => readsSafely (Js.trim piece))
                     (JsStd.split "-" part))
          (map Js.trim (JsStd.split "," input)).

(** The numbers [part] stands for: the one it spells, or those between the
    two ends of the range it spells. *)
Definition selects (k : Z) (part : string) : Prop :=
  if JsStd.includes "-" part then
    match map (fun n => JsStd.parseInt (Js.trim n)) (JsStd.split "-" part) with
    | Some start :: Some finish :: _ =>
        Z.min start finish <= k <= Z.max start finish
    | _ => False
    end
  else JsStd.parseInt part = Some k.

(** The decimal digits of a numeral, most significant first. *)
Fixpoint uintDigits (u : Decimal.uint) : list Z :=
  match u with
  | Decimal.Nil => []
  | Decimal.D0 r => 0 :: uintDigits r
  | Decimal.D1 r => 1 :: uintDigits r
  | Decimal.D2 r => 2 :: uintDigits r
  | Decimal.D3 r => 3 :: uintDigits r
  | Decimal.D4 r => 4 :: uintDigits r
  | Decimal.D5 r => 5 :: uintDigits r
  | Decimal.D6 r => 6 :: uintDigits r
  | Decimal.D7 r => 7 :: uintDigits r
  | Decimal.D8 r => 8 :: uintDigits r
  | Decimal.D9 r => 9 :: uintDigits r
  end.

(** Every character of [s] is a decimal digit. *)
Fixpoint numeral (s : string) : Prop :=
  match s with
  | EmptyString => True
  | String a r => (exists v, JsStd.radixDigit 10 a = Some v) /\ numeral r
  end.


(** Every character of [s] passes the test [p]. *)
Fixpoint allChars (p : ascii -> bool) (s : string) : Prop :=
  match s with
  | EmptyString => True
  | String a r => p a = true /\ allChars p r
  end.

(** Neither white space nor a comma. *)
Definition solid (a : ascii) : bool :=
  negb (Js.isWhiteSpace a) && negb (Ascii.eqb a ",").

(** The numbers from [lo] to [hi] that lie between 1 and [max]. *)
Definition within (lo hi max k : Z) : Prop :=
  1 <= k <= max /\ lo <= k <= hi.

(* ===================================================================== *)
(** ** The interactive browser ([src/cli/commands/browse.ts]) *)
(* ===================================================================== *)

(** [Map.prototype.set] and [has] on a [Map<number, V>]. *)
Fixpoint NumMap_set {V : Type} (k : Z) (v : V) (m : list (Z * V))
  : list (Z * V) :=
  match m with
  | [] => [(k, v)]
  | (k', v') :: r =>
      if Z.eqb k' k then (k, v) :: r else (k', v') :: NumMap_set k v r
  end.

Definition NumMap_has {V : Type} (k : Z) (m : list (Z * V)) : bool :=
  existsb (fun kv => Z.eqb (fst kv) k) m.

(** [xs.pop()]: the last element and the array without it. *)
Definition Array_pop {A : Type} (xs : list A) : option (A * list A) :=
  match List.rev xs with
  | [] => None
  | x :: r => Some (x, List.rev r)
  end.

Record BrowseState := {
  currentFolderId : Z;
  currentPath : string;
  selectedFolders : list (Z * FolderEntry);
  history : list (Z * string)
}.

(** [entries.filter((e) => e.type === "Folder")] *)
Definition foldersOf (entries : list FolderEntry) : list FolderEntry :=
  filter (fun e => String.eqb (type e) "Folder") entries.

(** [/[a-z0-9]/i] on one character. *)
Definition isAlphanumeric (a : ascii) : bool :=
  let n := N_of_ascii a in
  ((48 <=? n) && (n <=? 57) || (65 <=? n) && (n <=? 90)
   || (97 <=? n) && (n <=? 122))%N.

(** [name.replace(/[^a-z0-9]/gi, "-")] *)
Fixpoint replaceOthers (name : string) : string :=
  match name with
  | EmptyString => EmptyString
  | String a r =>
      String (if isAlphanumeric a then a else "-"%char) (replaceOthers r)
  end.

Definition sanitizedName (name : string) : string :=
  JsStd.toLowerCase (replaceOthers name).

(** The file a selected folder is saved to. *)
Definition selectionFilename (folder : FolderEntry) (id : Z) : string :=
  "arcadia-" ++ sanitizedName (name folder) ++ "-" ++ Js.numberToString id
  ++ ".json".

(** One character of [/^[\d,\- ]+$/]. *)
Definition isSelectionChar (a : ascii) : bool :=
  let n := N_of_ascii a in
  ((48 <=? n) && (n <=? 57) || (n =? 44) || (n =? 45) || (n =? 32))%N.

Fixpoint allSelectionChars (s : string) : bool :=
  match s with
  | EmptyString => true
  | String a r => isSelectionChar a && allSelectionChars r
  end.

(** [input.match(/^[\d,\- ]+$/)] *)
Definition isSelectionInput (input : string) : bool :=
  negb (String.eqb input "") && allSelectionChars input.

(** What one turn of the loop leaves: the state, whether the loop goes on,
    and the calls of [fetchCommand] it made, each with its folder and, when
    given, its output path.  What the turn prints is left out. *)
Record Turn := {
  after : BrowseState;
  running : bool;
  fetched : list (Z * option string)
}.

(** The [selections.forEach] of a multiple selection; [None] when a number
    has no folder, where the source would read a property of [undefined]. *)
Fixpoint addSelections (folders : list FolderEntry) (selections : list Z)
    (selected : list (Z * FolderEntry)) : option (list (Z * FolderEntry)) :=
  match selections with
  | [] => Some selected
  | num :: rest =>
      match Js.optIndex (Some folders) (num - 1) with
      | Some folder =>
          addSelections folders rest
            (if negb (NumMap_has (id folder) selected)
             then NumMap_set (id folder) folder selected
             else selected)
      | None => None
      end
  end.

(** The handling of one line of input, given the folders on display. *)
Definition handleCommand (state : BrowseState) (folders : list FolderEntry)
    (input : string) : option Turn :=
  let command := Js.trim (JsStd.toLowerCase input) in
  let stay st := Some {| after := st; running := true; fetched := [] |} in
  if String.eqb command "q" then
    Some {| after := state; running := false; fetched := [] |}
  else if String.eqb command "b" then
    match Array_pop (history state) with
    | Some (prev, rest) =>
        stay {| currentFolderId := fst prev;
                currentPath := snd prev;
                selectedFolders := selectedFolders state;
                history := rest |}
    | None => stay state
    end
  else if String.eqb command "f" then
    if Z.of_nat (List.length (selectedFolders state)) >? 0 then
      Some {| after := {| currentFolderId := currentFolderId state;
                          currentPath := currentPath state;
                          selectedFolders := [];
                          history := history state |};
              running := true;
              fetched :=
                map (fun kv => (fst kv,
                                Some (selectionFilename (snd kv) (fst kv))))
                    (selectedFolders state) |}
    else
      Some {| after := state; running := true;
              fetched := [(currentFolderId state, None)] |}
  else if String.eqb command "a" then
    if Z.of_nat (List.length folders) >? 0 then
      stay {| currentFolderId := currentFolderId state;
              currentPath := currentPath state;
              selectedFolders :=
                fold_left (fun sel f => NumMap_set (id f) f sel) folders [];
              history := history state |}
    else stay state
  else if String.eqb command "c" then
    stay {| currentFolderId := currentFolderId state;
            currentPath := currentPath state;
            selectedFolders := [];
            history := history state |}
  else if isSelectionInput input then
    let selections := parseSelection input (Z.of_nat (List.length folders)) in
    match selections with
    | [] => stay state
    | [num] =>
        match Js.optIndex (Some folders) (num - 1) with
        | Some selectedFolder =>
            stay {| currentFolderId := id selectedFolder;
                    currentPath :=
                      currentPath state ++ " > " ++ name selectedFolder;
                    selectedFolders := selectedFolders state;
                    history :=
                      (history state
                       ++ [(currentFolderId state, currentPath state)])%list |}
        | None => None
        end
    | _ =>
        match addSelections folders selections (selectedFolders state) with
        | Some selected =>
            stay {| currentFolderId := currentFolderId state;
                    currentPath := currentPath state;
                    selectedFolders := selected;
                    history := history state |}
        | None => None
        end
    end
  else stay state.

(** The selection binds distinct ids, each to an entry of that id. *)
Definition wellKeyed (selected : list (Z * FolderEntry)) : Prop :=
  NoDup (map fst selected) /\ Forall (fun kv => id (snd kv) = fst kv) selected.

(** A lower-case letter, a digit or a hyphen. *)
Definition isFileChar (a : ascii) : bool :=
  let n := N_of_ascii a in
  ((48 <=? n) && (n <=? 57) || (97 <=? n) && (n <=? 122) || (n =? 45))%N.

Definition folderEntry (n : Z) (label : string) : FolderEntry :=
  {| id := n; name := label; type := "Folder"; pageCount := None;
     template := None; creationDate := None; modificationDate := None |}.

Definition atRoot : BrowseState :=
  {| currentFolderId := 1; currentPath := "Root"; selectedFolders := [];
     history := [] |}.

Definition threeFolders : list FolderEntry :=
  [ folderEntry 11 "City Council"; folderEntry 12 "Planning (2024)";
    folderEntry 13 "Budget" ].

(** The state after the folder [f] has been opened from [state]. *)
Definition opened (state : BrowseState) (f : FolderEntry) : BrowseState :=
  {| currentFolderId := id f;
     currentPath := currentPath state ++ " > " ++ name f;
     selectedFolders := selectedFolders state;
     history :=
       (history state ++ [(currentFolderId state, currentPath state)])%list |}.

(** A turn that goes on and fetches nothing. *)
Definition quietTurn (state : BrowseState) : Turn :=
  {| after := state; running := true; fetched := [] |}.

(** [state] with the selection replaced by [selected]. *)
Definition withSelection (state : BrowseState)
    (selected : list (Z * FolderEntry)) : BrowseState :=
  {| currentFolderId := currentFolderId state;
     currentPath := currentPath state;
     selectedFolders := selected;
     history := history state |}.

(** A character of a file name: [isFileChar] or the dot. *)
Definition isFileNameChar (a : ascii) : bool :=
  isFileChar a || Ascii.eqb a ".".


(* ===================================================================== *)
(** ** The fetch command (the unnamed [src/cli/commands/fetch.ts]) *)
(* ===================================================================== *)

(** [entries.filter((e) => e.type !== "Folder")] *)
Definition documentsOf (entries : list FolderEntry) : list FolderEntry :=
  filter (fun e => negb (String.eqb (type e) "Folder")) entries.

Definition browseUrl (config : WebLinkConfig) (n : Z) : string :=
  baseUrl config ++ "/Browse.aspx?id=" ++ Js.numberToString n
  ++ "&dbid=" ++ Js.numberToString (dbid config)
  ++ "&repo=" ++ repoName config.

Definition docViewUrl (config : WebLinkConfig) (n : Z) : string :=
  baseUrl config ++ "/DocView.aspx?id=" ++ Js.numberToString n
  ++ "&dbid=" ++ Js.numberToString (dbid config)
  ++ "&repo=" ++ repoName config.

(** The object handed to [JSON.stringify]; an entry with its [url] is a
    pair. *)
Record SavedOutput := {
  out_folderId : Z;
  out_folderName : string;
  out_repository : string;
  out_folderUrl : string;
  out_fetchedAt : string;
  out_totalEntries : Z;
  out_folders : list (FolderEntry * string);
  out_documents : list (FolderEntry * string)
}.

(** The [output] of [fetchCommand]; [fetchedAt] is the ISO text of the
    clock. *)
Definition fetchOutput (config : WebLinkConfig) (folderId : Z)
    (contents : FolderContents) (fetchedAt : string) : SavedOutput :=
  let folders := foldersOf (entries contents) in
  let documents := documentsOf (entries contents) in
  {| out_folderId := folderId;
     out_folderName := folderName contents;
     out_repository := repoName config;
     out_folderUrl := browseUrl config folderId;
     out_fetchedAt := fetchedAt;
     out_totalEntries := Z.of_nat (List.length (entries contents));
     out_folders := map (fun e => (e, browseUrl config (id e))) folders;
     out_documents := map (fun e => (e, docViewUrl config (id e))) documents |}.

(** The [output] of [main] in [arcadia-files.ts]. *)
Definition legacyOutput (folderId : Z) (contents : FolderContents)
    (fetchedAt : string) : SavedOutput :=
  let folders := foldersOf (entries contents) in
  let documents := documentsOf (entries contents) in
  {| out_folderId := folderId;
     out_folderName := folderName contents;
     out_repository := Legacy.REPO;
     out_folderUrl :=
       Legacy.BASE_URL ++ "/Browse.aspx?id=" ++ Js.numberToString folderId
       ++ "&dbid=0&repo=" ++ Legacy.REPO;
     out_fetchedAt := fetchedAt;
     out_totalEntries := Z.of_nat (List.length (entries contents));
     out_folders :=
       map (fun e => (e, Legacy.BASE_URL ++ "/Browse.aspx?id="
                         ++ Js.numberToString (id e)
                         ++ "&dbid=0&repo=" ++ Legacy.REPO)) folders;
     out_documents :=
       map (fun e => (e, Legacy.BASE_URL ++ "/DocView.aspx?id="
                         ++ Js.numberToString (id e)
                         ++ "&dbid=0&repo=" ++ Legacy.REPO)) documents |}.

(** [parseInt(process.argv[2]) || DEFAULT_FOLDER_ID] in [arcadia-files.ts]. *)
Definition legacyFolderId (arg : option string) : Z :=
  match arg with
  | Some a =>
      match JsStd.parseInt a with
      | Some n => if Z.eqb n 0 then Legacy.DEFAULT_FOLDER_ID else n
      | None => Legacy.DEFAULT_FOLDER_ID
      end
  | None => Legacy.DEFAULT_FOLDER_ID
  end.

(* ===================================================================== *)
(** ** The entry point (the unnamed [src/cli/index.ts]) *)
(* ===================================================================== *)

Definition DEFAULT_FOLDER_ID : Z := 874714.

(** What [main] does with its arguments: one of the two commands on the
    Arcadia configuration, or an exit with status 1 after one of the two
    error messages. *)
Inductive Action :=
| RunFetch (folderId : Z)
| RunBrowse (startFolderId : Z)
| ExitInvalidFolder
| ExitUsage.

(** [args[1] ? parseInt(args[1]) : fallback]; [None] is [NaN]. *)
Definition secondArgument (rest : list string) (fallback : Z) : option Z :=
  match rest with
  | a :: _ => if Js.truthy a then JsStd.parseInt a else Some fallback
  | [] => Some fallback
  end.

Definition cliMain (args : list string) : Action :=
  match args with
  | [] => RunFetch DEFAULT_FOLDER_ID
  | first :: rest =>
      let command := JsStd.toLowerCase first in
      if String.eqb command "browse" then
        match secondArgument rest 1 with
        | Some startFolderId => RunBrowse startFolderId
        | None => ExitInvalidFolder
        end
      else if String.eqb command "fetch" then
        match secondArgument rest DEFAULT_FOLDER_ID with
        | Some folderId => RunFetch folderId
        | None => ExitInvalidFolder
        end
      else
        match JsStd.parseInt command with
        | Some folderId => RunFetch folderId
        | None => ExitUsage
        end
  end.

Definition documentEntry (n : Z) (label : string) : FolderEntry :=
  {| id := n; name := label; type := "Document"; pageCount := None;
     template := None; creationDate := None; modificationDate := None |}.

Definition mixedContents : FolderContents :=
  {| folderName := "Council";
     entries := [ documentEntry 21 "Agenda"; folderEntry 11 "Minutes";
                  documentEntry 22 "Budget"; folderEntry 12 "Archive" ] |}.

(** The number of pages a reported total calls for. *)
Definition pagesFor (total : Z) : nat := Z.to_nat (Z.max 1 ((total + 499) / 500)).

(** Each request repeats the method and the body of [options] and leaves
    redirects to the client. *)
Definition repeats (options : RequestInit) (q : Request) : Prop :=
  req_method q = init_method options
  /\ req_body q = init_body options
  /\ req_redirect q = "manual".

(* ===================================================================== *)
(** ** The fetch command (the unnamed [src/cli/commands/fetch.ts]) *)
(* ===================================================================== *)

(** [new WebLinkClient(config)]: a client of its own, with an empty jar. *)
Definition newClient {World} (s : State World) : State World :=
  {| cookies := []; world := world s; trace := trace s |}.

(** [outputPath || "arcadia-entries.json"]. *)
Definition outputFile (outputPath : option string) : string :=
  match outputPath with
  | Some p => if Js.truthy p then p else "arcadia-entries.json"
  | None => "arcadia-entries.json"
  end.

(** [fetchCommand], without what it prints: the result is the file written
    with the object saved in it, [None] when the command returns before
    saving.  The client is local to the call, so the jar of the caller is
    the same afterwards. *)
Definition fetchCommand {World} (URL_origin : string -> option string)
    (transport : Request -> World -> NetResult * World)
    (config : WebLinkConfig) (fuel : nat) (folderId : Z)
    (outputPath : option string) (fetchedAt : string)
  : M World (option (string * SavedOutput)) :=
  fun s =>
    let (o, s') :=
      (initSession URL_origin transport config fuel ;;;
       contents <- getAllEntries URL_origin transport config fuel folderId ;;
       match entries contents with
       | [] => ret None
       | _ :: _ =>
           ret (Some (outputFile outputPath,
                      fetchOutput config folderId contents fetchedAt))
       end)%client (newClient s) in
    (o, {| cookies := cookies s; world := world s'; trace := trace s' |}).

(** A portal that sets no cookie on its first two pages and then serves
    the two pages of [twoLayouts]. *)
Definition noCookiePortal : list Response :=
  notFound :: notFound :: twoLayouts.

(* ===================================================================== *)
(** ** Entry types *)
(* ===================================================================== *)

Lemma to_int_parses (n : Z) :
  NilZero.int_of_string (NilZero.string_of_int (Z.to_int n)) = Some (Z.to_int n).
Proof.
  apply NilZero.isi; destruct n; simpl; try discriminate;
    intros [= E]; exact (DecimalPos.Unsigned.to_uint_nonnil _ E).
Qed.

Lemma numberToString_inj (n m : Z) :
  Js.numberToString n = Js.numberToString m -> n = m.
Proof.
  unfold Js.numberToString. intros H.
  pose proof (to_int_parses n) as Hn. rewrite H, to_int_parses in Hn.
  injection Hn as Hn.
  rewrite <- (DecimalZ.of_to n), <- (DecimalZ.of_to m), Hn. reflexivity.
Qed.

Lemma getEntryType_cases (n : Z) :
  getEntryType n =
    if n =? 0 then "Folder"
    else if n =? 1 then "Document"
    else if n =? 2 then "Shortcut"
    else if n =? -2 then "Document"
    else "Unknown(" ++ Js.numberToString n ++ ")".
Proof.
  unfold getEntryType.
  destruct n as [|[p|p|]|[p|p|]]; try reflexivity;
    destruct p; reflexivity.
Qed.

Lemma legacy_getEntryType_cases (n : Z) :
  Legacy.getEntryType n =
    if n =? 0 then "Folder"
    else if n =? 1 then "Document"
    else if n =? 2 then "Shortcut"
    else "Unknown(" ++ Js.numberToString n ++ ")".
Proof.
  unfold Legacy.getEntryType.
  destruct n as [|[p|p|]|[p|p|]]; try reflexivity;
    destruct p; reflexivity.
Qed.

Lemma length_append (a b : string) :
  String.length (a ++ b) = (String.length a + String.length b)%nat.
Proof. induction a as [|x a IH]; simpl; [reflexivity|now rewrite IH]. Qed.

Lemma append_right_cancel (a b c : string) : a ++ c = b ++ c -> a = b.
Proof.
  revert b. induction a as [|x a IH]; intros b H.
  - destruct b as [|y b]; [reflexivity|]. exfalso.
    apply (f_equal String.length) in H. simpl in H.
    rewrite length_append in H. lia.
  - destruct b as [|y b].
    + exfalso. apply (f_equal String.length) in H. simpl in H.
      rewrite length_append in H. lia.
    + simpl in H. injection H as -> H. f_equal. apply IH, H.
Qed.

Lemma unknown_label_inj (n m : Z) :
  "Unknown(" ++ Js.numberToString n ++ ")"
  = "Unknown(" ++ Js.numberToString m ++ ")" -> n = m.
Proof.
  intros H. simpl in H. injection H as H.
  apply numberToString_inj, (append_right_cancel _ _ ")"), H.
Qed.

(** C3. For a type code [n] that is a safe integer: the codes [0], [1], [2]
    and [-2] resolve to "Folder", "Document", "Shortcut" and "Document";
    every other code resolves to the tagged string "Unknown(n)", from
    which [n] can be read back; the [type] field of a decoded entry is this
    resolved label of the row's code. *)
Theorem C3_getEntryType_mapping (n : Z) :
  Js.isSafeInteger n = true ->
  getEntryType n =
    (if n =? 0 then "Folder"
     else if n =? 1 then "Document"
     else if n =? 2 then "Shortcut"
     else if n =? -2 then "Document"
     else "Unknown(" ++ Js.numberToString n ++ ")")
  /\ (forall i1 i2 i3 i4 row,
        row_type row = n ->
        type (entryOf getEntryType i1 i2 i3 i4 row) = getEntryType n)
  /\ (forall m,
        Js.isSafeInteger m = true ->
        n <> 0 -> n <> 1 -> n <> 2 -> n <> -2 ->
        getEntryType m = getEntryType n -> m = n)
  /\ map getEntryType [0; 1; 2; -2; 99]
     = ["Folder"; "Document"; "Shortcut"; "Document"; "Unknown(99)"].
Proof.
  intros _.
  split; [apply getEntryType_cases|].
  split; [intros i1 i2 i3 i4 row <-; reflexivity|].
  split; [|reflexivity].
  intros m _ H0 H1 H2 H3.
  rewrite (getEntryType_cases n), (getEntryType_cases m).
  destruct (Z.eqb_spec n 0); [contradiction|].
  destruct (Z.eqb_spec n 1); [contradiction|].
  destruct (Z.eqb_spec n 2); [contradiction|].
  destruct (Z.eqb_spec n (-2)); [contradiction|].
  destruct (m =? 0); [discriminate|].
  destruct (m =? 1); [discriminate|].
  destruct (m =? 2); [discriminate|].
  destruct (m =? -2); [discriminate|].
  apply unknown_label_inj.
Qed.

(** The mapping at the document code 1 and at the unknown code 99. *)
Lemma C3_getEntryType_mapping_witness :
  type (entryOf getEntryType 0 1 2 3 (plainRow 5)) = "Document"
  /\ getEntryType 99 = "Unknown(99)"
  /\ (getEntryType 99 = getEntryType 99 -> 99 = 99).
Proof.
  split; [|split].
  - exact (proj1 (proj2 (C3_getEntryType_mapping 1 eq_refl))
             0 1 2 3 (plainRow 5) eq_refl).
  - exact (proj1 (C3_getEntryType_mapping 99 eq_refl)).
  - intros H.
    apply (proj1 (proj2 (proj2 (C3_getEntryType_mapping 99 eq_refl))) 99);
      try lia; [reflexivity|exact H].
Defined.

(* ===================================================================== *)
(** ** Unfolding the operations of the library client *)
(* ===================================================================== *)

Lemma pushRows_app i1 i2 i3 i4 results acc :
  pushRows i1 i2 i3 i4 results acc
  = (acc ++ map (entryOf getEntryType i1 i2 i3 i4) results)%list.
Proof.
  unfold pushRows. revert acc.
  induction results as [|r rs IH]; intros acc; simpl.
  - now rewrite app_nil_r.
  - rewrite IH, <- app_assoc. reflexivity.
Qed.

Section Facts.

Context {World : Type}.
Variable URL_origin : string -> option string.
Variable transport : Request -> World -> NetResult * World.
Variable config : WebLinkConfig.

Lemma resolveUrl_state url (s : State World) :
  snd (resolveUrl URL_origin config url s) = s.
Proof.
  unfold resolveUrl.
  destruct (Js.startsWith url "http"); [reflexivity|].
  destruct (Js.startsWith url "/"); [|reflexivity].
  destruct (URL_origin (baseUrl config)); reflexivity.
Qed.

Lemma fetch_S n url options (s : State World) :
  fetch URL_origin transport config (S n) url options s =
    match fst (resolveUrl URL_origin config url s) with
    | Ret fullUrl =>
        let req := requestOf fullUrl (getCookieHeader (cookies s)) options in
        match transport req (world s) with
        | (Delivered r, w) =>
            match location r with
            | Some loc =>
                if Js.truthy loc && isRedirectStatus (status r)
                then fetch URL_origin transport config n loc options
                           (afterExchange s req r w)
                else (Ret r, afterExchange s req r w)
            | None => (Ret r, afterExchange s req r w)
            end
        | (Rejected, w) => (Throw FetchFailed, afterNet s req w)
        end
    | Throw e => (Throw e, s)
    | OutOfFuel => (OutOfFuel, s)
    end.
Proof.
  pose proof (resolveUrl_state url s) as Hs.
  simpl. unfold bind at 1.
  destruct (resolveUrl URL_origin config url s) as [[u|e|] s0];
    simpl in Hs; subst s0; simpl; try reflexivity.
  unfold bind, gets, global_fetch, modifyCookies. simpl.
  destruct (transport _ (world s)) as [[r|] w]; simpl; [|reflexivity].
  destruct (location r) as [loc|]; [|reflexivity].
  destruct (Js.truthy loc && isRedirectStatus (status r)); reflexivity.
Qed.

Lemma getFolderListing_unfold n folderId a b (s : State World) :
  getFolderListing URL_origin transport config n folderId a b s =
    match fetch URL_origin transport config n
                (baseUrl config ++ "/FolderListingService.aspx/GetFolderListing2")
                (listingOptions (repoName config) folderId a b)
                (Build_State (cookies s) (world s)
                             (trace s ++ [Listing folderId a b])) with
    | (Ret r, s') =>
        if negb (ok r) then (Ret None, s')
        else match body r with
             | Some j => (Ret j, s')
             | None => (Ret None, s')
             end
    | (Throw e, s') => (Throw e, s')
    | (OutOfFuel, s') => (OutOfFuel, s')
    end.
Proof.
  unfold getFolderListing, bind, emit. simpl.
  destruct (fetch _ _ _ _ _ _ _) as [[r|e|] s']; try reflexivity.
  destruct (negb (ok r)); [reflexivity|].
  unfold tryCatch, json, bind. destruct (body r); reflexivity.
Qed.

Lemma loop_S iter fuel folderId acc nm start total first (s : State World) :
  getAllEntries_loop URL_origin transport config (S iter) fuel folderId
                     acc nm start total first s =
    match getFolderListing URL_origin transport config fuel folderId
                           start (start + 500) s with
    | (Ret response, s1) =>
        match unwrapEnvelope response with
        | None => (Ret {| folderName := nm; entries := acc |}, s1)
        | Some p =>
            let nm' := if first then orString (p_name p) "" else nm in
            let total' :=
              if first then orZero (p_totalEntries p) else total in
            if start + 500 <? total'
            then getAllEntries_loop URL_origin transport config iter fuel
                   folderId (acc ++ pageEntries p) nm' (start + 500) total'
                   false s1
            else (Ret {| folderName := nm';
                         entries := (acc ++ pageEntries p)%list |}, s1)
        end
    | (Throw e, s1) => (Throw e, s1)
    | (OutOfFuel, s1) => (OutOfFuel, s1)
    end.
Proof.
  simpl. unfold bind at 1. unfold pageSize.
  destruct (getFolderListing _ _ _ _ _ _ _ _) as [[r|e|] s1]; try reflexivity.
  destruct (unwrapEnvelope r) as [p|]; [|reflexivity].
  rewrite pushRows_app. cbv zeta.
  destruct (start + 500 <? _); reflexivity.
Qed.

Lemma browseFolder_unfold fuel folderId (s : State World) :
  browseFolder URL_origin transport config fuel folderId s =
    match getFolderListing URL_origin transport config fuel folderId 0 100 s
    with
    | (Ret response, s1) =>
        match unwrapEnvelope response with
        | None => (Ret {| folderName := ""; entries := [] |}, s1)
        | Some p =>
            (Ret {| folderName := orString (p_name p) "";
                    entries := pageEntries p |}, s1)
        end
    | (Throw e, s1) => (Throw e, s1)
    | (OutOfFuel, s1) => (OutOfFuel, s1)
    end.
Proof.
  unfold browseFolder, bind.
  destruct (getFolderListing _ _ _ _ _ _ _ _) as [[r|e|] s1]; try reflexivity.
  destruct (unwrapEnvelope r) as [p|]; reflexivity.
Qed.

(* ------------------------------------------------------------------- *)
(** *** More fuel never changes a finished run *)

Lemma fetch_mono n : forall url options (s : State World) o s',
  fetch URL_origin transport config n url options s = (o, s') ->
  o <> OutOfFuel ->
  forall m, (n <= m)%nat ->
  fetch URL_origin transport config m url options s = (o, s').
Proof.
  induction n as [|n IH]; intros url options s o s' H Ho m Hm.
  - simpl in H. injection H as <- _. contradiction.
  - destruct m as [|m]; [lia|].
    rewrite fetch_S in *.
    destruct (fst (resolveUrl URL_origin config url s)); try exact H.
    cbv zeta in *.
    destruct (transport _ (world s)) as [[r|] w]; try exact H.
    destruct (location r) as [loc|]; try exact H.
    destruct (Js.truthy loc && isRedirectStatus (status r)); try exact H.
    apply (IH _ _ _ _ _ H Ho). lia.
Qed.

Lemma getFolderListing_mono n folderId a b (s : State World) o s' :
  getFolderListing URL_origin transport config n folderId a b s = (o, s') ->
  o <> OutOfFuel ->
  forall m, (n <= m)%nat ->
  getFolderListing URL_origin transport config m folderId a b s = (o, s').
Proof.
  intros H Ho m Hm. rewrite getFolderListing_unfold in *.
  destruct (fetch URL_origin transport config n _ _ _) as [o1 s1] eqn:E.
  assert (o1 <> OutOfFuel).
  { intros ->. injection H as <- _. contradiction. }
  rewrite (fetch_mono _ _ _ _ _ _ E H0 m Hm). exact H.
Qed.

End Facts.

(* ===================================================================== *)
(** ** Relating the state before and after an operation *)
(* ===================================================================== *)

Section Rely.

Context {World : Type}.
Variable URL_origin : string -> option string.
Variable transport : Request -> World -> NetResult * World.
Variable config : WebLinkConfig.

(** A relation every atomic step of the client respects. *)
Variable R : State World -> State World -> Prop.
Hypothesis R_refl : forall s, R s s.
Hypothesis R_trans : forall a b c, R a b -> R b c -> R a c.
Hypothesis R_exchange : forall s req r w, R s (afterExchange s req r w).
Hypothesis R_net : forall s req w, R s (afterNet s req w).
Hypothesis R_emit :
  forall s e, R s (Build_State (cookies s) (world s) (trace s ++ [e])).

Lemma fetch_rel n : forall url options s o s',
  fetch URL_origin transport config n url options s = (o, s') -> R s s'.
Proof.
  induction n as [|n IH]; intros url options s o s' H.
  - injection H as _ <-. apply R_refl.
  - rewrite fetch_S in H.
    destruct (fst (resolveUrl URL_origin config url s));
      try (injection H as _ <-; apply R_refl).
    cbv zeta in H.
    destruct (transport _ (world s)) as [[r|] w].
    + assert (Hdone : forall o s', (Ret r, afterExchange s
                 (requestOf a (getCookieHeader (cookies s)) options) r w)
                 = (o, s') -> R s s').
      { intros o0 s0 [= _ <-]. apply R_exchange. }
      destruct (location r) as [loc|]; [|eapply Hdone, H].
      destruct (Js.truthy loc && isRedirectStatus (status r));
        [|eapply Hdone, H].
      eapply R_trans; [apply R_exchange|]. eapply IH, H.
    + injection H as _ <-. apply R_net.
Qed.

Lemma getFolderListing_rel n folderId a b s o s' :
  getFolderListing URL_origin transport config n folderId a b s = (o, s') ->
  R s s'.
Proof.
  rewrite getFolderListing_unfold. intros H.
  destruct (fetch _ _ _ _ _ _ _) as [o1 s1] eqn:E.
  apply fetch_rel in E.
  assert (s' = s1) as ->.
  { destruct o1 as [r| |]; try (injection H as _ <-; reflexivity).
    destruct (negb (ok r)); [injection H as _ <-; reflexivity|].
    destruct (body r); injection H as _ <-; reflexivity. }
  eapply R_trans; [apply (R_emit s (Listing folderId a b))|exact E].
Qed.

Lemma loop_rel iter : forall fuel folderId acc nm start total first s o s',
  getAllEntries_loop URL_origin transport config iter fuel folderId
                     acc nm start total first s = (o, s') ->
  R s s'.
Proof.
  induction iter as [|iter IH]; intros fuel folderId acc nm start total
                                       first s o s' H.
  - injection H as _ <-. apply R_refl.
  - rewrite loop_S in H.
    destruct (getFolderListing _ _ _ _ _ _ _ _) as [o1 s1] eqn:E.
    apply getFolderListing_rel in E.
    destruct o1 as [r| |]; try (injection H as _ <-; exact E).
    destruct (unwrapEnvelope r) as [p|]; [|injection H as _ <-; exact E].
    cbv zeta in H.
    destruct (start + 500 <? _); [|injection H as _ <-; exact E].
    eapply R_trans; [exact E|]. eapply IH, H.
Qed.

Lemma getAllEntries_rel fuel folderId s o s' :
  getAllEntries URL_origin transport config fuel folderId s = (o, s') ->
  R s s'.
Proof. apply loop_rel. Qed.

Lemma browseFolder_rel fuel folderId s o s' :
  browseFolder URL_origin transport config fuel folderId s = (o, s') ->
  R s s'.
Proof.
  rewrite browseFolder_unfold. intros H.
  destruct (getFolderListing _ _ _ _ _ _ _ _) as [o1 s1] eqn:E.
  apply getFolderListing_rel in E.
  destruct o1 as [r| |]; try (injection H as _ <-; exact E).
  destruct (unwrapEnvelope r); injection H as _ <-; exact E.
Qed.

Lemma initSession_rel fuel s o s' :
  initSession URL_origin transport config fuel s = (o, s') -> R s s'.
Proof.
  unfold initSession, bind, gets. intros H.
  destruct (fetch _ _ _ _ _ _ s) as [o1 s1] eqn:E1.
  apply fetch_rel in E1.
  destruct o1 as [r1| |]; try (injection H as _ <-; exact E1).
  destruct (fetch _ _ _ _ _ _ s1) as [o2 s2] eqn:E2.
  apply fetch_rel in E2.
  destruct o2 as [r2| |]; injection H as _ <-;
    eapply R_trans; eassumption.
Qed.

End Rely.

(* ===================================================================== *)
(** ** Pagination *)
(* ===================================================================== *)

Lemma listingCalls_app tr1 tr2 :
  listingCalls (tr1 ++ tr2) = (listingCalls tr1 ++ listingCalls tr2)%list.
Proof.
  induction tr1 as [|[q|f a b] tr1 IH]; simpl; [reflexivity|exact IH|].
  now rewrite IH.
Qed.

Section Pagination.

Context {World : Type}.
Variable URL_origin : string -> option string.
Variable transport : Request -> World -> NetResult * World.
Variable config : WebLinkConfig.

(** Requests leave the record of listing calls untouched. *)
Lemma fetch_listingCalls n url options (s : State World) o s' :
  fetch URL_origin transport config n url options s = (o, s') ->
  listingCalls (trace s') = listingCalls (trace s).
Proof.
  apply (fetch_rel URL_origin transport config
           (fun a b => listingCalls (trace b) = listingCalls (trace a))).
  - reflexivity.
  - intros a b c H1 H2. now rewrite H2.
  - intros a req r w. simpl. rewrite listingCalls_app. simpl.
    apply app_nil_r.
  - intros a req w. simpl. rewrite listingCalls_app. simpl.
    apply app_nil_r.
Qed.

(** A listing call is recorded once, whatever its outcome. *)
Lemma getFolderListing_listingCalls n folderId a b (s : State World) o s' :
  getFolderListing URL_origin transport config n folderId a b s = (o, s') ->
  listingCalls (trace s')
  = (listingCalls (trace s) ++ [(folderId, a, b)])%list.
Proof.
  rewrite getFolderListing_unfold. intros H.
  destruct (fetch _ _ _ _ _ _ _) as [o1 s1] eqn:E.
  apply fetch_listingCalls in E. simpl in E.
  rewrite listingCalls_app in E. simpl in E.
  assert (s' = s1) as ->; [|exact E].
  destruct o1 as [r| |]; try (injection H as _ <-; reflexivity).
  destruct (negb (ok r)); [injection H as _ <-; reflexivity|].
  destruct (body r); injection H as _ <-; reflexivity.
Qed.

Lemma servesPages_mono n m folderId start (s : State World) ps s' :
  (n <= m)%nat ->
  servesPages URL_origin transport config n folderId start s ps s' ->
  servesPages URL_origin transport config m folderId start s ps s'.
Proof.
  intros Hnm H. induction H as [|start s r p s1 ps s2 Hcall Hp _ IH].
  - constructor.
  - econstructor; [|exact Hp|exact IH].
    eapply getFolderListing_mono; [exact Hcall|discriminate|exact Hnm].
Qed.

Lemma servesPages_listingCalls n folderId start (s : State World) ps s' :
  servesPages URL_origin transport config n folderId start s ps s' ->
  listingCalls (trace s')
  = (listingCalls (trace s) ++ windows folderId start (List.length ps))%list.
Proof.
  intros H. induction H as [|start s r p s1 ps s2 Hcall Hp _ IH]; simpl.
  - now rewrite app_nil_r.
  - rewrite IH, (getFolderListing_listingCalls _ _ _ _ _ _ _ Hcall),
      <- app_assoc. reflexivity.
Qed.

(** The loop, once the total is known, over the pages still to come. *)
Lemma loop_pages ps : forall iter fuel folderId acc nm start total
                             (s s' : State World),
  ps <> [] ->
  servesPages URL_origin transport config fuel folderId start s ps s' ->
  (List.length ps <= iter)%nat ->
  (forall k, (1 <= k < List.length ps)%nat ->
             start + 500 * Z.of_nat k < total) ->
  total <= start + 500 * Z.of_nat (List.length ps) ->
  getAllEntries_loop URL_origin transport config iter fuel folderId
                     acc nm start total false s
  = (Ret {| folderName := nm;
            entries := (acc ++ List.concat (map pageEntries ps))%list |}, s').
Proof.
  induction ps as [|p ps IH];
    intros iter fuel folderId acc nm start total s s' Hne H Hiter Hlt Hle;
    [contradiction|].
  inversion H as [|? ? r ? s1 ? ? Hcall Hp Hrest]; subst.
  destruct iter as [|iter]; [simpl in Hiter; lia|].
  rewrite loop_S, Hcall, Hp. cbv zeta.
  destruct ps as [|q ps].
  - inversion Hrest; subst. simpl in Hle.
    destruct (Z.ltb_spec (start + 500) total); [lia|].
    simpl. rewrite app_nil_r. reflexivity.
  - assert (Hk : start + 500 < total).
    { specialize (Hlt 1%nat). simpl in Hlt. lia. }
    destruct (Z.ltb_spec (start + 500) total); [|lia].
    rewrite (IH iter fuel folderId (acc ++ pageEntries p)%list nm
                (start + 500) total s1 s').
    + simpl. rewrite <- app_assoc. reflexivity.
    + discriminate.
    + exact Hrest.
    + simpl in *. lia.
    + intros k Hk'. specialize (Hlt (S k)).
      simpl List.length in *. lia.
    + simpl List.length in *. lia.
Qed.

(** The loop from its initial state, over a backend that serves exactly
    the pages the total of the first one calls for. *)
Lemma loop_first_pages iter fuel folderId p0 ps (s s' : State World) :
  servesPages URL_origin transport config fuel folderId 0 s (p0 :: ps) s' ->
  (List.length (p0 :: ps) <= iter)%nat ->
  (forall k, (1 <= k < List.length (p0 :: ps))%nat ->
             500 * Z.of_nat k < orZero (p_totalEntries p0)) ->
  orZero (p_totalEntries p0) <= 500 * Z.of_nat (List.length (p0 :: ps)) ->
  getAllEntries_loop URL_origin transport config iter fuel folderId
                     [] "" 0 0 true s
  = (Ret {| folderName := orString (p_name p0) "";
            entries := List.concat (map pageEntries (p0 :: ps)) |}, s').
Proof.
  intros H Hfuel Hlt Hle.
  inversion H as [|? ? r ? s1 ? ? Hcall Hp Hrest]; subst.
  destruct iter as [|iter]; [simpl in Hfuel; lia|].
  rewrite loop_S, Hcall, Hp. cbv zeta. simpl app.
  destruct ps as [|q ps].
  - inversion Hrest; subst. simpl in Hle.
    destruct (Z.ltb_spec (0 + 500) (orZero (p_totalEntries p0))); [lia|].
    simpl. rewrite app_nil_r. reflexivity.
  - assert (Hk : 500 < orZero (p_totalEntries p0)).
    { specialize (Hlt 1%nat). simpl in Hlt. lia. }
    destruct (Z.ltb_spec (0 + 500) (orZero (p_totalEntries p0))); [|lia].
    change ([] ++ pageEntries p0)%list with (pageEntries p0).
    rewrite (loop_pages (q :: ps) iter fuel folderId (pageEntries p0)
               (orString (p_name p0) "") (0 + 500)
               (orZero (p_totalEntries p0)) s1 s').
    + reflexivity.
    + discriminate.
    + exact Hrest.
    + simpl in *. lia.
    + intros k Hk'. specialize (Hlt (S k)).
      simpl List.length in *. lia.
    + simpl List.length in *. lia.
Qed.

Lemma getAllEntries_pages fuel folderId p0 ps (s s' : State World) :
  servesPages URL_origin transport config fuel folderId 0 s (p0 :: ps) s' ->
  (List.length (p0 :: ps) <= fuel)%nat ->
  (forall k, (1 <= k < List.length (p0 :: ps))%nat ->
             500 * Z.of_nat k < orZero (p_totalEntries p0)) ->
  orZero (p_totalEntries p0) <= 500 * Z.of_nat (List.length (p0 :: ps)) ->
  getAllEntries URL_origin transport config fuel folderId s
  = (Ret {| folderName := orString (p_name p0) "";
            entries := List.concat (map pageEntries (p0 :: ps)) |}, s').
Proof. apply loop_first_pages. Qed.

End Pagination.

(** C1. When the first page reports [totalEntries = 1200] and the backend
    answers the listing calls for the windows that start at 0, 500 and 1000
    with a page each, [getAllEntries] makes exactly these three calls to
    [getFolderListing] (each with [end = start + 500]) and returns the
    entries of the three pages in request order: 1200 of them when the pages
    hold 500, 500 and 200 rows. *)
Theorem C1_getAllEntries_three_pages {World : Type}
    (URL_origin : string -> option string)
    (transport : Request -> World -> NetResult * World)
    (config : WebLinkConfig) (n : nat) (folderId : Z)
    (p0 p1 p2 : Payload) (s s' : State World) :
  servesPages URL_origin transport config n folderId 0 s [p0; p1; p2] s' ->
  p_totalEntries p0 = Some 1200 ->
  forall fuel, (n <= fuel)%nat -> (3 <= fuel)%nat ->
    getAllEntries URL_origin transport config fuel folderId s
    = (Ret {| folderName := orString (p_name p0) "";
              entries := (pageEntries p0 ++ pageEntries p1 ++ pageEntries p2)%list |},
       s')
    /\ listingCalls (trace s')
       = (listingCalls (trace s)
          ++ [ (folderId, 0, 500); (folderId, 500, 1000);
               (folderId, 1000, 1500) ])%list
    /\ (List.length (orEmpty (p_results p0)) = 500%nat ->
        List.length (orEmpty (p_results p1)) = 500%nat ->
        List.length (orEmpty (p_results p2)) = 200%nat ->
        List.length (pageEntries p0 ++ pageEntries p1 ++ pageEntries p2)
        = 1200%nat).
Proof.
  intros H Htot fuel Hn H3.
  split; [|split].
  - rewrite (getAllEntries_pages URL_origin transport config fuel folderId
               p0 [p1; p2] s s').
    + simpl. rewrite app_nil_r. reflexivity.
    + exact (servesPages_mono _ _ _ _ _ _ _ _ _ _ Hn H).
    + simpl. lia.
    + rewrite Htot. change (orZero (Some 1200)) with 1200.
      simpl List.length. intros k Hk. lia.
    + rewrite Htot. change (orZero (Some 1200)) with 1200.
      simpl List.length. lia.
  - rewrite (servesPages_listingCalls _ _ _ _ _ _ _ _ _ H). reflexivity.
  - intros L0 L1 L2. unfold pageEntries.
    rewrite !length_app, !length_map, L0, L1, L2. reflexivity.
Qed.

(** A scripted backend with pages of 500, 500 and 200 rows. *)
Lemma C1_getAllEntries_three_pages_witness :
  exists s',
    getAllEntries arcadiaOrigin scripted ARCADIA_CONFIG 3 874714
                  (freshClient threePages)
    = (Ret {| folderName := "Agendas";
              entries := (pageEntries (pageOf (Some 1200) 500)
                          ++ pageEntries (pageOf None 500)
                          ++ pageEntries (pageOf (Some 7) 200))%list |}, s')
    /\ listingCalls (trace s')
       = [ (874714, 0, 500); (874714, 500, 1000); (874714, 1000, 1500) ]
    /\ List.length (pageEntries (pageOf (Some 1200) 500)
                    ++ pageEntries (pageOf None 500)
                    ++ pageEntries (pageOf (Some 7) 200)) = 1200%nat.
Proof.
  eexists.
  edestruct (C1_getAllEntries_three_pages arcadiaOrigin scripted ARCADIA_CONFIG
               1 874714 (pageOf (Some 1200) 500) (pageOf None 500)
               (pageOf (Some 7) 200) (freshClient threePages))
    as (E & L & N).
  - eapply serves_page; [vm_compute; reflexivity|reflexivity|].
    eapply serves_page; [vm_compute; reflexivity|reflexivity|].
    eapply serves_page; [vm_compute; reflexivity|reflexivity|].
    apply serves_none.
  - reflexivity.
  - apply le_S, le_S, le_n.
  - apply le_n.
  - split; [exact E|]. split; [exact L|].
    apply N; apply repeat_length.
Defined.

(** C8. When the first page reports a total of 0, or no total at all, the
    loop of [getAllEntries] ends after that page: the run finishes in the
    state the single listing call left, with one call recorded, and returns
    the folder name of that page with its entries, which is the empty list
    when the page has no results. *)
Theorem C8_getAllEntries_single_page {World : Type}
    (URL_origin : string -> option string)
    (transport : Request -> World -> NetResult * World)
    (config : WebLinkConfig) (n : nat) (folderId : Z)
    (r : option ApiResponse) (p : Payload) (s s1 : State World) :
  getFolderListing URL_origin transport config n folderId 0 500 s
  = (Ret r, s1) ->
  unwrapEnvelope r = Some p ->
  p_totalEntries p = Some 0 \/ p_totalEntries p = None ->
  forall fuel, (n <= fuel)%nat -> (1 <= fuel)%nat ->
    getAllEntries URL_origin transport config fuel folderId s
    = (Ret {| folderName := orString (p_name p) "";
              entries := pageEntries p |}, s1)
    /\ listingCalls (trace s1)
       = (listingCalls (trace s) ++ [(folderId, 0, 500)])%list
    /\ (orEmpty (p_results p) = [] ->
        getAllEntries URL_origin transport config fuel folderId s
        = (Ret {| folderName := orString (p_name p) ""; entries := [] |}, s1)).
Proof.
  intros Hcall Hp Htot fuel Hn H1.
  assert (Hs : servesPages URL_origin transport config n folderId 0 s [p] s1).
  { eapply serves_page; [exact Hcall|exact Hp|apply serves_none]. }
  assert (Hz : orZero (p_totalEntries p) = 0).
  { destruct Htot as [-> | ->]; reflexivity. }
  assert (E : getAllEntries URL_origin transport config fuel folderId s
              = (Ret {| folderName := orString (p_name p) "";
                        entries := pageEntries p |}, s1)).
  { rewrite (getAllEntries_pages URL_origin transport config fuel folderId
               p [] s s1).
    - simpl. rewrite app_nil_r. reflexivity.
    - exact (servesPages_mono _ _ _ _ _ _ _ _ _ _ Hn Hs).
    - exact H1.
    - simpl List.length. intros k Hk. lia.
    - rewrite Hz. simpl List.length. lia. }
  split; [exact E|]. split.
  - exact (getFolderListing_listingCalls _ _ _ _ _ _ _ _ _ _ Hcall).
  - intros Hres. rewrite E. unfold pageEntries. rewrite Hres. reflexivity.
Qed.

(** An empty folder: the second scripted response is never requested. *)
Lemma C8_getAllEntries_single_page_witness :
  exists s1,
    getAllEntries arcadiaOrigin scripted ARCADIA_CONFIG 1 874714
                  (freshClient [okJson (underData emptyFolder);
                                okJson (underData (pageOf (Some 9) 3))])
    = (Ret {| folderName := "Empty"; entries := [] |}, s1)
    /\ world s1 = [okJson (underData (pageOf (Some 9) 3))]
    /\ listingCalls (trace s1) = [(874714, 0, 500)].
Proof.
  eexists.
  edestruct (C8_getAllEntries_single_page arcadiaOrigin scripted ARCADIA_CONFIG
               1 874714 (Some (underData emptyFolder)) emptyFolder
               (freshClient [okJson (underData emptyFolder);
                             okJson (underData (pageOf (Some 9) 3))]))
    as (E & L & N).
  - vm_compute. reflexivity.
  - reflexivity.
  - left. reflexivity.
  - apply le_n.
  - apply le_n.
  - split; [apply N; reflexivity|]. split; [reflexivity|exact L].
Defined.

(* ===================================================================== *)
(** ** Column resolution *)
(* ===================================================================== *)

Lemma findIndex_lower {A : Type} (p : A -> bool) (xs : list A) :
  -1 <= Js.findIndex p xs.
Proof.
  induction xs as [|x xs IH]; simpl; [lia|].
  destruct (p x); [lia|].
  destruct (Z.ltb_spec (Js.findIndex p xs) 0); lia.
Qed.

Lemma named_true n c : named n c = true <-> col_name c = n.
Proof. unfold named. apply String.eqb_eq. Qed.

Lemma findIndex_firstAt n cols : forall i,
  firstAt n cols i -> Js.findIndex (named n) cols = Z.of_nat i.
Proof.
  induction cols as [|c cols IH]; intros i [[c0 [Hi Hn]] Hmin].
  - destruct i; discriminate.
  - simpl. destruct (named n c) eqn:Ec.
    + destruct i as [|i]; [reflexivity|]. exfalso.
      apply (Hmin 0%nat c); [lia|reflexivity|]. now apply named_true.
    + destruct i as [|i].
      * exfalso. simpl in Hi. injection Hi as ->.
        apply named_true in Hn. congruence.
      * rewrite (IH i).
        -- destruct (Z.ltb_spec (Z.of_nat i) 0); lia.
        -- split; [exists c0; split; assumption|].
           intros j cj Hj Hcj. apply (Hmin (S j) cj); [lia|exact Hcj].
Qed.

Lemma findIndex_noColumn n cols :
  noColumn n cols -> Js.findIndex (named n) cols = -1.
Proof.
  induction cols as [|c cols IH]; intros H; [reflexivity|].
  simpl. destruct (named n c) eqn:Ec.
  - exfalso. apply (H c); [left; reflexivity|now apply named_true].
  - rewrite IH; [reflexivity|].
    intros c' Hc'. apply H. right. exact Hc'.
Qed.

Lemma optIndex_cell row i :
  Js.optIndex (row_data row) (Z.of_nat i) = cell row i.
Proof.
  unfold Js.optIndex, cell. destruct (row_data row); [|reflexivity].
  destruct (Z.ltb_spec (Z.of_nat i) 0); [lia|].
  now rewrite Nat2Z.id.
Qed.

(** Reading one optional field through the index found for its column. *)
Lemma readsColumn_findIndex cols row n :
  readsColumn cols row n
    (if Js.findIndex (named n) cols >=? 0
     then Js.optIndex (row_data row) (Js.findIndex (named n) cols)
     else None).
Proof.
  split.
  - intros i Hi. rewrite (findIndex_firstAt _ _ _ Hi).
    destruct (Z.geb_spec (Z.of_nat i) 0); [|lia]. apply optIndex_cell.
  - intros H. rewrite (findIndex_noColumn _ _ H). reflexivity.
Qed.

Lemma pageEntries_decoded p :
  Forall2 (decodedFrom (orEmpty (p_colTypes p)))
          (orEmpty (p_results p)) (pageEntries p).
Proof.
  unfold pageEntries.
  induction (orEmpty (p_results p)) as [|row rows IH]; simpl; constructor;
    [|exact IH].
  repeat split; try apply readsColumn_findIndex.
Qed.

Section Runs.

Context {World : Type}.
Variable URL_origin : string -> option string.
Variable transport : Request -> World -> NetResult * World.
Variable config : WebLinkConfig.

(** Whatever a finished loop returns is made of the pages it was served,
    in order, each decoded on its own. *)
Lemma loop_run iter : forall fuel folderId acc nm start total first
                             (s s' : State World) fc,
  getAllEntries_loop URL_origin transport config iter fuel folderId
                     acc nm start total first s = (Ret fc, s') ->
  exists ps s'',
    servesPages URL_origin transport config fuel folderId start s ps s''
    /\ entries fc = (acc ++ List.concat (map pageEntries ps))%list.
Proof.
  induction iter as [|iter IH];
    intros fuel folderId acc nm start total first s s' fc H;
    [discriminate|].
  rewrite loop_S in H.
  destruct (getFolderListing _ _ _ _ _ _ _ _) as [[r|e|] s1] eqn:E;
    try discriminate.
  destruct (unwrapEnvelope r) as [p|] eqn:Ep.
  - cbv zeta in H. destruct (start + 500 <? _).
    + apply IH in H. destruct H as (ps & s'' & Hs & He).
      exists (p :: ps), s''. split.
      * eapply serves_page; eassumption.
      * rewrite He. simpl. now rewrite <- app_assoc.
    + injection H as <- <-. exists [p], s1. split.
      * eapply serves_page; [exact E|exact Ep|apply serves_none].
      * simpl. now rewrite app_nil_r.
  - injection H as <- <-. exists [], s. split; [apply serves_none|].
    simpl. now rewrite app_nil_r.
Qed.

End Runs.

(** C4. Each decoded entry takes [pageCount], [template], [creationDate] and
    [modificationDate] from the row's data array at the first position at
    which the page's own [colTypes] names PageCount, TemplateName,
    CreationDate and LastModified, and leaves the field absent when the page
    has no such column.  The entries [getAllEntries] returns are those of the
    pages it was served, in order, each page decoded against its own columns;
    [browseFolder] returns those of its single page.  With columns
    TemplateName, PageCount and data "CC - Agendas", 7 the entry has
    template "CC - Agendas" and pageCount 7. *)
Theorem C4_columns_resolved_per_page {World : Type}
    (URL_origin : string -> option string)
    (transport : Request -> World -> NetResult * World)
    (config : WebLinkConfig) (fuel : nat) (folderId : Z)
    (s s' : State World) (fc : FolderContents) :
  (forall p, Forall2 (decodedFrom (orEmpty (p_colTypes p)))
                     (orEmpty (p_results p)) (pageEntries p))
  /\ (getAllEntries URL_origin transport config fuel folderId s = (Ret fc, s') ->
      exists ps s'',
        servesPages URL_origin transport config fuel folderId 0 s ps s''
        /\ entries fc = List.concat (map pageEntries ps))
  /\ (browseFolder URL_origin transport config fuel folderId s = (Ret fc, s') ->
      exists r,
        getFolderListing URL_origin transport config fuel folderId 0 100 s
        = (Ret r, s')
        /\ entries fc = match unwrapEnvelope r with
                        | Some p => pageEntries p
                        | None => []
                        end)
  /\ map (fun e => (template e, pageCount e)) (pageEntries pageTemplateFirst)
     = [ (Some (Js.JStr "CC - Agendas"), Some (Js.JNum 7)) ].
Proof.
  split; [exact pageEntries_decoded|].
  split; [|split; [|reflexivity]].
  - intros H. unfold getAllEntries in H.
    apply loop_run in H. exact H.
  - rewrite browseFolder_unfold. intros H.
    destruct (getFolderListing _ _ _ _ _ _ _ _) as [[r|e|] s1];
      try discriminate.
    exists r.
    destruct (unwrapEnvelope r); injection H as <- <-; split; reflexivity.
Qed.

(** Two pages that list TemplateName and PageCount in opposite orders. *)
Lemma C4_columns_resolved_per_page_witness :
  exists fc s',
    getAllEntries arcadiaOrigin scripted ARCADIA_CONFIG 2 1
                  (freshClient twoLayouts) = (Ret fc, s')
    /\ map (fun e => (template e, pageCount e)) (entries fc)
       = [ (Some (Js.JStr "CC - Agendas"), Some (Js.JNum 7));
           (Some (Js.JStr "CC - Minutes"), Some (Js.JNum 3)) ]
    /\ exists ps s'',
         servesPages arcadiaOrigin scripted ARCADIA_CONFIG 2 1 0
                     (freshClient twoLayouts) ps s''
         /\ entries fc = List.concat (map pageEntries ps).
Proof.
  eexists. eexists.
  split; [vm_compute; reflexivity|].
  split; [reflexivity|].
  eapply (proj1 (proj2 (C4_columns_resolved_per_page arcadiaOrigin scripted
                          ARCADIA_CONFIG 2 1 (freshClient twoLayouts) _ _))).
  vm_compute. reflexivity.
Defined.

(* ===================================================================== *)
(** ** The two envelope keys *)
(* ===================================================================== *)

Lemma unwrapEnvelope_flip r :
  unwrapEnvelope (option_map flipEnvelope r) = unwrapEnvelope r.
Proof.
  destruct r as [[[p|] [q|]]|]; reflexivity.
Qed.

Section Envelope.

Context {World : Type}.
Variable URL_origin : string -> option string.
Variable transport : Request -> World -> NetResult * World.
Variable config : WebLinkConfig.

Lemma fetch_flip n : forall url options (s : State World),
  fetch URL_origin (flipTransport transport) config n url options s
  = (mapOutcome flipResponse
       (fst (fetch URL_origin transport config n url options s)),
     snd (fetch URL_origin transport config n url options s)).
Proof.
  induction n as [|n IH]; intros url options s; [reflexivity|].
  rewrite !fetch_S.
  destruct (fst (resolveUrl URL_origin config url s)); try reflexivity.
  cbv zeta. unfold flipTransport.
  destruct (transport _ (world s)) as [[r|] w]; [|reflexivity].
  change (location (flipResponse r)) with (location r).
  change (status (flipResponse r)) with (status r).
  change (afterExchange s ?q (flipResponse r) w)
    with (afterExchange s q r w).
  destruct (location r) as [loc|]; [|reflexivity].
  destruct (Js.truthy loc && isRedirectStatus (status r)); [|reflexivity].
  apply IH.
Qed.

Lemma getFolderListing_flip n folderId a b (s : State World) :
  getFolderListing URL_origin (flipTransport transport) config n folderId a b s
  = (mapOutcome (option_map flipEnvelope)
       (fst (getFolderListing URL_origin transport config n folderId a b s)),
     snd (getFolderListing URL_origin transport config n folderId a b s)).
Proof.
  rewrite !getFolderListing_unfold, fetch_flip.
  destruct (fetch URL_origin transport config n _ _ _) as [[r|e|] s1];
    try reflexivity.
  simpl. change (ok (flipResponse r)) with (ok r).
  destruct (negb (ok r)); [reflexivity|].
  destruct (body r); reflexivity.
Qed.

Lemma loop_flip iter : forall fuel folderId acc nm start total first
                              (s : State World),
  getAllEntries_loop URL_origin (flipTransport transport) config iter fuel
                     folderId acc nm start total first s
  = getAllEntries_loop URL_origin transport config iter fuel
                       folderId acc nm start total first s.
Proof.
  induction iter as [|iter IH];
    intros fuel folderId acc nm start total first s; [reflexivity|].
  rewrite !loop_S, getFolderListing_flip.
  destruct (getFolderListing URL_origin transport config _ _ _ _ _)
    as [[r|e|] s1]; try reflexivity.
  simpl. rewrite unwrapEnvelope_flip.
  destruct (unwrapEnvelope r) as [p|]; [|reflexivity].
  destruct (start + 500 <? _); [apply IH|reflexivity].
Qed.

Lemma browseFolder_flip fuel folderId (s : State World) :
  browseFolder URL_origin (flipTransport transport) config fuel folderId s
  = browseFolder URL_origin transport config fuel folderId s.
Proof.
  rewrite !browseFolder_unfold, getFolderListing_flip.
  destruct (getFolderListing URL_origin transport config _ _ _ _ _)
    as [[r|e|] s1]; try reflexivity.
  simpl. rewrite unwrapEnvelope_flip. reflexivity.
Qed.

End Envelope.

(** Two one-response backends that differ only in the envelope key. *)
Lemma browseFolder_either_key (P : Payload) (folderId : Z) :
  fst (browseFolder arcadiaOrigin scripted ARCADIA_CONFIG 1 folderId
         (freshClient [okJson (underData P)]))
  = fst (browseFolder arcadiaOrigin scripted ARCADIA_CONFIG 1 folderId
           (freshClient [okJson (underD P)])).
Proof.
  rewrite !browseFolder_unfold, !getFolderListing_unfold, !fetch_S.
  reflexivity.
Qed.

Lemma getAllEntries_either_key (P : Payload) (folderId : Z) :
  fst (getAllEntries arcadiaOrigin scripted ARCADIA_CONFIG 2 folderId
         (freshClient [okJson (underData P)]))
  = fst (getAllEntries arcadiaOrigin scripted ARCADIA_CONFIG 2 folderId
           (freshClient [okJson (underD P)])).
Proof.
  unfold getAllEntries. rewrite !loop_S, !getFolderListing_unfold, !fetch_S.
  simpl. destruct (500 <? orZero (p_totalEntries P)); reflexivity.
Qed.

(** C2. A response [{data: P}] and a response [{d: P}] unwrap to the same
    payload [P]; hence a backend that answers under the other envelope key
    makes [getAllEntries] and [browseFolder] return the same result, in the
    same final state, for every request sequence; in particular the two
    one-response fixtures that differ only in the key decode alike. *)
Theorem C2_envelope_key_irrelevant {World : Type}
    (URL_origin : string -> option string)
    (transport : Request -> World -> NetResult * World)
    (config : WebLinkConfig) (fuel : nat) (folderId : Z) (s : State World)
    (P : Payload) :
  unwrapEnvelope (Some {| data := Some P; d := None |}) = Some P
  /\ unwrapEnvelope (Some {| data := None; d := Some P |}) = Some P
  /\ flipEnvelope {| data := Some P; d := None |} = {| data := None; d := Some P |}
  /\ flipEnvelope {| data := None; d := Some P |} = {| data := Some P; d := None |}
  /\ getAllEntries URL_origin (flipTransport transport) config fuel folderId s
     = getAllEntries URL_origin transport config fuel folderId s
  /\ browseFolder URL_origin (flipTransport transport) config fuel folderId s
     = browseFolder URL_origin transport config fuel folderId s
  /\ fst (getAllEntries arcadiaOrigin scripted ARCADIA_CONFIG 2 folderId
            (freshClient [okJson (underData P)]))
     = fst (getAllEntries arcadiaOrigin scripted ARCADIA_CONFIG 2 folderId
              (freshClient [okJson (underD P)]))
  /\ fst (browseFolder arcadiaOrigin scripted ARCADIA_CONFIG 1 folderId
            (freshClient [okJson (underData P)]))
     = fst (browseFolder arcadiaOrigin scripted ARCADIA_CONFIG 1 folderId
              (freshClient [okJson (underD P)]))
  /\ fst (browseFolder arcadiaOrigin scripted ARCADIA_CONFIG 1 folderId
            (freshClient [okJson (underData P)]))
     = Ret {| folderName := orString (p_name P) ""; entries := pageEntries P |}.
Proof.
  do 4 (split; [reflexivity|]).
  split; [apply loop_flip|].
  split; [apply browseFolder_flip|].
  split; [apply getAllEntries_either_key|].
  split; [apply browseFolder_either_key|].
  rewrite browseFolder_unfold, getFolderListing_unfold, fetch_S.
  reflexivity.
Qed.

(* ===================================================================== *)
(** ** The listing call *)
(* ===================================================================== *)

(** C7, as stated, fails: a success whose body is the JSON text [null]
    parses, and the call returns [null] all the same, so [null] does not
    tell a failure apart from that answer. *)
Lemma C7_counterexample_null_body :
  ok nullBody = true
  /\ (exists v, body nullBody = Some v)
  /\ (exists s1,
        fetch arcadiaOrigin scripted ARCADIA_CONFIG 1
              (listingUrl ARCADIA_CONFIG)
              (listingOptions (repoName ARCADIA_CONFIG) 874714 0 500)
              (listingStarted (freshClient [nullBody]) 874714 0 500)
        = (Ret nullBody, s1)
        /\ getFolderListing arcadiaOrigin scripted ARCADIA_CONFIG 1 874714 0 500
                            (freshClient [nullBody]) = (Ret None, s1))
  /\ ~ (@None ApiResponse = None
        <-> ok nullBody = false \/ body nullBody = None).
Proof.
  split; [reflexivity|]. split; [eexists; reflexivity|].
  split; [eexists; split; reflexivity|].
  intros [H _]. destruct (H eq_refl); discriminate.
Qed.

(** C7 (amended). Once the request of [getFolderListing] has its final
    response, the call returns, without raising: [null] exactly when the
    status of that response is not a success, its body is not JSON, or its
    body is the JSON text [null], and the parsed value otherwise.  The only
    exceptions that reach the caller are those the request itself raised. *)
Theorem C7_getFolderListing_null_or_envelope {World : Type}
    (URL_origin : string -> option string)
    (transport : Request -> World -> NetResult * World)
    (config : WebLinkConfig) (n : nat) (folderId start finish : Z)
    (s s1 : State World) (r : Response) :
  fetch URL_origin transport config n (listingUrl config)
        (listingOptions (repoName config) folderId start finish)
        (listingStarted s folderId start finish) = (Ret r, s1) ->
  (exists res,
     getFolderListing URL_origin transport config n folderId start finish s
     = (Ret res, s1)
     /\ (res = None
         <-> ok r = false \/ body r = None \/ body r = Some None)
     /\ (forall v, ok r = true -> body r = Some v -> res = v))
  /\ (forall e s2,
        getFolderListing URL_origin transport config n folderId start finish s
        <> (Throw e, s2)).
Proof.
  intros H. rewrite getFolderListing_unfold.
  unfold listingUrl, listingStarted in H. rewrite H.
  destruct (ok r) eqn:Eok; simpl.
  - destruct (body r) as [[j|]|] eqn:Eb.
    + split; [|discriminate]. exists (Some j). split; [reflexivity|].
      split; [|intros v _ [= <-]; reflexivity].
      split; [discriminate|]. intros [?|[?|?]]; discriminate.
    + split; [|discriminate]. exists None. split; [reflexivity|].
      split; [|intros v _ [= <-]; reflexivity].
      split; [right; right; reflexivity|reflexivity].
    + split; [|discriminate]. exists None. split; [reflexivity|].
      split; [|discriminate].
      split; [right; left; reflexivity|reflexivity].
  - split; [|discriminate]. exists None. split; [reflexivity|].
    split; [|discriminate].
    split; [left; reflexivity|reflexivity].
Qed.

(** A 404, a body that is not JSON, a body that is [null], and a
    well-formed answer. *)
Lemma C7_getFolderListing_null_or_envelope_witness :
  (exists s1,
     getFolderListing arcadiaOrigin scripted ARCADIA_CONFIG 1 874714 0 500
                      (freshClient [notFound]) = (Ret None, s1))
  /\ (exists s1,
        getFolderListing arcadiaOrigin scripted ARCADIA_CONFIG 1 874714 0 500
                         (freshClient [notJson]) = (Ret None, s1))
  /\ (exists s1,
        getFolderListing arcadiaOrigin scripted ARCADIA_CONFIG 1 874714 0 500
                         (freshClient [nullBody]) = (Ret None, s1))
  /\ (exists s1,
        getFolderListing arcadiaOrigin scripted ARCADIA_CONFIG 1 874714 0 500
                         (freshClient [okJson (underData emptyFolder)])
        = (Ret (Some (underData emptyFolder)), s1)).
Proof.
  split; [|split; [|split]]; eexists.
  - edestruct (C7_getFolderListing_null_or_envelope arcadiaOrigin scripted
                 ARCADIA_CONFIG 1 874714 0 500 (freshClient [notFound]))
      as [(res & E & Hnull & _) _]; [vm_compute; reflexivity|].
    rewrite E. f_equal. f_equal. apply Hnull. left. reflexivity.
  - edestruct (C7_getFolderListing_null_or_envelope arcadiaOrigin scripted
                 ARCADIA_CONFIG 1 874714 0 500 (freshClient [notJson]))
      as [(res & E & Hnull & _) _]; [vm_compute; reflexivity|].
    rewrite E. f_equal. f_equal. apply Hnull. right. left. reflexivity.
  - edestruct (C7_getFolderListing_null_or_envelope arcadiaOrigin scripted
                 ARCADIA_CONFIG 1 874714 0 500 (freshClient [nullBody]))
      as [(res & E & Hnull & _) _]; [vm_compute; reflexivity|].
    rewrite E. f_equal. f_equal. apply Hnull. right. right. reflexivity.
  - edestruct (C7_getFolderListing_null_or_envelope arcadiaOrigin scripted
                 ARCADIA_CONFIG 1 874714 0 500
                 (freshClient [okJson (underData emptyFolder)]))
      as [(res & E & _ & Hsome) _]; [vm_compute; reflexivity|].
    rewrite E. f_equal. f_equal. apply Hsome; reflexivity.
Defined.

(* ===================================================================== *)
(** ** Strings: trimming and splitting *)
(* ===================================================================== *)

Lemma trimEnd_keeps_head a r :
  Js.isWhiteSpace a = false ->
  Js.trimEnd (String a r) = String a (Js.trimEnd r).
Proof.
  intros H. simpl. destruct (Js.trimEnd r); [now rewrite H|reflexivity].
Qed.

Lemma trimEnd_idem s : Js.trimEnd (Js.trimEnd s) = Js.trimEnd s.
Proof.
  induction s as [|a r IH]; [reflexivity|].
  simpl. destruct (Js.trimEnd r) as [|b t] eqn:E.
  - destruct (Js.isWhiteSpace a) eqn:Ea; [reflexivity|].
    simpl. now rewrite Ea.
  - change (Js.trimEnd (String a (String b t)))
      with (match Js.trimEnd (String b t) with
            | EmptyString =>
                if Js.isWhiteSpace a then EmptyString else String a EmptyString
            | r' => String a r'
            end).
    rewrite IH. reflexivity.
Qed.

Lemma trimStart_fixed s :
  match s with
  | EmptyString => True
  | String a _ => Js.isWhiteSpace a = false
  end -> Js.trimStart s = s.
Proof. destruct s as [|a r]; [reflexivity|]. simpl. now intros ->. Qed.

Lemma trimStart_head s :
  match Js.trimStart s with
  | EmptyString => True
  | String a _ => Js.isWhiteSpace a = false
  end.
Proof.
  induction s as [|a r IH]; [exact I|].
  simpl. destruct (Js.isWhiteSpace a) eqn:E; [exact IH|exact E].
Qed.

Lemma trim_idem s : Js.trim (Js.trim s) = Js.trim s.
Proof.
  unfold Js.trim. pose proof (trimStart_head s) as H.
  destruct (Js.trimStart s) as [|a r]; [reflexivity|].
  rewrite (trimEnd_keeps_head a r H).
  rewrite (trimStart_fixed (String a (Js.trimEnd r)) H).
  rewrite (trimEnd_keeps_head a _ H), trimEnd_idem. reflexivity.
Qed.

Lemma trimEnd_blank s : blank s -> Js.trimEnd s = "".
Proof.
  induction s as [|a r IH]; [reflexivity|].
  intros [Ha Hr]. simpl. now rewrite (IH Hr), Ha.
Qed.

Lemma trimEnd_empty s : Js.trimEnd s = "" -> blank s.
Proof.
  induction s as [|a r IH]; [intros _; exact I|].
  simpl. destruct (Js.trimEnd r) eqn:E; [|discriminate].
  destruct (Js.isWhiteSpace a) eqn:Ea; [|discriminate].
  intros _. split; [reflexivity|apply IH; reflexivity].
Qed.

(** Trimming yields the empty string exactly on white space alone. *)
Lemma trim_empty_iff s : Js.trim s = "" <-> blank s.
Proof.
  unfold Js.trim. induction s as [|a r IH]; [simpl; tauto|].
  simpl. destruct (Js.isWhiteSpace a) eqn:Ea.
  - rewrite IH. tauto.
  - split.
    + intros H. apply trimEnd_empty in H. destruct H as [H _]. congruence.
    + intros [H _]. congruence.
Qed.

Lemma indexOf_lower c s : -1 <= Js.indexOf c s.
Proof.
  induction s as [|a r IH]; simpl; [lia|].
  destruct (Ascii.eqb a c); [lia|].
  destruct (Z.ltb_spec (Js.indexOf c r) 0); lia.
Qed.

Lemma indexOf_absent c s : ~ occurs c s -> Js.indexOf c s = -1.
Proof.
  induction s as [|a r IH]; intros H; [reflexivity|].
  simpl in *. destruct (Ascii.eqb_spec a c) as [->|_]; [tauto|].
  rewrite IH by tauto. reflexivity.
Qed.

Lemma indexOf_first c nm val :
  ~ occurs c nm ->
  Js.indexOf c (nm ++ String c val) = Z.of_nat (String.length nm).
Proof.
  induction nm as [|a r IH]; intros H.
  - simpl. now rewrite Ascii.eqb_refl.
  - simpl in *. destruct (Ascii.eqb_spec a c) as [->|_]; [tauto|].
    rewrite IH by tauto.
    destruct (Z.ltb_spec (Z.of_nat (String.length r)) 0); lia.
Qed.

Lemma take_app nm rest : Js.take (String.length nm) (nm ++ rest) = nm.
Proof.
  induction nm as [|a r IH]; simpl; [now destruct rest|now rewrite IH].
Qed.

Lemma drop_app nm rest : Js.drop (String.length nm) (nm ++ rest) = rest.
Proof. induction nm as [|a r IH]; simpl; [now destruct rest|exact IH]. Qed.

Lemma firstSegment_whole c s : ~ occurs c s -> Js.firstSegment c s = s.
Proof.
  induction s as [|a r IH]; intros H; [reflexivity|].
  simpl in *. destruct (Ascii.eqb_spec a c) as [->|_]; [tauto|].
  rewrite IH by tauto. reflexivity.
Qed.

Lemma firstSegment_cut c s rest :
  ~ occurs c s -> Js.firstSegment c (s ++ String c rest) = s.
Proof.
  induction s as [|a r IH]; intros H.
  - simpl. now rewrite Ascii.eqb_refl.
  - simpl in *. destruct (Ascii.eqb_spec a c) as [->|_]; [tauto|].
    rewrite IH by tauto. reflexivity.
Qed.

(* ===================================================================== *)
(** ** The cookie jar *)
(* ===================================================================== *)

Lemma Map_set_names {V : Type} k (v : V) m x :
  In x (map fst m) -> In x (map fst (Js.Map_set k v m)).
Proof.
  induction m as [|[k' v'] m IH]; intros H; [destruct H|].
  simpl. destruct (String.eqb_spec k' k) as [->|Hne]; simpl in *.
  - exact H.
  - destruct H as [H|H]; [left; exact H|right; apply IH, H].
Qed.

Lemma Map_set_get_same {V : Type} k (v : V) m :
  Js.Map_get k (Js.Map_set k v m) = Some v.
Proof.
  induction m as [|[k' v'] m IH]; simpl.
  - now rewrite String.eqb_refl.
  - destruct (String.eqb_spec k' k) as [->|Hne]; simpl.
    + now rewrite String.eqb_refl.
    + destruct (String.eqb_spec k' k); [contradiction|exact IH].
Qed.

Lemma Map_set_get_other {V : Type} k (v : V) m x :
  x <> k -> Js.Map_get x (Js.Map_set k v m) = Js.Map_get x m.
Proof.
  intros Hx. induction m as [|[k' v'] m IH]; simpl.
  - destruct (String.eqb_spec k x); [congruence|reflexivity].
  - destruct (String.eqb_spec k' k) as [->|Hne]; simpl.
    + destruct (String.eqb_spec k x); [congruence|reflexivity].
    + destruct (String.eqb_spec k' x); [reflexivity|exact IH].
Qed.

Lemma Map_set_entries {V : Type} k (v : V) m kv :
  In kv (Js.Map_set k v m) -> kv = (k, v) \/ In kv m.
Proof.
  induction m as [|[k' v'] m IH]; simpl.
  - intros [H|[]]. left. now symmetry.
  - destruct (String.eqb_spec k' k) as [->|Hne]; simpl.
    + intros [H|H]; [left; now symmetry|right; right; exact H].
    + intros [H|H]; [right; left; exact H|].
      destruct (IH H) as [?|?]; [left|right; right]; assumption.
Qed.

Lemma Map_get_In {V : Type} k (v : V) m :
  Js.Map_get k m = Some v -> In (k, v) m.
Proof.
  induction m as [|[k' v'] m IH]; simpl; [discriminate|].
  destruct (String.eqb_spec k' k) as [->|Hne].
  - intros [= ->]. left. reflexivity.
  - intros H. right. apply IH, H.
Qed.

Lemma parseCookie_cases jar cookie :
  parseCookie jar cookie = jar
  \/ exists raw value,
       raw <> "" /\ parseCookie jar cookie = Js.Map_set (Js.trim raw) value jar.
Proof.
  unfold parseCookie.
  set (seg := Js.firstSegment ";" cookie).
  destruct (Z.gtb_spec (Js.indexOf "=" seg) 0) as [Hpos|_]; [|left; reflexivity].
  right. eexists. eexists. split; [|reflexivity].
  unfold Js.slice. simpl Js.drop.
  destruct seg as [|a r]; [simpl in Hpos; lia|].
  destruct (Z.to_nat (Js.indexOf "=" (String a r) - 0)) eqn:E; [lia|].
  discriminate.
Qed.

Lemma parseCookie_names jar cookie x :
  In x (names jar) -> In x (names (parseCookie jar cookie)).
Proof.
  destruct (parseCookie_cases jar cookie) as [->|(raw & value & _ & ->)];
    [tauto|apply Map_set_names].
Qed.

Lemma parseCookies_names response jar x :
  In x (names jar) -> In x (names (parseCookies response jar)).
Proof.
  unfold parseCookies. revert jar.
  induction (setCookie response) as [|c cs IH]; intros jar H; [exact H|].
  simpl. apply IH, parseCookie_names, H.
Qed.

Lemma parseCookie_trimmed jar cookie :
  trimmedKeys jar -> trimmedKeys (parseCookie jar cookie).
Proof.
  intros H.
  destruct (parseCookie_cases jar cookie) as [->|(raw & value & _ & ->)];
    [exact H|].
  apply Forall_forall. intros kv Hin.
  destruct (Map_set_entries _ _ _ _ Hin) as [->|Hold].
  - simpl. apply trim_idem.
  - exact (proj1 (Forall_forall _ _) H kv Hold).
Qed.

Lemma parseCookies_trimmed response jar :
  trimmedKeys jar -> trimmedKeys (parseCookies response jar).
Proof.
  unfold parseCookies. revert jar.
  induction (setCookie response) as [|c cs IH]; intros jar H; [exact H|].
  simpl. apply IH, parseCookie_trimmed, H.
Qed.

(** A segment [name=value] with a non-empty name is stored, trimmed. *)
Lemma parseCookie_stores jar cookie nm val :
  Js.firstSegment ";" cookie = nm ++ String "=" val ->
  ~ occurs "=" nm -> nm <> "" ->
  parseCookie jar cookie = Js.Map_set (Js.trim nm) (Js.trim val) jar.
Proof.
  intros Hseg Hno Hne. unfold parseCookie. rewrite Hseg.
  rewrite (indexOf_first _ _ _ Hno).
  assert (Hlen : (0 < String.length nm)%nat).
  { destruct nm; [contradiction|simpl; lia]. }
  destruct (Z.gtb_spec (Z.of_nat (String.length nm)) 0); [|lia].
  unfold Js.slice. simpl Js.drop.
  replace (Z.to_nat (Z.of_nat (String.length nm) - 0)) with (String.length nm)
    by lia.
  replace (Z.to_nat (Z.of_nat (String.length nm) + 1))
    with (String.length (nm ++ "=")).
  - rewrite take_app.
    replace (nm ++ String "=" val) with ((nm ++ "=") ++ val).
    + rewrite drop_app. reflexivity.
    + clear. induction nm as [|a r IH]; simpl; [reflexivity|now rewrite IH].
  - rewrite length_append. simpl. lia.
Qed.

(** A segment that begins with [=] is skipped. *)
Lemma parseCookie_skips_empty_name jar cookie val :
  Js.firstSegment ";" cookie = String "=" val -> parseCookie jar cookie = jar.
Proof. intros H. unfold parseCookie. rewrite H. reflexivity. Qed.

(** A segment without [=] is skipped. *)
Lemma parseCookie_skips_no_equals jar cookie :
  ~ occurs "=" (Js.firstSegment ";" cookie) -> parseCookie jar cookie = jar.
Proof.
  intros H. unfold parseCookie. rewrite (indexOf_absent _ _ H). reflexivity.
Qed.

Section Jar.

Context {World : Type}.
Variable URL_origin : string -> option string.
Variable transport : Request -> World -> NetResult * World.
Variable config : WebLinkConfig.

Lemma keepsNames_refl (s : State World) : keepsNames s s.
Proof. apply incl_refl. Qed.

Lemma keepsNames_trans (a b c : State World) :
  keepsNames a b -> keepsNames b c -> keepsNames a c.
Proof. apply incl_tran. Qed.

Lemma keepsNames_exchange (s : State World) req r w :
  keepsNames s (afterExchange s req r w).
Proof. intros x Hx. simpl. apply parseCookies_names, Hx. Qed.

Lemma keepsNames_net (s : State World) req w : keepsNames s (afterNet s req w).
Proof. apply incl_refl. Qed.

Lemma keepsNames_emit (s : State World) e :
  keepsNames s (Build_State (cookies s) (world s) (trace s ++ [e])).
Proof. apply incl_refl. Qed.

Lemma keepsTrimmed_refl (s : State World) : keepsTrimmed s s.
Proof. intros H. exact H. Qed.

Lemma keepsTrimmed_trans (a b c : State World) :
  keepsTrimmed a b -> keepsTrimmed b c -> keepsTrimmed a c.
Proof. unfold keepsTrimmed. tauto. Qed.

Lemma keepsTrimmed_exchange (s : State World) req r w :
  keepsTrimmed s (afterExchange s req r w).
Proof. intros H. simpl. apply parseCookies_trimmed, H. Qed.

Lemma keepsTrimmed_net (s : State World) req w : keepsTrimmed s (afterNet s req w).
Proof. intros H. exact H. Qed.

Lemma keepsTrimmed_emit (s : State World) e :
  keepsTrimmed s (Build_State (cookies s) (world s) (trace s ++ [e])).
Proof. intros H. exact H. Qed.

End Jar.

Section Operations.

Context {World : Type}.
Variable URL_origin : string -> option string.
Variable transport : Request -> World -> NetResult * World.
Variable config : WebLinkConfig.

Variable R : State World -> State World -> Prop.
Hypothesis R_refl : forall s, R s s.
Hypothesis R_trans : forall a b c, R a b -> R b c -> R a c.
Hypothesis R_exchange : forall s req r w, R s (afterExchange s req r w).
Hypothesis R_net : forall s req w, R s (afterNet s req w).
Hypothesis R_emit :
  forall s e, R s (Build_State (cookies s) (world s) (trace s ++ [e])).

(** A relation the atomic steps respect holds across every operation. *)
Lemma finalState_rel op fuel s :
  R s (finalState URL_origin transport config op fuel s).
Proof.
  destruct op as [url options| |folderId a b|folderId|folderId|]; simpl.
  - destruct (fetch _ _ _ _ _ _ _) as [o s'] eqn:E.
    eapply (fetch_rel _ _ _ R); eassumption.
  - destruct (initSession _ _ _ _ _) as [o s'] eqn:E.
    eapply (initSession_rel _ _ _ R); eassumption.
  - destruct (getFolderListing _ _ _ _ _ _ _ _) as [o s'] eqn:E.
    eapply (getFolderListing_rel _ _ _ R); eassumption.
  - destruct (getAllEntries _ _ _ _ _ _) as [o s'] eqn:E.
    eapply (getAllEntries_rel _ _ _ R); eassumption.
  - destruct (browseFolder _ _ _ _ _ _) as [o s'] eqn:E.
    eapply (browseFolder_rel _ _ _ R); eassumption.
  - unfold getRootFolder.
    destruct (browseFolder _ _ _ _ _ _) as [o s'] eqn:E.
    eapply (browseFolder_rel _ _ _ R); eassumption.
Qed.

End Operations.

Lemma two_cookies jar r1 r2 :
  setCookie r1 = ["A=1"] -> setCookie r2 = ["B=2"] ->
  parseCookies r2 (parseCookies r1 jar)
  = Js.Map_set "B" "2" (Js.Map_set "A" "1" jar).
Proof.
  intros H1 H2. unfold parseCookies. rewrite H1, H2. simpl.
  rewrite (parseCookie_stores jar "A=1" "A" "1");
    [|reflexivity|simpl; intuition discriminate|discriminate].
  rewrite (parseCookie_stores _ "B=2" "B" "2");
    [|reflexivity|simpl; intuition discriminate|discriminate].
  reflexivity.
Qed.

(** C6. No operation removes a name from the cookie jar: a response only
    adds names or overwrites the value bound to the names it sets, leaving
    the other names as they were.  After a response with Set-Cookie A=1 and
    one with Set-Cookie B=2 the jar binds A to 1 and B to 2, and the Cookie
    header, the jar's name=value pairs joined by "; ", lists both: it is
    "A=1; B=2" when the jar was empty, and that is the header of the third
    request of such a session. *)
Theorem C6_cookie_jar_accumulates {World : Type}
    (URL_origin : string -> option string)
    (transport : Request -> World -> NetResult * World)
    (config : WebLinkConfig) :
  (forall response jar x,
      In x (names jar) -> In x (names (parseCookies response jar)))
  /\ (forall op fuel (s : State World) x,
        In x (names (cookies s)) ->
        In x (names (cookies (finalState URL_origin transport config op fuel s))))
  /\ (forall jar cookie nm val,
        Js.firstSegment ";" cookie = nm ++ String "=" val ->
        ~ occurs "=" nm -> nm <> "" ->
        Js.Map_get (Js.trim nm) (parseCookie jar cookie) = Some (Js.trim val)
        /\ forall x, x <> Js.trim nm ->
             Js.Map_get x (parseCookie jar cookie) = Js.Map_get x jar)
  /\ (forall jar r1 r2,
        setCookie r1 = ["A=1"] -> setCookie r2 = ["B=2"] ->
        Js.Map_get "A" (parseCookies r2 (parseCookies r1 jar)) = Some "1"
        /\ Js.Map_get "B" (parseCookies r2 (parseCookies r1 jar)) = Some "2"
        /\ In "A=1" (map pairText (parseCookies r2 (parseCookies r1 jar)))
        /\ In "B=2" (map pairText (parseCookies r2 (parseCookies r1 jar)))
        /\ getCookieHeader (parseCookies r2 (parseCookies r1 jar))
           = Js.join "; " (map pairText (parseCookies r2 (parseCookies r1 jar))))
  /\ getCookieHeader (parseCookies (withCookies ["B=2"])
                        (parseCookies (withCookies ["A=1"]) []))
     = "A=1; B=2"
  /\ cookieHeaders
       (trace (snd (threeFetches
                      (freshClient [ withCookies ["A=1"]; withCookies ["B=2"];
                                     withCookies [] ]))))
     = [Some ""; Some "A=1"; Some "A=1; B=2"].
Proof.
  split; [exact parseCookies_names|].
  split.
  { intros op fuel s x.
    apply (finalState_rel URL_origin transport config keepsNames
             keepsNames_refl keepsNames_trans keepsNames_exchange
             keepsNames_net keepsNames_emit op fuel s). }
  split.
  { intros jar cookie nm val Hseg Hno Hne.
    rewrite (parseCookie_stores jar cookie nm val Hseg Hno Hne).
    split; [apply Map_set_get_same|].
    intros x Hx. apply Map_set_get_other, Hx. }
  split; [|split; reflexivity].
  intros jar r1 r2 H1 H2. rewrite (two_cookies jar r1 r2 H1 H2).
  assert (HA : Js.Map_get "A" (Js.Map_set "B" "2" (Js.Map_set "A" "1" jar))
               = Some "1").
  { rewrite Map_set_get_other by discriminate. apply Map_set_get_same. }
  assert (HB : Js.Map_get "B" (Js.Map_set "B" "2" (Js.Map_set "A" "1" jar))
               = Some "2") by apply Map_set_get_same.
  split; [exact HA|]. split; [exact HB|].
  split; [|split; [|reflexivity]].
  - exact (in_map pairText _ _ (Map_get_In _ _ _ HA)).
  - exact (in_map pairText _ _ (Map_get_In _ _ _ HB)).
Qed.

(** A jar that holds A keeps it across a run; B is overwritten in place. *)
Lemma C6_cookie_jar_accumulates_witness :
  In "A" (names (cookies (finalState arcadiaOrigin scripted ARCADIA_CONFIG
                            (OpGetAllEntries 1) 2
                            (Build_State [("A", "1")] [withCookies ["B=2"]] []))))
  /\ Js.Map_get "B" (parseCookies (withCookies ["B=2"])
                       (parseCookies (withCookies ["A=1"]) [("B", "0")]))
     = Some "2".
Proof.
  split.
  - apply (proj1 (proj2 (C6_cookie_jar_accumulates arcadiaOrigin scripted
                           ARCADIA_CONFIG))).
    simpl. left. reflexivity.
  - apply (proj1 (proj2 (proj2 (proj2
             (C6_cookie_jar_accumulates arcadiaOrigin scripted ARCADIA_CONFIG))))
             [("B", "0")] (withCookies ["A=1"]) (withCookies ["B=2"]));
      reflexivity.
Defined.

(** C10. The guard on the index of '=' skips the entry [=v], whose name is
    empty, but it is tested before the name is trimmed: a Set-Cookie entry
    whose name is a no-break space passes it and is stored under the empty
    name, which a request then sends as the cookie [=v].  Non-empty names
    are therefore not an invariant of the jar. *)
Theorem C10_blank_name_stored :
  parseCookies (withCookies ["=v"]) [] = []
  /\ parseCookies (withCookies [String nbsp "=v"]) [] = [("", "v")]
  /\ cookies (finalState arcadiaOrigin scripted ARCADIA_CONFIG
                (OpFetch "Welcome.aspx" noOptions) 1
                (freshClient [withCookies [String nbsp "=v"]]))
     = [("", "v")]
  /\ getCookieHeader [("", "v")] = "=v"
  /\ ~ (forall response jar,
          nonEmptyKeys jar -> nonEmptyKeys (parseCookies response jar)).
Proof.
  split; [reflexivity|]. split; [reflexivity|]. split; [reflexivity|].
  split; [reflexivity|].
  intros H. specialize (H (withCookies [String nbsp "=v"]) [] (Forall_nil _)).
  inversion H as [|kv l Hkv _]. apply Hkv. reflexivity.
Qed.

(** X23. A Set-Cookie entry is stored only when the first '=' of the
    segment before the first ';' is at an index greater than 0: a segment
    [name=value] is then stored under the trimmed name with the trimmed
    value, and a segment that starts with '=' or has no '=' leaves the jar
    as it is.  Every name in the jar is trimmed, an invariant of every
    operation of the client that holds of the empty jar. *)
Theorem X23_parseCookies_trimmed_keys {World : Type}
    (URL_origin : string -> option string)
    (transport : Request -> World -> NetResult * World)
    (config : WebLinkConfig) :
  (forall jar cookie nm val,
      Js.firstSegment ";" cookie = nm ++ String "=" val ->
      ~ occurs "=" nm -> nm <> "" ->
      parseCookie jar cookie = Js.Map_set (Js.trim nm) (Js.trim val) jar)
  /\ (forall jar cookie val,
        Js.firstSegment ";" cookie = String "=" val ->
        parseCookie jar cookie = jar)
  /\ (forall jar cookie,
        ~ occurs "=" (Js.firstSegment ";" cookie) ->
        parseCookie jar cookie = jar)
  /\ trimmedKeys []
  /\ (forall response jar,
        trimmedKeys jar -> trimmedKeys (parseCookies response jar))
  /\ (forall op fuel (s : State World),
        trimmedKeys (cookies s) ->
        trimmedKeys (cookies (finalState URL_origin transport config op fuel s))).
Proof.
  split; [exact parseCookie_stores|].
  split; [exact parseCookie_skips_empty_name|].
  split; [exact parseCookie_skips_no_equals|].
  split; [constructor|].
  split; [exact parseCookies_trimmed|].
  intros op fuel s.
  apply (finalState_rel URL_origin transport config keepsTrimmed
           keepsTrimmed_refl keepsTrimmed_trans keepsTrimmed_exchange
           keepsTrimmed_net keepsTrimmed_emit op fuel s).
Qed.

(** A padded cookie is stored trimmed; the malformed ones are skipped. *)
Lemma X23_parseCookies_trimmed_keys_witness :
  parseCookie [] "sid = abc ; Path=/" = [("sid", "abc")]
  /\ parseCookie [("sid", "abc")] "=abc; Path=/" = [("sid", "abc")]
  /\ parseCookie [("sid", "abc")] "HttpOnly" = [("sid", "abc")]
  /\ trimmedKeys (cookies (finalState arcadiaOrigin scripted ARCADIA_CONFIG
                             OpInitSession 1
                             (freshClient [withCookies ["sid = abc ; Path=/"];
                                           withCookies ["=x"; "b = 2"]]))).
Proof.
  pose proof (X23_parseCookies_trimmed_keys arcadiaOrigin scripted
                ARCADIA_CONFIG) as (Hstore & Hlead & Hnone & Hnil & _ & Hop).
  split; [|split; [|split]].
  - apply (Hstore [] "sid = abc ; Path=/" "sid " " abc ");
      [reflexivity|simpl; intuition discriminate|discriminate].
  - apply (Hlead _ "=abc; Path=/" "abc"). reflexivity.
  - apply Hnone. simpl. intuition discriminate.
  - apply Hop. exact Hnil.
Defined.

(* ===================================================================== *)
(** ** Redirects *)
(* ===================================================================== *)

Lemma isRedirectStatus_In st :
  isRedirectStatus st = true <-> In st [301; 302; 303; 307; 308].
Proof.
  unfold isRedirectStatus. rewrite existsb_exists. split.
  - intros (x & Hx & E). apply Z.eqb_eq in E. now subst.
  - intros H. exists st. split; [exact H|apply Z.eqb_refl].
Qed.

Lemma truthy_true s : Js.truthy s = true <-> s <> "".
Proof.
  unfold Js.truthy. destruct (String.eqb_spec s ""); simpl; split;
    congruence.
Qed.

Lemma redirectsTo_test r loc :
  redirectsTo r loc <->
  location r = Some loc /\ Js.truthy loc && isRedirectStatus (status r) = true.
Proof.
  unfold redirectsTo.
  rewrite andb_true_iff, truthy_true, isRedirectStatus_In. tauto.
Qed.

Lemma isFinal_test r :
  isFinal r ->
  match location r with
  | Some loc => Js.truthy loc && isRedirectStatus (status r) = false
  | None => True
  end.
Proof.
  intros H. destruct (location r) as [loc|] eqn:E; [|exact I].
  destruct (Js.truthy loc && isRedirectStatus (status r)) eqn:T;
    [|reflexivity].
  exfalso. apply (H loc). apply redirectsTo_test. split; assumption.
Qed.

Lemma spread_get_absent {V : Type} k (b a : list (string * V)) :
  Js.Map_get k b = None -> Js.Map_get k (Js.spread a b) = Js.Map_get k a.
Proof.
  unfold Js.spread. revert a.
  induction b as [|[k' v'] b IH]; intros a H; [reflexivity|].
  simpl in *. destruct (String.eqb_spec k' k) as [->|Hne]; [discriminate|].
  rewrite (IH _ H). apply Map_set_get_other. congruence.
Qed.

Section Redirects.

Context {World : Type}.
Variable URL_origin : string -> option string.
Variable transport : Request -> World -> NetResult * World.
Variable config : WebLinkConfig.

Lemma fetch_follows n url options (s : State World) r s1 loc :
  exchange URL_origin transport config options url s r s1 ->
  redirectsTo r loc ->
  fetch URL_origin transport config (S n) url options s
  = fetch URL_origin transport config n loc options s1.
Proof.
  intros (fullUrl & w & Hu & Ht & ->) Hr.
  apply redirectsTo_test in Hr. destruct Hr as [Hl Htest].
  rewrite fetch_S, Hu. cbv beta iota zeta delta [fst].
  rewrite Ht, Hl, Htest. reflexivity.
Qed.

Lemma fetch_returns n url options (s : State World) r s1 :
  exchange URL_origin transport config options url s r s1 ->
  isFinal r ->
  fetch URL_origin transport config (S n) url options s = (Ret r, s1).
Proof.
  intros (fullUrl & w & Hu & Ht & ->) Hr.
  apply isFinal_test in Hr.
  rewrite fetch_S, Hu. cbv beta iota zeta delta [fst]. rewrite Ht.
  destruct (location r) as [loc|]; [|reflexivity].
  rewrite Hr. reflexivity.
Qed.

Lemma fetch_chain options url (s : State World) r s' :
  chain URL_origin transport config options url s r s' ->
  exists n, forall m, (n <= m)%nat ->
    fetch URL_origin transport config m url options s = (Ret r, s').
Proof.
  intros H. induction H as [url s r s' Hx Hf|url s r s1 loc r' s' Hx Hr _ IH].
  - exists 1%nat. intros m Hm. destruct m as [|m]; [lia|].
    apply fetch_returns; assumption.
  - destruct IH as [n IH]. exists (S n). intros m Hm.
    destruct m as [|m]; [lia|].
    rewrite (fetch_follows m url options s r s1 loc Hx Hr).
    apply IH. lia.
Qed.

Lemma chain_final options url (s : State World) r s' :
  chain URL_origin transport config options url s r s' -> isFinal r.
Proof. intros H. induction H; assumption. Qed.

Lemma resolveUrl_rooted origin path (s : State World) :
  URL_origin (baseUrl config) = Some origin ->
  resolveUrl URL_origin config (String "/" path) s
  = (Ret (origin ++ String "/" path), s).
Proof.
  intros H. unfold resolveUrl. simpl.
  destruct path; simpl; rewrite H; reflexivity.
Qed.

Lemma request_cookie fullUrl cookie options :
  Js.Map_get "Cookie" (init_headers options) = None ->
  Js.Map_get "Cookie" (req_headers (requestOf fullUrl cookie options))
  = Some cookie.
Proof.
  intros H. unfold requestOf. simpl req_headers.
  rewrite (spread_get_absent _ _ _ H). reflexivity.
Qed.

End Redirects.

Section RedirectTrace.

Context {World : Type}.
Variable URL_origin : string -> option string.
Variable transport : Request -> World -> NetResult * World.
Variable config : WebLinkConfig.

Lemma fetch_extendsTrace n url options (s : State World) o s' :
  fetch URL_origin transport config n url options s = (o, s') ->
  extendsTrace s s'.
Proof.
  apply (fetch_rel URL_origin transport config extendsTrace).
  - intros a. exists []. now rewrite app_nil_r.
  - intros a b c [r1 H1] [r2 H2]. exists (r1 ++ r2)%list.
    now rewrite H2, H1, app_assoc.
  - intros a req r w. exists [Sent req]. reflexivity.
  - intros a req w. exists [Sent req]. reflexivity.
Qed.

(** The first request of a call is built from the jar as it stands. *)
Lemma fetch_first_request n url options (s : State World) fullUrl :
  resolveUrl URL_origin config url s = (Ret fullUrl, s) ->
  exists rest,
    trace (snd (fetch URL_origin transport config (S n) url options s))
    = (trace s
       ++ Sent (requestOf fullUrl (getCookieHeader (cookies s)) options)
          :: rest)%list.
Proof.
  intros Hu. rewrite fetch_S, Hu. cbv beta iota zeta delta [fst].
  destruct (transport _ (world s)) as [[r|] w]; [|exists []; reflexivity].
  destruct (location r) as [loc|]; [|exists []; reflexivity].
  destruct (Js.truthy loc && isRedirectStatus (status r));
    [|exists []; reflexivity].
  destruct (fetch URL_origin transport config n loc options _)
    as [o s'] eqn:E.
  apply fetch_extendsTrace in E. destruct E as [rest E].
  exists rest. simpl snd. rewrite E. simpl. now rewrite <- app_assoc.
Qed.

End RedirectTrace.

(** C5, as stated, fails on two inputs: when the caller's options carry a
    Cookie header, the follow-up request is sent with that header and not
    with the cookie collected from the redirect; and a redirect status whose
    Location header is empty is returned, not followed. *)
Lemma C5_counterexample_cookie_override :
  requestLines
    (trace (snd (fetch arcadiaOrigin scripted ARCADIA_CONFIG 2 "Welcome.aspx"
                       ownCookie
                       (freshClient [movedToOther;
                                     okJson (underData emptyFolder)]))))
  = [ ("https://laserfiche.arcadiaca.gov/WebLink/Welcome.aspx", Some "X=9");
      ("https://laserfiche.arcadiaca.gov/Other.aspx", Some "X=9") ]
  /\ cookies (snd (fetch arcadiaOrigin scripted ARCADIA_CONFIG 2 "Welcome.aspx"
                         ownCookie
                         (freshClient [movedToOther;
                                       okJson (underData emptyFolder)])))
     = [("A", "1")]
  /\ fst (fetch arcadiaOrigin scripted ARCADIA_CONFIG 2 "Welcome.aspx"
                noOptions
                (freshClient [movedNowhere; okJson (underData emptyFolder)]))
     = Ret movedNowhere
  /\ requestLines
       (trace (snd (fetch arcadiaOrigin scripted ARCADIA_CONFIG 2
                          "Welcome.aspx" noOptions
                          (freshClient [movedNowhere;
                                        okJson (underData emptyFolder)]))))
     = [ ("https://laserfiche.arcadiaca.gov/WebLink/Welcome.aspx", Some "") ].
Proof. repeat split; reflexivity. Qed.

(** C5 (amended). When a response has a status among 301, 302, 303, 307
    and 308 and a non-empty Location header, [fetch] repeats the request,
    with the same options, against the resolved location (a location "/p"
    resolves to the origin of the base URL followed by "/p"); the follow-up
    request is built from the jar that holds the cookies of the earlier
    response, so its Cookie header is that jar's header unless the caller's
    options carry a Cookie header of their own.  A finite chain of such
    redirects returns its first response that is not one. *)
Theorem C5_fetch_follows_redirects {World : Type}
    (URL_origin : string -> option string)
    (transport : Request -> World -> NetResult * World)
    (config : WebLinkConfig) (options : RequestInit) :
  (forall n url (s : State World) r s1 loc,
      exchange URL_origin transport config options url s r s1 ->
      redirectsTo r loc ->
      fetch URL_origin transport config (S n) url options s
      = fetch URL_origin transport config n loc options s1
      /\ cookies s1 = parseCookies r (cookies s))
  /\ (forall n loc (s1 : State World) fullUrl,
        resolveUrl URL_origin config loc s1 = (Ret fullUrl, s1) ->
        exists rest,
          trace (snd (fetch URL_origin transport config (S n) loc options s1))
          = (trace s1
             ++ Sent (requestOf fullUrl (getCookieHeader (cookies s1)) options)
                :: rest)%list)
  /\ (forall fullUrl cookie,
        Js.Map_get "Cookie" (init_headers options) = None ->
        Js.Map_get "Cookie" (req_headers (requestOf fullUrl cookie options))
        = Some cookie)
  /\ (forall origin path (s : State World),
        URL_origin (baseUrl config) = Some origin ->
        resolveUrl URL_origin config (String "/" path) s
        = (Ret (origin ++ String "/" path), s))
  /\ (forall url (s : State World) r s',
        chain URL_origin transport config options url s r s' ->
        isFinal r
        /\ exists n, forall m, (n <= m)%nat ->
             fetch URL_origin transport config m url options s = (Ret r, s'))
  /\ fst (fetch arcadiaOrigin scripted ARCADIA_CONFIG 2 "Welcome.aspx"
                noOptions
                (freshClient [movedToOther; okJson (underData emptyFolder)]))
     = Ret (okJson (underData emptyFolder))
  /\ requestLines
       (trace (snd (fetch arcadiaOrigin scripted ARCADIA_CONFIG 2
                          "Welcome.aspx" noOptions
                          (freshClient [movedToOther;
                                        okJson (underData emptyFolder)]))))
     = [ ("https://laserfiche.arcadiaca.gov/WebLink/Welcome.aspx", Some "");
         ("https://laserfiche.arcadiaca.gov/Other.aspx", Some "A=1") ].
Proof.
  split.
  { intros n url s r s1 loc Hx Hr. split.
    - apply (fetch_follows _ _ _ _ _ _ _ _ _ _ Hx Hr).
    - destruct Hx as (u & w & _ & _ & ->). reflexivity. }
  split; [intros n loc s1 fullUrl; apply fetch_first_request|].
  split; [intros fullUrl cookie; apply request_cookie|].
  split; [intros origin path s; apply resolveUrl_rooted|].
  split; [|split; reflexivity].
  intros url s r s' H. split.
  - exact (chain_final _ _ _ _ _ _ _ _ H).
  - exact (fetch_chain _ _ _ _ _ _ _ _ H).
Qed.

(** A 302 to /Other.aspx followed by a 200. *)
Lemma C5_fetch_follows_redirects_witness :
  exists s',
    (exists n, forall m, (n <= m)%nat ->
       fetch arcadiaOrigin scripted ARCADIA_CONFIG m "Welcome.aspx" noOptions
             (freshClient [movedToOther; okJson (underData emptyFolder)])
       = (Ret (okJson (underData emptyFolder)), s'))
    /\ cookies s' = [("A", "1")].
Proof.
  eexists. split.
  - apply (proj1 (proj2 (proj2 (proj2 (proj2
             (C5_fetch_follows_redirects arcadiaOrigin scripted ARCADIA_CONFIG
                noOptions)))))).
    eapply chain_step with (r := movedToOther) (loc := "/Other.aspx").
    + eexists. eexists.
      split; [vm_compute; reflexivity|].
      split; [vm_compute; reflexivity|reflexivity].
    + split; [simpl; tauto|]. split; [reflexivity|discriminate].
    + eapply chain_last.
      * eexists. eexists.
        split; [vm_compute; reflexivity|].
        split; [vm_compute; reflexivity|reflexivity].
      * intros loc (_ & Hl & _). discriminate Hl.
  - reflexivity.
Defined.

(* ===================================================================== *)
(** ** The legacy script against the library *)
(* ===================================================================== *)

Lemma getEntryType_relabel n : getEntryType n = relabel (Legacy.getEntryType n).
Proof.
  rewrite getEntryType_cases, legacy_getEntryType_cases.
  destruct (Z.eqb_spec n 0); [reflexivity|].
  destruct (Z.eqb_spec n 1); [reflexivity|].
  destruct (Z.eqb_spec n 2); [reflexivity|].
  destruct (Z.eqb_spec n (-2)) as [->|Hn]; [reflexivity|].
  unfold relabel.
  destruct (String.eqb_spec ("Unknown(" ++ Js.numberToString n ++ ")")
                            "Unknown(-2)") as [E|_]; [|reflexivity].
  exfalso. apply Hn. apply unknown_label_inj. exact E.
Qed.

Lemma getEntryType_agree n : n <> -2 -> Legacy.getEntryType n = getEntryType n.
Proof.
  intros Hn. rewrite getEntryType_cases, legacy_getEntryType_cases.
  destruct (Z.eqb_spec n (-2)); [contradiction|reflexivity].
Qed.

Lemma entryOf_relabel i1 i2 i3 i4 row :
  entryOf getEntryType i1 i2 i3 i4 row
  = relabelEntry (entryOf Legacy.getEntryType i1 i2 i3 i4 row).
Proof.
  unfold entryOf, relabelEntry. simpl. now rewrite getEntryType_relabel.
Qed.

Lemma legacy_pushRows_app i1 i2 i3 i4 results acc :
  Legacy.pushRows i1 i2 i3 i4 results acc
  = (acc ++ map (entryOf Legacy.getEntryType i1 i2 i3 i4) results)%list.
Proof.
  unfold Legacy.pushRows. revert acc.
  induction results as [|r rs IH]; intros acc; simpl.
  - now rewrite app_nil_r.
  - rewrite IH, <- app_assoc. reflexivity.
Qed.

Lemma pushRows_relabel i1 i2 i3 i4 results acc :
  pushRows i1 i2 i3 i4 results (map relabelEntry acc)
  = map relabelEntry (Legacy.pushRows i1 i2 i3 i4 results acc).
Proof.
  rewrite pushRows_app, legacy_pushRows_app, map_app, map_map.
  f_equal. apply map_ext. intros row. apply entryOf_relabel.
Qed.

Lemma relabelEntry_fixed e : type e <> "Unknown(-2)" -> relabelEntry e = e.
Proof.
  intros H. destruct e as [i n t pc tp cd md]. unfold relabelEntry, relabel.
  simpl in *. destruct (String.eqb_spec t "Unknown(-2)"); [contradiction|].
  reflexivity.
Qed.

Lemma relabelContents_fixed fc :
  Forall (fun e => type e <> "Unknown(-2)") (entries fc) ->
  relabelContents fc = fc.
Proof.
  destruct fc as [nm es]. unfold relabelContents. simpl. intros H. f_equal.
  induction H as [|e es He _ IH]; [reflexivity|].
  simpl. now rewrite (relabelEntry_fixed e He), IH.
Qed.

Section LegacyAgainstLibrary.

Context {World : Type}.
Variable URL_origin : string -> option string.
Variable transport : Request -> World -> NetResult * World.

Hypothesis arcadia_origin :
  URL_origin Legacy.BASE_URL = Some "https://laserfiche.arcadiaca.gov".

Lemma legacy_resolveUrl url (s : State World) :
  Legacy.resolveUrl url s = resolveUrl URL_origin ARCADIA_CONFIG url s.
Proof.
  unfold Legacy.resolveUrl, resolveUrl.
  destruct (Js.startsWith url "http"); [reflexivity|].
  destruct (Js.startsWith url "/"); [|reflexivity].
  change (baseUrl ARCADIA_CONFIG) with Legacy.BASE_URL.
  rewrite arcadia_origin. reflexivity.
Qed.

Lemma legacy_fetch n : forall url options (s : State World),
  Legacy.fetch transport n url options s
  = fetch URL_origin transport ARCADIA_CONFIG n url options s.
Proof.
  induction n as [|n IH]; intros url options s; [reflexivity|].
  simpl. unfold bind at 1 5. rewrite legacy_resolveUrl.
  destruct (resolveUrl URL_origin ARCADIA_CONFIG url s) as [[u|e|] s0];
    try reflexivity.
  unfold bind, gets, Legacy.global_fetch, global_fetch, modifyCookies. simpl.
  change (Legacy.requestOf u (Legacy.getCookieHeader (cookies s0)) options)
    with (requestOf u (getCookieHeader (cookies s0)) options).
  destruct (transport _ (world s0)) as [[r|] w]; [|reflexivity].
  destruct (location r) as [loc|]; [|reflexivity].
  destruct (Js.truthy loc && isRedirectStatus (status r)); [|reflexivity].
  apply IH.
Qed.

Lemma legacy_initSession n (s : State World) :
  Legacy.initSession transport n s
  = initSession URL_origin transport ARCADIA_CONFIG n s.
Proof.
  unfold Legacy.initSession, initSession, bind.
  rewrite !legacy_fetch.
  change (Legacy.BASE_URL ++ "/") with (baseUrl ARCADIA_CONFIG ++ "/").
  destruct (fetch _ _ _ _ _ _ s) as [[r1|e|] s1]; try reflexivity.
  rewrite legacy_fetch. reflexivity.
Qed.

Lemma legacy_getFolderListing n folderId a b (s : State World) :
  Legacy.getFolderListing transport n folderId a b s
  = getFolderListing URL_origin transport ARCADIA_CONFIG n folderId a b s.
Proof.
  unfold Legacy.getFolderListing, getFolderListing, bind.
  destruct (emit _ s) as [[u|e|] s0]; try reflexivity.
  rewrite legacy_fetch. reflexivity.
Qed.

Lemma legacy_loop iter : forall fuel folderId acc nm start total first
                                (s : State World),
  getAllEntries_loop URL_origin transport ARCADIA_CONFIG iter fuel folderId
                     (map relabelEntry acc) nm start total first s
  = (mapOutcome relabelContents
       (fst (Legacy.getAllEntries_loop transport iter fuel folderId
               acc nm start total first s)),
     snd (Legacy.getAllEntries_loop transport iter fuel folderId
            acc nm start total first s)).
Proof.
  induction iter as [|iter IH];
    intros fuel folderId acc nm start total first s; [reflexivity|].
  simpl. unfold bind. rewrite legacy_getFolderListing.
  change Legacy.pageSize with pageSize.
  destruct (getFolderListing _ _ _ _ _ _ _ _) as [[r|e|] s1];
    try reflexivity.
  destruct (unwrapEnvelope r) as [p|]; [|reflexivity].
  rewrite pushRows_relabel.
  destruct (start + pageSize <? _); [apply IH|reflexivity].
Qed.

Lemma legacy_getAllEntries fuel folderId (s : State World) :
  getAllEntries URL_origin transport ARCADIA_CONFIG fuel folderId s
  = (mapOutcome relabelContents
       (fst (Legacy.getAllEntries transport fuel folderId s)),
     snd (Legacy.getAllEntries transport fuel folderId s)).
Proof. apply (legacy_loop fuel fuel folderId []). Qed.

End LegacyAgainstLibrary.

(** C9, as stated, fails: on the type code -2 the script answers
    "Unknown(-2)" where the library answers "Document", and so the two
    [getAllEntries] differ on a page that holds a row of that type. *)
Lemma C9_counterexample_alternate_document_code :
  Legacy.getEntryType (-2) = "Unknown(-2)"
  /\ getEntryType (-2) = "Document"
  /\ Legacy.getEntryType (-2) <> getEntryType (-2)
  /\ map type
       (match fst (Legacy.getAllEntries scripted 1 9
                     (freshClient [okJson (underData altDocumentPage)])) with
        | Ret fc => entries fc
        | _ => []
        end) = ["Unknown(-2)"]
  /\ map type
       (match fst (getAllEntries arcadiaOrigin scripted ARCADIA_CONFIG 1 9
                     (freshClient [okJson (underData altDocumentPage)])) with
        | Ret fc => entries fc
        | _ => []
        end) = ["Document"].
Proof.
  split; [reflexivity|]. split; [reflexivity|].
  split; [discriminate|]. split; reflexivity.
Qed.

(** C9 (amended). With the library configured for the Arcadia portal (the
    constants of the script), [resolveUrl], [parseCookies],
    [getCookieHeader], [fetch], [initSession] and [getFolderListing] of the
    two clients produce equal results on every input, and [getEntryType]
    agrees on every code but -2, which the library alone maps to
    "Document".  The [getAllEntries] of the library returns what the
    script's returns with the label "Unknown(-2)" replaced by "Document", in
    the same final state, hence the same result whenever no entry carries
    that label. *)
Theorem C9_legacy_agrees_except_alternate_code {World : Type}
    (URL_origin : string -> option string)
    (transport : Request -> World -> NetResult * World) :
  URL_origin Legacy.BASE_URL = Some "https://laserfiche.arcadiaca.gov" ->
  (forall n, n <> -2 -> Legacy.getEntryType n = getEntryType n)
  /\ (forall n, getEntryType n = relabel (Legacy.getEntryType n))
  /\ (forall url (s : State World),
        Legacy.resolveUrl url s = resolveUrl URL_origin ARCADIA_CONFIG url s)
  /\ (forall response jar,
        Legacy.parseCookies response jar = parseCookies response jar)
  /\ (forall jar, Legacy.getCookieHeader jar = getCookieHeader jar)
  /\ (forall fuel url options (s : State World),
        Legacy.fetch transport fuel url options s
        = fetch URL_origin transport ARCADIA_CONFIG fuel url options s)
  /\ (forall fuel (s : State World),
        Legacy.initSession transport fuel s
        = initSession URL_origin transport ARCADIA_CONFIG fuel s)
  /\ (forall fuel folderId a b (s : State World),
        Legacy.getFolderListing transport fuel folderId a b s
        = getFolderListing URL_origin transport ARCADIA_CONFIG fuel
                           folderId a b s)
  /\ (forall fuel folderId (s : State World),
        getAllEntries URL_origin transport ARCADIA_CONFIG fuel folderId s
        = (mapOutcome relabelContents
             (fst (Legacy.getAllEntries transport fuel folderId s)),
           snd (Legacy.getAllEntries transport fuel folderId s)))
  /\ (forall fuel folderId (s s' : State World) fc,
        Legacy.getAllEntries transport fuel folderId s = (Ret fc, s') ->
        Forall (fun e => type e <> "Unknown(-2)") (entries fc) ->
        getAllEntries URL_origin transport ARCADIA_CONFIG fuel folderId s
        = (Ret fc, s')).
Proof.
  intros Horigin.
  split; [exact getEntryType_agree|].
  split; [exact getEntryType_relabel|].
  split; [intros url s; apply legacy_resolveUrl, Horigin|].
  split; [reflexivity|]. split; [reflexivity|].
  split; [intros fuel url options s; apply legacy_fetch, Horigin|].
  split; [intros fuel s; apply legacy_initSession, Horigin|].
  split; [intros fuel folderId a b s; apply legacy_getFolderListing, Horigin|].
  split; [intros fuel folderId s; apply legacy_getAllEntries, Horigin|].
  intros fuel folderId s s' fc H Hfix.
  rewrite (legacy_getAllEntries URL_origin transport Horigin), H. simpl.
  now rewrite (relabelContents_fixed fc Hfix).
Qed.

(** The two clients on code 99, on a session and on two pages. *)
Lemma C9_legacy_agrees_except_alternate_code_witness :
  Legacy.getEntryType 99 = getEntryType 99
  /\ Legacy.initSession scripted 2
       (freshClient [movedToOther; withCookies ["B=2"]; withCookies []])
     = initSession arcadiaOrigin scripted ARCADIA_CONFIG 2
         (freshClient [movedToOther; withCookies ["B=2"]; withCookies []])
  /\ fst (getAllEntries arcadiaOrigin scripted ARCADIA_CONFIG 2 1
            (freshClient twoLayouts))
     = fst (Legacy.getAllEntries scripted 2 1 (freshClient twoLayouts)).
Proof.
  pose proof (C9_legacy_agrees_except_alternate_code arcadiaOrigin
                (@scripted) eq_refl)
    as (Htype & _ & _ & _ & _ & _ & Hinit & _ & _ & Hall).
  split; [apply Htype; discriminate|].
  split; [apply Hinit|].
  destruct (Legacy.getAllEntries scripted 2 1 (freshClient twoLayouts))
    as [[fc| |] s'] eqn:E; try (vm_compute in E; discriminate E).
  rewrite (Hall 2%nat 1 _ _ _ E); [reflexivity|].
  vm_compute in E. injection E as <- _.
  repeat (constructor; [discriminate|]). constructor.
Defined.

(* ===================================================================== *)
(** ** Further properties of the library client *)
(* ===================================================================== *)

Section ClientExtras.

Context {World : Type}.
Variable URL_origin : string -> option string.
Variable transport : Request -> World -> NetResult * World.
Variable config : WebLinkConfig.

Lemma getFolderListing_state n folderId a b (s : State World) :
  listingCalls
    (trace (snd (getFolderListing URL_origin transport config n folderId a b s)))
  = (listingCalls (trace s) ++ [(folderId, a, b)])%list.
Proof.
  destruct (getFolderListing _ _ _ _ _ _ _ _) as [o s'] eqn:E.
  exact (getFolderListing_listingCalls _ _ _ _ _ _ _ _ _ _ E).
Qed.

End ClientExtras.

(** X1. [browseFolder] makes exactly one listing call, for the window from 0
    to 100, whatever the backend answers and whatever total it reports; what
    it returns has one entry per row of the page it received, however many
    rows that page holds, and the name of that page. *)
Theorem X1_browseFolder_one_window {World : Type}
    (URL_origin : string -> option string)
    (transport : Request -> World -> NetResult * World)
    (config : WebLinkConfig) (fuel : nat) (folderId : Z) (s : State World) :
  listingCalls
    (trace (snd (browseFolder URL_origin transport config fuel folderId s)))
  = (listingCalls (trace s) ++ [(folderId, 0, 100)])%list
  /\ (forall fc s',
        browseFolder URL_origin transport config fuel folderId s = (Ret fc, s') ->
        exists r,
          getFolderListing URL_origin transport config fuel folderId 0 100 s
          = (Ret r, s')
          /\ match unwrapEnvelope r with
             | Some p =>
                 List.length (entries fc) = List.length (orEmpty (p_results p))
                 /\ folderName fc = orString (p_name p) ""
             | None => fc = {| folderName := ""; entries := [] |}
             end).
Proof.
  split.
  - rewrite browseFolder_unfold.
    pose proof (getFolderListing_state URL_origin transport config fuel
                  folderId 0 100 s) as H.
    destruct (getFolderListing _ _ _ _ _ _ _ _) as [[r|e|] s1];
      try exact H.
    destruct (unwrapEnvelope r); exact H.
  - intros fc s'. rewrite browseFolder_unfold.
    destruct (getFolderListing _ _ _ _ _ _ _ _) as [[r|e|] s1];
      try discriminate.
    intros H. exists r.
    destruct (unwrapEnvelope r) as [p|]; injection H as <- <-;
      (split; [reflexivity|]).
    + split; [|reflexivity]. unfold pageEntries. simpl. apply length_map.
    + reflexivity.
Qed.

(** A folder of 5000 entries whose page holds 150 rows. *)
Lemma X1_browseFolder_one_window_witness :
  listingCalls
    (trace (snd (browseFolder arcadiaOrigin
                   (always (okJson (underData (largeFolder 150))))
                   ARCADIA_CONFIG 1 7 (Build_State [] tt []))))
  = [(7, 0, 100)]
  /\ exists r,
       fst (getFolderListing arcadiaOrigin
              (always (okJson (underData (largeFolder 150))))
              ARCADIA_CONFIG 1 7 0 100 (Build_State [] tt [])) = Ret r
       /\ unwrapEnvelope r = Some (largeFolder 150).
Proof.
  split.
  - exact (proj1 (X1_browseFolder_one_window arcadiaOrigin
                    (always (okJson (underData (largeFolder 150))))
                    ARCADIA_CONFIG 1 7 (Build_State [] tt []))).
  - edestruct (proj2 (X1_browseFolder_one_window arcadiaOrigin
                        (always (okJson (underData (largeFolder 150))))
                        ARCADIA_CONFIG 1 7 (Build_State [] tt [])))
      as (r & Hr & _); [vm_compute; reflexivity|].
    exists r. rewrite Hr. split; [reflexivity|].
    vm_compute in Hr. injection Hr as <-. reflexivity.
Defined.

Section Truncation.

Context {World : Type}.
Variable URL_origin : string -> option string.
Variable transport : Request -> World -> NetResult * World.
Variable config : WebLinkConfig.

(** The loop over pages that call for more, cut by a listing without data. *)
Lemma loop_pages_cut ps : forall iter fuel folderId acc nm start total
                                 (s s1 s2 : State World) r,
  servesPages URL_origin transport config fuel folderId start s ps s1 ->
  (forall k, (1 <= k <= List.length ps)%nat ->
             start + 500 * Z.of_nat k < total) ->
  getFolderListing URL_origin transport config fuel folderId
    (start + 500 * Z.of_nat (List.length ps))
    (start + 500 * Z.of_nat (List.length ps) + 500) s1 = (Ret r, s2) ->
  unwrapEnvelope r = None ->
  (List.length ps < iter)%nat ->
  getAllEntries_loop URL_origin transport config iter fuel folderId
                     acc nm start total false s
  = (Ret {| folderName := nm;
            entries := (acc ++ List.concat (map pageEntries ps))%list |}, s2).
Proof.
  induction ps as [|p ps IH];
    intros iter fuel folderId acc nm start total s s1 s2 r H Hlt Hcall Hr Hiter.
  - inversion H; subst. destruct iter as [|iter]; [simpl in Hiter; lia|].
    simpl List.length in Hcall.
    replace (start + 500 * Z.of_nat 0) with start in Hcall by lia.
    rewrite loop_S, Hcall, Hr. simpl. now rewrite app_nil_r.
  - inversion H as [|? ? r0 ? s0 ? ? Hc Hp Hrest]; subst.
    destruct iter as [|iter]; [simpl in Hiter; lia|].
    rewrite loop_S, Hc, Hp. cbv zeta.
    assert (Hk : start + 500 < total).
    { specialize (Hlt 1%nat). simpl List.length in Hlt. lia. }
    destruct (Z.ltb_spec (start + 500) total); [|lia].
    rewrite (IH iter fuel folderId (acc ++ pageEntries p)%list nm
                (start + 500) total s0 s1 s2 r).
    + simpl. now rewrite <- app_assoc.
    + exact Hrest.
    + intros k Hk'. specialize (Hlt (S k)). simpl List.length in Hlt. lia.
    + simpl List.length in Hcall.
      replace (start + 500 + 500 * Z.of_nat (List.length ps))
        with (start + 500 * Z.of_nat (S (List.length ps))) by lia.
      exact Hcall.
    + exact Hr.
    + simpl in Hiter. lia.
Qed.

Lemma loop_first_none iter fuel folderId (s s2 : State World) r :
  unwrapEnvelope r = None ->
  getFolderListing URL_origin transport config fuel folderId 0 500 s
  = (Ret r, s2) ->
  (1 <= iter)%nat ->
  getAllEntries_loop URL_origin transport config iter fuel folderId
                     [] "" 0 0 true s
  = (Ret {| folderName := ""; entries := [] |}, s2).
Proof.
  intros Hr Hcall Hiter. destruct iter as [|iter]; [lia|].
  rewrite loop_S. change (0 + 500) with 500. rewrite Hcall, Hr. reflexivity.
Qed.

Lemma loop_first_cut iter fuel folderId p0 ps (s s1 s2 : State World) r :
  unwrapEnvelope r = None ->
  servesPages URL_origin transport config fuel folderId 0 s (p0 :: ps) s1 ->
  (forall k, (1 <= k <= List.length (p0 :: ps))%nat ->
             500 * Z.of_nat k < orZero (p_totalEntries p0)) ->
  getFolderListing URL_origin transport config fuel folderId
    (500 * Z.of_nat (List.length (p0 :: ps)))
    (500 * Z.of_nat (List.length (p0 :: ps)) + 500) s1 = (Ret r, s2) ->
  (List.length (p0 :: ps) < iter)%nat ->
  getAllEntries_loop URL_origin transport config iter fuel folderId
                     [] "" 0 0 true s
  = (Ret {| folderName := orString (p_name p0) "";
            entries := List.concat (map pageEntries (p0 :: ps)) |}, s2).
Proof.
  intros Hr H Hlt Hcall Hiter.
  inversion H as [|? ? r0 ? s0 ? ? Hc Hp Hrest]; subst.
  destruct iter as [|iter]; [simpl in Hiter; lia|].
  rewrite loop_S, Hc, Hp. cbv zeta.
  assert (Hk : 0 + 500 < orZero (p_totalEntries p0)).
  { specialize (Hlt 1%nat). simpl List.length in Hlt. lia. }
  destruct (Z.ltb_spec (0 + 500) (orZero (p_totalEntries p0))); [|lia].
  change ([] ++ pageEntries p0)%list with (pageEntries p0).
  rewrite (loop_pages_cut ps iter fuel folderId
             (pageEntries p0) (orString (p_name p0) "") (0 + 500)
             (orZero (p_totalEntries p0)) s0 s1 s2 r).
  - reflexivity.
  - exact Hrest.
  - intros k Hk'. specialize (Hlt (S k)). simpl List.length in Hlt. lia.
  - simpl List.length in Hcall.
    replace (0 + 500 + 500 * Z.of_nat (List.length ps))
      with (500 * Z.of_nat (S (List.length ps))) by lia.
    exact Hcall.
  - exact Hr.
  - simpl in Hiter. lia.
Qed.

End Truncation.

(** X2. A listing call that yields no data ends [getAllEntries] without an
    error: when the first call does, the result is the empty name with no
    entries; when a later call does although the total calls for more pages,
    the result is the name of the first page with the entries of the pages
    received so far. *)
Theorem X2_getAllEntries_truncates {World : Type}
    (URL_origin : string -> option string)
    (transport : Request -> World -> NetResult * World)
    (config : WebLinkConfig) (fuel : nat) (folderId : Z)
    (s s2 : State World) (r : option ApiResponse) :
  unwrapEnvelope r = None ->
  (getFolderListing URL_origin transport config fuel folderId 0 500 s
   = (Ret r, s2) ->
   (1 <= fuel)%nat ->
   getAllEntries URL_origin transport config fuel folderId s
   = (Ret {| folderName := ""; entries := [] |}, s2))
  /\ (forall p0 ps s1,
        servesPages URL_origin transport config fuel folderId 0 s (p0 :: ps) s1 ->
        (forall k, (1 <= k <= List.length (p0 :: ps))%nat ->
                   500 * Z.of_nat k < orZero (p_totalEntries p0)) ->
        getFolderListing URL_origin transport config fuel folderId
          (500 * Z.of_nat (List.length (p0 :: ps)))
          (500 * Z.of_nat (List.length (p0 :: ps)) + 500) s1 = (Ret r, s2) ->
        (List.length (p0 :: ps) < fuel)%nat ->
        getAllEntries URL_origin transport config fuel folderId s
        = (Ret {| folderName := orString (p_name p0) "";
                  entries := List.concat (map pageEntries (p0 :: ps)) |}, s2)).
Proof.
  intros Hr. split.
  - intros Hcall Hfuel. unfold getAllEntries.
    apply (loop_first_none URL_origin transport config fuel fuel folderId
             s s2 r Hr Hcall Hfuel).
  - intros p0 ps s1 H Hlt Hcall Hfuel. unfold getAllEntries.
    apply (loop_first_cut URL_origin transport config fuel fuel folderId
             p0 ps s s1 s2 r Hr H Hlt Hcall Hfuel).
Qed.

(** A first page of 500 rows out of 1200, then a 404: 500 entries, no error. *)
Lemma X2_getAllEntries_truncates_witness :
  exists s2,
    getAllEntries arcadiaOrigin scripted ARCADIA_CONFIG 2 874714
                  (freshClient secondPageFails)
    = (Ret {| folderName := "Agendas";
              entries := pageEntries (pageOf (Some 1200) 500) |}, s2).
Proof.
  eexists.
  eapply eq_trans;
    [eapply (proj2 (X2_getAllEntries_truncates arcadiaOrigin scripted
                      ARCADIA_CONFIG 2 874714 (freshClient secondPageFails)
                      _ None eq_refl) (pageOf (Some 1200) 500) [])|].
  - eapply serves_page; [vm_compute; reflexivity|reflexivity|].
    apply serves_none.
  - intros k Hk. simpl in Hk. assert (k = 1%nat) as -> by lia.
    vm_compute. reflexivity.
  - vm_compute. reflexivity.
  - simpl. lia.
  - vm_compute. reflexivity.
Defined.

Section Termination.

Context {World : Type}.
Variable URL_origin : string -> option string.
Variable transport : Request -> World -> NetResult * World.
Variable config : WebLinkConfig.

Lemma listingsFinish_mono n m :
  (n <= m)%nat ->
  listingsFinish URL_origin transport config n ->
  listingsFinish URL_origin transport config m.
Proof.
  intros Hnm H folderId a b s. specialize (H folderId a b s).
  destruct (getFolderListing URL_origin transport config n folderId a b s)
    as [o s'] eqn:E.
  rewrite (getFolderListing_mono _ _ _ _ _ _ _ _ _ _ E H m Hnm). exact H.
Qed.

(** Past the first page the offset grows towards a fixed total. *)
Lemma loop_finishes fuel folderId :
  listingsFinish URL_origin transport config fuel ->
  forall iter acc nm start total (s : State World),
    (Z.to_nat (total - start) < iter)%nat ->
    fst (getAllEntries_loop URL_origin transport config iter fuel folderId
                            acc nm start total false s) <> OutOfFuel.
Proof.
  intros Hfin. induction iter as [|iter IH];
    intros acc nm start total s Hiter; [lia|].
  rewrite loop_S. specialize (Hfin folderId start (start + 500) s).
  destruct (getFolderListing _ _ _ _ _ _ _ _) as [[r|e|] s1];
    simpl in *; try discriminate; [|congruence].
  destruct (unwrapEnvelope r) as [p|]; [|discriminate].
  destruct (Z.ltb_spec (start + 500) total); [|discriminate].
  apply IH. lia.
Qed.

End Termination.

(** X3. Pagination comes to an end: over a backend whose redirect chains
    are bounded, so that every listing call finishes, and whose first page
    reports a total that is a safe integer, [getAllEntries] finishes as
    well, with a result or an exception, once it is given enough fuel. *)
Theorem X3_getAllEntries_finishes {World : Type}
    (URL_origin : string -> option string)
    (transport : Request -> World -> NetResult * World)
    (config : WebLinkConfig) (fuel : nat) (folderId : Z) (s : State World) :
  listingsFinish URL_origin transport config fuel ->
  (forall r s1 p,
      getFolderListing URL_origin transport config fuel folderId 0 500 s
      = (Ret r, s1) ->
      unwrapEnvelope r = Some p ->
      Js.isSafeInteger (orZero (p_totalEntries p)) = true) ->
  exists n, forall m, (n <= m)%nat ->
    fst (getAllEntries URL_origin transport config m folderId s) <> OutOfFuel.
Proof.
  intros Hfin _.
  destruct (getFolderListing URL_origin transport config fuel folderId
                             0 500 s) as [o s1] eqn:E.
  assert (Ho : o <> OutOfFuel).
  { specialize (Hfin folderId 0 500 s). rewrite E in Hfin. exact Hfin. }
  set (total := match o with
                | Ret r => match unwrapEnvelope r with
                           | Some p => orZero (p_totalEntries p)
                           | None => 0
                           end
                | _ => 0
                end).
  exists (Nat.max fuel (Z.to_nat total + 2)). intros m Hm.
  assert (Hfuel : (fuel <= m)%nat) by lia.
  unfold getAllEntries. destruct m as [|iter] eqn:Em; [lia|].
  rewrite <- Em at 2. rewrite loop_S.
  change (0 + 500) with 500.
  rewrite (getFolderListing_mono _ _ _ _ _ _ _ _ _ _ E Ho m) by lia.
  destruct o as [r|e|]; try discriminate; [|congruence].
  destruct (unwrapEnvelope r) as [p|]; [|discriminate].
  cbv zeta. destruct (Z.ltb_spec 500 (orZero (p_totalEntries p)));
    [|discriminate].
  apply loop_finishes.
  - apply (listingsFinish_mono _ _ _ fuel m); [lia|exact Hfin].
  - subst total. lia.
Qed.

(** A backend that answers every request with the same page of a folder of
    5000 entries: the run ends after the tenth call. *)
Lemma X3_getAllEntries_finishes_witness :
  exists n, forall m, (n <= m)%nat ->
    fst (getAllEntries arcadiaOrigin
           (always (okJson (underData (largeFolder 3)))) ARCADIA_CONFIG
           m 7 (Build_State [] tt [])) <> OutOfFuel.
Proof.
  apply (X3_getAllEntries_finishes arcadiaOrigin
           (always (okJson (underData (largeFolder 3)))) ARCADIA_CONFIG 1%nat).
  - intros folderId a b s.
    rewrite getFolderListing_unfold, fetch_S. simpl. discriminate.
  - intros r s1 p H Hp.
    rewrite getFolderListing_unfold, fetch_S in H. simpl in H.
    injection H as <- _. injection Hp as <-. reflexivity.
Defined.

(* ===================================================================== *)
(** ** Exceptions, URLs and the session *)
(* ===================================================================== *)

Lemma prefix_app p : forall a b,
  String.prefix p a = true -> String.prefix p (a ++ b) = true.
Proof.
  induction p as [|x p IH]; intros a b H.
  - destruct (a ++ b); reflexivity.
  - destruct a as [|y a]; [discriminate|].
    simpl in *. destruct (ascii_dec x y); [apply IH, H|discriminate].
Qed.

Section Reach.

Context {World : Type}.
Variable URL_origin : string -> option string.
Variable transport : Request -> World -> NetResult * World.
Variable config : WebLinkConfig.

Lemma resolveUrl_outcome url (s : State World) :
  fst (resolveUrl URL_origin config url s) <> OutOfFuel.
Proof.
  unfold resolveUrl.
  destruct (Js.startsWith url "http"); [discriminate|].
  destruct (Js.startsWith url "/"); [|discriminate].
  destruct (URL_origin (baseUrl config)); discriminate.
Qed.

Lemma fetch_rejected n url options (s : State World) :
  rejectsAll transport ->
  raises (fst (fetch URL_origin transport config (S n) url options s)).
Proof.
  intros Hrej. rewrite fetch_S.
  pose proof (resolveUrl_outcome url s) as Hu.
  destruct (fst (resolveUrl URL_origin config url s)) as [u|e|];
    [|exists e; reflexivity|contradiction].
  cbv zeta.
  specialize (Hrej (requestOf u (getCookieHeader (cookies s)) options) (world s)).
  destruct (transport _ (world s)) as [[r|] w]; [discriminate|].
  exists FetchFailed. reflexivity.
Qed.

Lemma getFolderListing_rejected n folderId a b (s : State World) :
  rejectsAll transport ->
  raises (fst (getFolderListing URL_origin transport config (S n)
                                folderId a b s)).
Proof.
  intros Hrej. rewrite getFolderListing_unfold.
  destruct (fetch_rejected n
              (baseUrl config ++ "/FolderListingService.aspx/GetFolderListing2")
              (listingOptions (repoName config) folderId a b)
              (Build_State (cookies s) (world s)
                           (trace s ++ [Listing folderId a b])) Hrej)
    as [e He].
  destruct (fetch _ _ _ _ _ _ _) as [o s']. simpl in He. subst o.
  exists e. reflexivity.
Qed.

End Reach.

(** X4. When the backend rejects every request, every operation of the
    client raises: a failed request is never turned into [null], [false] or
    an empty folder. *)
Theorem X4_unreachable_backend_raises {World : Type}
    (URL_origin : string -> option string)
    (transport : Request -> World -> NetResult * World)
    (config : WebLinkConfig) (n : nat) (s : State World) :
  rejectsAll transport ->
  (forall url options,
      raises (fst (fetch URL_origin transport config (S n) url options s)))
  /\ raises (fst (initSession URL_origin transport config (S n) s))
  /\ (forall folderId a b,
        raises (fst (getFolderListing URL_origin transport config (S n)
                                      folderId a b s)))
  /\ (forall folderId,
        raises (fst (getAllEntries URL_origin transport config (S n)
                                   folderId s)))
  /\ (forall folderId,
        raises (fst (browseFolder URL_origin transport config (S n)
                                  folderId s))).
Proof.
  intros Hrej.
  split; [intros url options; apply fetch_rejected, Hrej|].
  split.
  { unfold initSession, bind.
    destruct (fetch_rejected URL_origin transport config n
                (baseUrl config ++ "/") noOptions s Hrej) as [e He].
    destruct (fetch _ _ _ _ _ _ s) as [o s']. simpl in He. subst o.
    exists e. reflexivity. }
  split; [intros folderId a b; apply getFolderListing_rejected, Hrej|].
  split.
  - intros folderId. unfold getAllEntries. rewrite loop_S.
    destruct (getFolderListing_rejected URL_origin transport config n
                folderId 0 (0 + 500) s Hrej) as [e He].
    destruct (getFolderListing _ _ _ _ _ _ _ _) as [o s']. simpl in He.
    subst o. exists e. reflexivity.
  - intros folderId. rewrite browseFolder_unfold.
    destruct (getFolderListing_rejected URL_origin transport config n
                folderId 0 100 s Hrej) as [e He].
    destruct (getFolderListing _ _ _ _ _ _ _ _) as [o s']. simpl in He.
    subst o. exists e. reflexivity.
Qed.

(** No network: the listing raises, it does not return [null]. *)
Lemma X4_unreachable_backend_raises_witness :
  raises (fst (getAllEntries arcadiaOrigin unreachable ARCADIA_CONFIG 1 7
                 (Build_State [] tt [])))
  /\ fst (getFolderListing arcadiaOrigin unreachable ARCADIA_CONFIG 1 7 0 500
            (Build_State [] tt [])) = Throw FetchFailed.
Proof.
  split; [|reflexivity].
  assert (H : rejectsAll unreachable) by (intros req w; reflexivity).
  exact (proj1 (proj2 (proj2 (proj2
           (X4_unreachable_backend_raises arcadiaOrigin unreachable
              ARCADIA_CONFIG 0 (Build_State [] tt []) H)))) 7).
Defined.

(** X5. With a base URL that starts with "http", and an origin that does,
    every URL [resolveUrl] returns starts with "http" and is left unchanged
    when resolved again: the client only ever requests absolute URLs, and a
    URL it has resolved can be handed back to it. *)
Theorem X5_resolveUrl_absolute {World : Type}
    (URL_origin : string -> option string) (config : WebLinkConfig)
    (url u : string) (s : State World) :
  Js.startsWith (baseUrl config) "http" = true ->
  (forall origin, URL_origin (baseUrl config) = Some origin ->
                  Js.startsWith origin "http" = true) ->
  fst (resolveUrl URL_origin config url s) = Ret u ->
  Js.startsWith u "http" = true
  /\ resolveUrl URL_origin config u s = (Ret u, s).
Proof.
  intros Hbase Horigin H.
  assert (Hu : Js.startsWith u "http" = true).
  { unfold resolveUrl in H.
    destruct (Js.startsWith url "http") eqn:E1.
    - injection H as <-. exact E1.
    - destruct (Js.startsWith url "/").
      + destruct (URL_origin (baseUrl config)) as [origin|] eqn:Eo;
          [|discriminate].
        injection H as <-. apply prefix_app, Horigin, eq_refl.
      + injection H as <-. apply prefix_app, Hbase. }
  split; [exact Hu|]. unfold resolveUrl. rewrite Hu. reflexivity.
Qed.

(** A path under the origin of the Arcadia portal. *)
Lemma X5_resolveUrl_absolute_witness :
  resolveUrl arcadiaOrigin ARCADIA_CONFIG
             "https://laserfiche.arcadiaca.gov/Other.aspx" (freshClient [])
  = (Ret "https://laserfiche.arcadiaca.gov/Other.aspx", freshClient []).
Proof.
  apply (X5_resolveUrl_absolute arcadiaOrigin ARCADIA_CONFIG "/Other.aspx").
  - reflexivity.
  - intros origin H. vm_compute in H. injection H as <-. reflexivity.
  - reflexivity.
Defined.

Lemma occurs_app c a b : occurs c (a ++ b) <-> occurs c a \/ occurs c b.
Proof.
  induction a as [|x a IH]; simpl; [tauto|]. rewrite IH. tauto.
Qed.

(** X6. [initSession] answers [true] exactly when the jar holds a cookie
    once its two requests are done.  As no request removes a cookie, a
    client whose jar already holds one gets [true] whatever the backend
    answers: the result says nothing about the two responses themselves. *)
Theorem X6_initSession_heuristic {World : Type}
    (URL_origin : string -> option string)
    (transport : Request -> World -> NetResult * World)
    (config : WebLinkConfig) (fuel : nat) (s s' : State World) (b : bool) :
  initSession URL_origin transport config fuel s = (Ret b, s') ->
  (b = true <-> cookies s' <> [])
  /\ (cookies s <> [] -> b = true).
Proof.
  intros H.
  assert (Hkeep : keepsNames s s').
  { apply (initSession_rel URL_origin transport config keepsNames
             keepsNames_refl keepsNames_trans keepsNames_exchange
             keepsNames_net fuel s (Ret b) s' H). }
  unfold initSession, bind, gets in H.
  destruct (fetch _ _ _ _ _ _ s) as [[r1|e|] s1]; try discriminate.
  destruct (fetch _ _ _ _ _ _ s1) as [[r2|e|] s2]; try discriminate.
  injection H as <- <-.
  assert (Hb : (Z.of_nat (List.length (cookies s2)) >? 0) = true
               <-> cookies s2 <> []).
  { destruct (cookies s2); simpl; split; try congruence; try discriminate.
    intros _. reflexivity. }
  split; [exact Hb|].
  intros Hs. apply Hb. intros E.
  destruct (cookies s) as [|[k v] jar] eqn:Ec; [contradiction|].
  specialize (Hkeep k). unfold names in Hkeep. rewrite Ec, E in Hkeep.
  apply Hkeep. left. reflexivity.
Qed.

(** A jar that holds a cookie, and two responses that set none. *)
Lemma X6_initSession_heuristic_witness :
  fst (initSession arcadiaOrigin scripted ARCADIA_CONFIG 1
         (Build_State [("old", "1")] [notFound; notFound] [])) = Ret true.
Proof.
  destruct (initSession arcadiaOrigin scripted ARCADIA_CONFIG 1
              (Build_State [("old", "1")] [notFound; notFound] []))
    as [[b|e|] s'] eqn:E; try (vm_compute in E; discriminate E).
  simpl. f_equal.
  apply (X6_initSession_heuristic arcadiaOrigin scripted ARCADIA_CONFIG 1
           _ s' b E).
  discriminate.
Defined.

(** X7. With a base URL that starts with "http", the first request of a
    listing call is a POST to the listing service of that base URL, not to be
    redirected by the transport, with the fixed user agent, the Accept
    header application/json in place of the default, the Cookie header of
    the jar, the JSON content type and the AJAX marker, in this order, and a
    body that names the repository, the folder and the window. *)
Theorem X7_listing_request_shape {World : Type}
    (URL_origin : string -> option string)
    (transport : Request -> World -> NetResult * World)
    (config : WebLinkConfig) (n : nat) (folderId start finish : Z)
    (s : State World) :
  Js.startsWith (baseUrl config) "http" = true ->
  exists rest,
    trace (snd (getFolderListing URL_origin transport config (S n)
                                 folderId start finish s))
    = (trace s
       ++ Listing folderId start finish
          :: Sent (listingRequest config (getCookieHeader (cookies s))
                                  folderId start finish)
          :: rest)%list.
Proof.
  intros Hbase.
  assert (Hu : forall s0 : State World,
             resolveUrl URL_origin config (listingUrl config) s0
             = (Ret (listingUrl config), s0)).
  { intros s0. unfold resolveUrl, listingUrl.
    unfold Js.startsWith in *. rewrite (prefix_app _ _ _ Hbase). reflexivity. }
  rewrite getFolderListing_unfold.
  destruct (fetch_first_request URL_origin transport config n
              (listingUrl config)
              (listingOptions (repoName config) folderId start finish)
              (Build_State (cookies s) (world s)
                           (trace s ++ [Listing folderId start finish]))
              (listingUrl config) (Hu _)) as [rest Hrest].
  exists rest. unfold listingUrl in Hrest.
  destruct (fetch _ _ _ _ _ _ _) as [o s1]. simpl snd in Hrest.
  assert (Hs : trace s1
               = (trace s
                  ++ Listing folderId start finish
                     :: Sent (listingRequest config (getCookieHeader (cookies s))
                                             folderId start finish)
                        :: rest)%list).
  { rewrite Hrest. simpl. rewrite <- app_assoc. reflexivity. }
  destruct o as [r|e|]; try exact Hs.
  destruct (negb (ok r)); [exact Hs|]. destruct (body r); exact Hs.
Qed.

(** The first listing request of a session that holds the cookie [sid]. *)
Lemma X7_listing_request_shape_witness :
  exists rest,
    trace (snd (getFolderListing arcadiaOrigin scripted ARCADIA_CONFIG 1
                  874714 0 500 (Build_State [("sid", "abc")] [notFound] [])))
    = Listing 874714 0 500
      :: Sent (listingRequest ARCADIA_CONFIG "sid=abc" 874714 0 500) :: rest.
Proof.
  apply (X7_listing_request_shape arcadiaOrigin scripted ARCADIA_CONFIG 0
           874714 0 500 (Build_State [("sid", "abc")] [notFound] [])).
  reflexivity.
Defined.

(* ===================================================================== *)
(** ** Cookies, written and read back *)
(* ===================================================================== *)

Lemma Map_set_fresh {V : Type} k (v : V) m :
  ~ In k (map fst m) -> Js.Map_set k v m = (m ++ [(k, v)])%list.
Proof.
  induction m as [|[k' v'] m IH]; intros H; [reflexivity|].
  simpl in *. destruct (String.eqb_spec k' k) as [->|Hne]; [tauto|].
  rewrite IH by tauto. reflexivity.
Qed.

Lemma parseCookie_plain jar nv attrs :
  plainPair nv ->
  attrs = "" \/ (exists t, attrs = String ";" t) ->
  parseCookie jar (pairText nv ++ attrs) = Js.Map_set (fst nv) (snd nv) jar.
Proof.
  destruct nv as [n v]. unfold plainPair, pairText. simpl fst. simpl snd.
  intros (Hne & Htn & Htv & Heq & Hsn & Hsv) Hattrs.
  assert (Hno : ~ occurs ";" (n ++ "=" ++ v)).
  { rewrite !occurs_app. simpl. intuition discriminate. }
  assert (Hseg : Js.firstSegment ";" ((n ++ "=" ++ v) ++ attrs)
                 = n ++ String "=" v).
  { destruct Hattrs as [->|[t ->]].
    - replace ((n ++ "=" ++ v) ++ "") with (n ++ "=" ++ v).
      + apply (firstSegment_whole _ _ Hno).
      + clear. induction (n ++ "=" ++ v) as [|a r IH]; simpl;
          [reflexivity|now rewrite <- IH].
    - apply (firstSegment_cut _ _ _ Hno). }
  rewrite (parseCookie_stores jar _ n v Hseg Heq Hne), Htn, Htv. reflexivity.
Qed.

Lemma parseCookies_plain l : forall acc,
  Forall plainPair l -> NoDup (names (acc ++ l)%list) ->
  fold_left parseCookie (map pairText l) acc = (acc ++ l)%list.
Proof.
  induction l as [|[n v] l IH]; intros acc Hl Hnd.
  - simpl. now rewrite app_nil_r.
  - simpl. inversion Hl as [|? ? Hnv Hl']; subst.
    pose proof (parseCookie_plain acc (n, v) "" Hnv (or_introl eq_refl)) as E.
    replace (pairText (n, v) ++ "") with (pairText (n, v)) in E.
    + rewrite E. simpl fst. simpl snd.
      assert (Hfresh : ~ In n (map fst acc)).
      { unfold names in Hnd. rewrite map_app in Hnd. simpl in Hnd.
        apply NoDup_remove_2 in Hnd. intros Hin. apply Hnd.
        apply in_or_app. left. exact Hin. }
      rewrite (Map_set_fresh _ _ _ Hfresh), IH; [|exact Hl'|].
      * now rewrite <- app_assoc.
      * now rewrite <- app_assoc.
    + clear. induction (pairText (n, v)) as [|a r IH]; simpl;
        [reflexivity|now rewrite <- IH].
Qed.

(** X8. A name and a value without surrounding white space, ';' or, in the
    name, '=' are stored as they are from the Set-Cookie entry [name=value],
    with or without attributes after a ';'.  Hence a jar of such pairs with
    distinct names is rebuilt, in order, from the entries that spell out its
    pairs, and yields the same Cookie header. *)
Theorem X8_cookie_round_trip (jar : Jar) :
  (forall nv attrs,
      plainPair nv ->
      attrs = "" \/ (exists t, attrs = String ";" t) ->
      parseCookie jar (pairText nv ++ attrs)
      = Js.Map_set (fst nv) (snd nv) jar)
  /\ (Forall plainPair jar -> NoDup (names jar) ->
      parseCookies (withCookies (map pairText jar)) [] = jar
      /\ getCookieHeader
           (parseCookies (withCookies (map pairText jar)) [])
         = getCookieHeader jar).
Proof.
  split; [intros nv attrs; apply parseCookie_plain|].
  intros Hl Hnd.
  assert (E : parseCookies (withCookies (map pairText jar)) [] = jar).
  { unfold parseCookies. simpl setCookie.
    apply (parseCookies_plain jar [] Hl Hnd). }
  split; [exact E|now rewrite E].
Qed.

(** A session cookie with attributes, and a jar of two cookies. *)
Lemma X8_cookie_round_trip_witness :
  parseCookie [("lang", "en")] "sid=abc; Path=/; HttpOnly"
  = [("lang", "en"); ("sid", "abc")]
  /\ parseCookies (withCookies ["lang=en"; "sid=abc"]) []
     = [("lang", "en"); ("sid", "abc")].
Proof.
  assert (Hp : forall n v,
             (n, v) = ("lang", "en") \/ (n, v) = ("sid", "abc") ->
             plainPair (n, v)).
  { intros n v [[= -> ->]|[= -> ->]]; unfold plainPair; simpl;
      repeat split; try discriminate; intuition discriminate. }
  split.
  - apply (proj1 (X8_cookie_round_trip [("lang", "en")]) ("sid", "abc")
                 "; Path=/; HttpOnly").
    + apply Hp. right. reflexivity.
    + right. eexists. reflexivity.
  - apply (proj2 (X8_cookie_round_trip [("lang", "en"); ("sid", "abc")])).
    + constructor; [apply Hp; left; reflexivity|].
      constructor; [apply Hp; right; reflexivity|constructor].
    + constructor; [simpl; intuition discriminate|].
      constructor; [simpl; tauto|constructor].
Defined.

(* ===================================================================== *)
(** ** Selections typed at the prompt *)
(* ===================================================================== *)

Lemma Set_add_In x k set :
  In k (JsStd.Set_add x set) <-> k = x \/ In k set.
Proof.
  unfold JsStd.Set_add. destruct (existsb (Z.eqb x) set) eqn:E.
  - apply existsb_exists in E. destruct E as (y & Hy & Exy).
    apply Z.eqb_eq in Exy. subst y. split; [tauto|].
    intros [->|H]; assumption.
  - rewrite in_app_iff. simpl. intuition.
Qed.


Lemma addRange_In n : forall i hi max sel k,
  (Z.to_nat (hi - i + 1) <= n)%nat ->
  In k (addRange n i hi max sel)
  <-> In k sel \/ (i <= k <= hi /\ 1 <= k <= max).
Proof.
  induction n as [|n IH]; intros i hi max sel k Hn; simpl.
  - split; [tauto|]. intros [H|H]; [exact H|lia].
  - destruct (Z.leb_spec i hi) as [Hle|Hgt].
    + rewrite IH by lia.
      destruct (Z.geb_spec i 1) as [H1|H1];
        destruct (Z.leb_spec i max) as [H2|H2]; simpl;
        try rewrite Set_add_In; split; intros H; intuition lia.
    + split; [tauto|]. intros [H|H]; [exact H|lia].
Qed.


Lemma parsePart_In max sel part k :
  In k (parsePart max sel part)
  <-> In k sel \/ (1 <= k <= max /\ selects k part).
Proof.
  unfold parsePart, selects. destruct (JsStd.includes "-" part).
  - destruct (map _ (JsStd.split "-" part)) as [|[a|] [|[b|] rest]];
      try tauto.
    rewrite addRange_In by lia. tauto.
  - destruct (JsStd.parseInt part) as [num|]; [|split; [tauto|]].
    + destruct ((num >=? 1) && (num <=? max)) eqn:E.
      * apply andb_true_iff in E. destruct E as [E1 E2].
        apply Z.geb_le in E1. apply Z.leb_le in E2.
        rewrite Set_add_In. split.
        -- intros [->|H]; [right; split; [lia|reflexivity]|left; exact H].
        -- intros [H|[_ [= ->]]]; [right; exact H|left; reflexivity].
      * split; [tauto|]. intros [H|[Hk [= ->]]]; [exact H|]. exfalso.
        apply andb_false_iff in E. destruct E as [E|E].
        -- rewrite Z.geb_leb in E. apply Z.leb_gt in E. lia.
        -- apply Z.leb_gt in E. lia.
    + intros [H|[_ H]]; [exact H|discriminate].
Qed.


Lemma parseParts_In max parts : forall sel k,
  In k (fold_left (parsePart max) parts sel)
  <-> In k sel \/ (1 <= k <= max /\ Exists (selects k) parts).
Proof.
  induction parts as [|p parts IH]; intros sel k; simpl.
  - split; [tauto|]. intros [H|[_ H]]; [exact H|inversion H].
  - rewrite IH, parsePart_In, Exists_cons. tauto.
Qed.


Lemma insertAscending_In x l k :
  In k (JsStd.insertAscending x l) <-> k = x \/ In k l.
Proof.
  induction l as [|y r IH]; simpl; [intuition|].
  destruct (x <=? y); simpl; [intuition|]. rewrite IH. intuition.
Qed.

Lemma sortAscending_In l k : In k (JsStd.sortAscending l) <-> In k l.
Proof.
  induction l as [|x l IH]; simpl; [tauto|].
  rewrite insertAscending_In, IH. intuition.
Qed.






(** X10. For an input whose numbers all read as safe integers, a number is
    selected exactly when it lies between 1 and [max] and one of the
    comma-separated parts, trimmed, stands for it: a part without '-' that
    reads as that number, or a part with '-' whose first two pieces read as
    numbers between which it lies, in either order. *)
Theorem X10_parseSelection_membership (input : string) (max k : Z) :
  safeSelection input = true ->
  In k (parseSelection input max)
  <-> 1 <= k <= max
      /\ Exists (selects k) (map Js.trim (JsStd.split "," input)).
Proof.
  intros _. unfold parseSelection. rewrite sortAscending_In, parseParts_In.
  simpl. tauto.
Qed.

(** A selection between positions 2 and 5 holds 4. *)
Lemma X10_parseSelection_membership_witness :
  In 4 (parseSelection "9, 5 - 2" 10).
Proof.
  apply (proj2 (X10_parseSelection_membership "9, 5 - 2" 10 4 eq_refl)).
  split; [lia|]. simpl. right. left. unfold selects. simpl. lia.
Defined.

(* ===================================================================== *)
(** ** Numerals read back *)
(* ===================================================================== *)

Lemma digitsValue_acc ds : forall acc,
  fold_left (fun a v => a * 10 + v) ds acc
  = acc * 10 ^ Z.of_nat (List.length ds) + JsStd.digitsValue 10 ds.
Proof.
  unfold JsStd.digitsValue.
  induction ds as [|d ds IH]; intros acc; cbn [fold_left List.length].
  - rewrite Z.pow_0_r. lia.
  - rewrite (IH (acc * 10 + d)), (IH (0 * 10 + d)), Nat2Z.inj_succ,
      Z.pow_succ_r by lia.
    lia.
Qed.

Lemma of_uint_acc_digits d : forall acc,
  Z.pos (Pos.of_uint_acc d acc)
  = fold_left (fun a v => a * 10 + v) (uintDigits d) (Z.pos acc).
Proof.
  induction d; intros acc; cbn [Pos.of_uint_acc uintDigits fold_left];
    try reflexivity; rewrite IHd; f_equal; lia.
Qed.

Lemma of_uint_digits d :
  Z.of_uint d = JsStd.digitsValue 10 (uintDigits d).
Proof.
  unfold Z.of_uint, JsStd.digitsValue.
  induction d; cbn [Pos.of_uint uintDigits fold_left Z.of_N];
    try reflexivity; try exact IHd;
    rewrite of_uint_acc_digits; reflexivity.
Qed.

Lemma leadingDigits_uint d :
  JsStd.leadingDigits 10 (NilEmpty.string_of_uint d) = uintDigits d.
Proof. induction d; simpl; try reflexivity; now rewrite IHd. Qed.

Lemma numeral_uint d : numeral (NilEmpty.string_of_uint d).
Proof.
  induction d; simpl; try exact I; (split; [eexists; reflexivity|exact IHd]).
Qed.

(** What a decimal digit is not. *)
Lemma digit_plain a v :
  JsStd.radixDigit 10 a = Some v ->
  Js.isWhiteSpace a = false
  /\ Ascii.eqb a "-" = false /\ Ascii.eqb a "+" = false
  /\ Ascii.eqb a "x" = false /\ Ascii.eqb a "X" = false
  /\ Ascii.eqb a "," = false.
Proof.
  destruct a as [[|] [|] [|] [|] [|] [|] [|] [|]]; vm_compute;
    intros H; try discriminate H; repeat split.
Qed.

Lemma numeral_leadingDigits s :
  numeral s -> s <> "" -> JsStd.leadingDigits 10 s <> [].
Proof.
  destruct s as [|a r]; [contradiction|].
  intros [[v Hv] _] _. simpl. rewrite Hv. discriminate.
Qed.

(** [parseInt] on a string of decimal digits. *)
Lemma parseInt_numeral s :
  numeral s -> s <> "" ->
  JsStd.parseInt s = Some (JsStd.digitsValue 10 (JsStd.leadingDigits 10 s)).
Proof.
  intros Hs Hne. pose proof (numeral_leadingDigits s Hs Hne) as Hd.
  destruct s as [|a r]; [contradiction|].
  destruct Hs as [[v Hv] Hr].
  destruct (digit_plain a v Hv) as (Hw & Hm & Hp & _).
  unfold JsStd.parseInt. simpl Js.trimStart. rewrite Hw, Hm, Hp.
  cbn [snd fst].
  assert (Hpre : match String a r with
                 | String a0 (String b r0) =>
                     if Ascii.eqb a0 "0" && (Ascii.eqb b "x" || Ascii.eqb b "X")
                     then (16, r0) else (10, String a r)
                 | _ => (10, String a r)
                 end = (10, String a r)).
  { destruct r as [|b r0]; [reflexivity|].
    destruct Hr as [[w Hw'] _].
    destruct (digit_plain b w Hw') as (_ & _ & _ & Hx & HX & _).
    rewrite Hx, HX, andb_false_r. reflexivity. }
  rewrite Hpre. cbn [snd fst].
  destruct (JsStd.leadingDigits 10 (String a r)) as [|d ds]; [contradiction|].
  f_equal; lia.
Qed.

Lemma parseInt_negative s :
  numeral s -> s <> "" ->
  JsStd.parseInt (String "-" s)
  = Some (- JsStd.digitsValue 10 (JsStd.leadingDigits 10 s)).
Proof.
  intros Hs Hne. pose proof (numeral_leadingDigits s Hs Hne) as Hd.
  unfold JsStd.parseInt.
  change (Js.trimStart (String "-" s)) with (String "-" s).
  cbv beta iota zeta. change (Ascii.eqb "-" "-") with true.
  cbv beta iota. cbn [snd fst].
  assert (Hpre : match s with
                 | String a0 (String b r0) =>
                     if Ascii.eqb a0 "0" && (Ascii.eqb b "x" || Ascii.eqb b "X")
                     then (16, r0) else (10, s)
                 | _ => (10, s)
                 end = (10, s)).
  { destruct s as [|a [|b r0]]; try reflexivity.
    destruct Hs as [_ [[w Hw'] _]].
    destruct (digit_plain b w Hw') as (_ & _ & _ & Hx & HX & _).
    rewrite Hx, HX, andb_false_r. reflexivity. }
  rewrite Hpre. cbn [snd fst].
  destruct (JsStd.leadingDigits 10 s) as [|d ds]; [contradiction|].
  f_equal; lia.
Qed.

Lemma string_of_pos p :
  NilZero.string_of_uint (Pos.to_uint p)
  = NilEmpty.string_of_uint (Pos.to_uint p)
  /\ NilEmpty.string_of_uint (Pos.to_uint p) <> "".
Proof.
  pose proof (DecimalPos.Unsigned.to_uint_nonnil p) as H.
  destruct (Pos.to_uint p); try contradiction; split; try reflexivity;
    discriminate.
Qed.

Lemma of_uint_pos p : Z.of_uint (Pos.to_uint p) = Z.pos p.
Proof. exact (DecimalZ.of_to (Z.pos p)). Qed.

(** Reading back what [String(n)] prints. *)
Lemma parseInt_numberToString n :
  JsStd.parseInt (Js.numberToString n) = Some n.
Proof.
  unfold Js.numberToString. destruct n as [|p|p]; [reflexivity| |].
  - simpl NilZero.string_of_int.
    destruct (string_of_pos p) as [-> Hne].
    rewrite (parseInt_numeral _ (numeral_uint _) Hne), leadingDigits_uint,
      <- of_uint_digits, of_uint_pos. reflexivity.
  - simpl NilZero.string_of_int.
    destruct (string_of_pos p) as [-> Hne].
    rewrite (parseInt_negative _ (numeral_uint _) Hne), leadingDigits_uint,
      <- of_uint_digits, of_uint_pos. reflexivity.
Qed.

Lemma allChars_app p a b : allChars p (a ++ b) <-> allChars p a /\ allChars p b.
Proof. induction a as [|x a IH]; simpl; [tauto|]. rewrite IH. tauto. Qed.

Lemma allChars_weaken (p q : ascii -> bool) s :
  (forall a, p a = true -> q a = true) -> allChars p s -> allChars q s.
Proof.
  intros Hpq. induction s as [|a r IH]; simpl; [tauto|].
  intros [Ha Hr]. split; [apply Hpq, Ha|apply IH, Hr].
Qed.

Lemma numeral_allChars (p : ascii -> bool) s :
  (forall a v, JsStd.radixDigit 10 a = Some v -> p a = true) ->
  numeral s -> allChars p s.
Proof.
  intros Hp. induction s as [|a r IH]; simpl; [tauto|].
  intros [[v Hv] Hr]. split; [apply (Hp a v Hv)|apply IH, Hr].
Qed.

Lemma numeral_solid s : numeral s -> allChars solid s.
Proof.
  apply numeral_allChars. intros a v Hv.
  destruct (digit_plain a v Hv) as (Hw & _ & _ & _ & _ & Hc).
  unfold solid. now rewrite Hw, Hc.
Qed.

Lemma numeral_no_hyphen s :
  numeral s -> allChars (fun a => negb (Ascii.eqb a "-")) s.
Proof.
  apply numeral_allChars. intros a v Hv.
  destruct (digit_plain a v Hv) as (_ & Hm & _). now rewrite Hm.
Qed.

Lemma trimEnd_solid s :
  allChars (fun a => negb (Js.isWhiteSpace a)) s -> Js.trimEnd s = s.
Proof.
  induction s as [|a r IH]; [reflexivity|].
  intros [Ha Hr]. simpl. rewrite (IH Hr).
  apply negb_true_iff in Ha. destruct r; [now rewrite Ha|reflexivity].
Qed.

Lemma trim_solid s : allChars solid s -> Js.trim s = s.
Proof.
  intros H.
  assert (Hw : allChars (fun a => negb (Js.isWhiteSpace a)) s).
  { apply (allChars_weaken solid); [|exact H].
    unfold solid. intros a Ha. apply andb_true_iff in Ha. tauto. }
  unfold Js.trim. rewrite trimStart_fixed; [apply trimEnd_solid, Hw|].
  destruct s as [|a r]; [exact I|]. destruct Hw as [Ha _].
  now apply negb_true_iff in Ha.
Qed.

Lemma includes_none c s :
  allChars (fun a => negb (Ascii.eqb a c)) s -> JsStd.includes c s = false.
Proof.
  induction s as [|a r IH]; [reflexivity|].
  intros [Ha Hr]. simpl. apply negb_true_iff in Ha. now rewrite Ha, IH.
Qed.

Lemma split_none c s : JsStd.includes c s = false -> JsStd.split c s = [s].
Proof.
  induction s as [|a r IH]; [reflexivity|].
  simpl. intros H. apply orb_false_iff in H. destruct H as [Ha Hr].
  now rewrite Ha, (IH Hr).
Qed.

Lemma split_at c s1 s2 :
  JsStd.includes c s1 = false ->
  JsStd.split c (s1 ++ String c s2) = s1 :: JsStd.split c s2.
Proof.
  induction s1 as [|a r IH]; intros H.
  - simpl. now rewrite Ascii.eqb_refl.
  - simpl in *. apply orb_false_iff in H. destruct H as [Ha Hr].
    now rewrite Ha, (IH Hr).
Qed.

Lemma includes_at c s1 s2 : JsStd.includes c (s1 ++ String c s2) = true.
Proof.
  induction s1 as [|a r IH]; simpl.
  - now rewrite Ascii.eqb_refl.
  - rewrite IH. apply orb_true_r.
Qed.

Lemma solid_no_comma s : allChars solid s -> JsStd.includes "," s = false.
Proof.
  intros H. apply includes_none. apply (allChars_weaken solid); [|exact H].
  unfold solid. intros a Ha. apply andb_true_iff in Ha. tauto.
Qed.

(** The whole input is one part when it holds neither space nor comma. *)
Lemma parseSelection_one_part s max :
  allChars solid s ->
  parseSelection s max = JsStd.sortAscending (parsePart max [] s).
Proof.
  intros H. unfold parseSelection.
  rewrite (split_none _ _ (solid_no_comma s H)). simpl map.
  rewrite (trim_solid s H). reflexivity.
Qed.

(** What [String(n)] prints for a number that is not negative. *)
Lemma numberToString_numeral n :
  0 <= n ->
  numeral (Js.numberToString n) /\ Js.numberToString n <> "".
Proof.
  intros Hn. unfold Js.numberToString.
  destruct n as [|p|p];
    [split; [split; [eexists; reflexivity|exact I]|discriminate]| |lia].
  simpl NilZero.string_of_int. destruct (string_of_pos p) as [-> Hne].
  split; [apply numeral_uint|exact Hne].
Qed.

Lemma parseSelection_numeral k max :
  parseSelection (Js.numberToString k) max
  = if (1 <=? k) && (k <=? max) then [k] else [].
Proof.
  destruct (Z.lt_ge_cases k 0) as [Hneg|Hpos].
  - destruct k as [|p|p]; try lia. unfold Js.numberToString.
    simpl NilZero.string_of_int. destruct (string_of_pos p) as [-> Hne].
    pose proof (numeral_uint (Pos.to_uint p)) as Hnum.
    rewrite parseSelection_one_part
      by (split; [reflexivity|apply numeral_solid, Hnum]).
    unfold parsePart.
    change (JsStd.includes "-" (String "-" ?s)) with true.
    cbv beta iota.
    change (JsStd.split "-" (String "-" ?s))
      with (EmptyString :: JsStd.split "-" s).
    reflexivity.
  - destruct (numberToString_numeral k Hpos) as [Hnum Hne].
    rewrite parseSelection_one_part by (apply numeral_solid, Hnum).
    unfold parsePart.
    rewrite (includes_none _ _ (numeral_no_hyphen _ Hnum)),
      parseInt_numberToString.
    rewrite Z.geb_leb. destruct ((1 <=? k) && (k <=? max)); reflexivity.
Qed.

Lemma parseSelection_numeral_range a b k max :
  0 <= a -> 0 <= b ->
  In k (parseSelection
          (Js.numberToString a ++ "-" ++ Js.numberToString b) max)
  <-> within (Z.min a b) (Z.max a b) max k.
Proof.
  intros Ha Hb.
  destruct (numberToString_numeral a Ha) as [Hna Hnea].
  destruct (numberToString_numeral b Hb) as [Hnb Hneb].
  rewrite parseSelection_one_part.
  - rewrite sortAscending_In, parsePart_In. unfold selects, within.
    change (Js.numberToString a ++ "-" ++ Js.numberToString b)
      with (Js.numberToString a ++ String "-" (Js.numberToString b)).
    rewrite includes_at,
      (split_at _ _ _ (includes_none _ _ (numeral_no_hyphen _ Hna))),
      (split_none _ _ (includes_none _ _ (numeral_no_hyphen _ Hnb))).
    simpl map.
    rewrite !(trim_solid _ (numeral_solid _ Hna)),
      !(trim_solid _ (numeral_solid _ Hnb)), !parseInt_numberToString.
    simpl In. tauto.
  - apply allChars_app. split; [apply numeral_solid, Hna|].
    split; [reflexivity|apply numeral_solid, Hnb].
Qed.

(** X11. Typing the decimal form of a safe integer selects that number
    alone when it lies between 1 and [max], and nothing otherwise; typing
    two such forms, of numbers that are not negative, around a '-' selects,
    in either order of the two ends, exactly the numbers between them that
    lie between 1 and [max]. *)
Theorem X11_parseSelection_numerals (max : Z) :
  (forall k,
      Js.isSafeInteger k = true ->
      parseSelection (Js.numberToString k) max
      = if (1 <=? k) && (k <=? max) then [k] else [])
  /\ (forall a b k,
        Js.isSafeInteger a = true -> Js.isSafeInteger b = true ->
        0 <= a -> 0 <= b ->
        In k (parseSelection
                (Js.numberToString a ++ "-" ++ Js.numberToString b) max)
        <-> within (Z.min a b) (Z.max a b) max k).
Proof.
  split.
  - intros k _. apply parseSelection_numeral.
  - intros a b k _ _. apply parseSelection_numeral_range.
Qed.

(** The ranges 2-4 and 4-2 pick the same folders out of ten. *)
Lemma X11_parseSelection_numerals_witness :
  In 3 (parseSelection "4-2" 10) /\ parseSelection "12" 10 = [].
Proof.
  split.
  - apply (proj2 (X11_parseSelection_numerals 10) 4 2 3);
      [reflexivity|reflexivity|lia|lia|].
    unfold within. lia.
  - exact (proj1 (X11_parseSelection_numerals 10) 12 eq_refl).
Defined.

(* ===================================================================== *)
(** ** The interactive browser *)
(* ===================================================================== *)

Lemma optIndex_in_range {A : Type} (l : list A) k :
  1 <= k <= Z.of_nat (List.length l) ->
  exists x, Js.optIndex (Some l) (k - 1) = Some x
            /\ nth_error l (Z.to_nat (k - 1)) = Some x.
Proof.
  intros Hk. unfold Js.optIndex.
  destruct (Z.ltb_spec (k - 1) 0); [lia|].
  destruct (nth_error l (Z.to_nat (k - 1))) as [x|] eqn:E.
  - exists x. split; reflexivity.
  - apply nth_error_None in E. lia.
Qed.




(** What a decimal digit is at the prompt. *)
Lemma digit_console a v :
  JsStd.radixDigit 10 a = Some v ->
  JsStd.lowerChar a = a /\ isSelectionChar a = true /\ isFileChar a = true.
Proof.
  destruct a as [[|] [|] [|] [|] [|] [|] [|] [|]]; vm_compute;
    intros H; try discriminate H; repeat split.
Qed.

Lemma toLowerCase_numeral s : numeral s -> JsStd.toLowerCase s = s.
Proof.
  induction s as [|a r IH]; [reflexivity|].
  intros [[v Hv] Hr]. simpl.
  destruct (digit_console a v Hv) as (-> & _). now rewrite (IH Hr).
Qed.

Lemma allSelectionChars_numeral s : numeral s -> allSelectionChars s = true.
Proof.
  induction s as [|a r IH]; [reflexivity|].
  intros [[v Hv] Hr]. simpl.
  destruct (digit_console a v Hv) as (_ & -> & _). exact (IH Hr).
Qed.

(** A numeral is none of the one-letter commands. *)
Lemma numeral_not_command s :
  numeral s ->
  String.eqb s "q" = false /\ String.eqb s "b" = false
  /\ String.eqb s "f" = false /\ String.eqb s "a" = false
  /\ String.eqb s "c" = false.
Proof.
  intros Hs. repeat split; apply String.eqb_neq; intros ->;
    destruct Hs as [[v Hv] _]; discriminate Hv.
Qed.

Lemma Array_pop_push {A : Type} (xs : list A) x :
  Array_pop (xs ++ [x]) = Some (x, xs).
Proof.
  unfold Array_pop. rewrite rev_app_distr. simpl.
  now rewrite rev_involutive.
Qed.

Lemma handleCommand_open state folders k :
  1 <= k <= Z.of_nat (List.length folders) ->
  exists f,
    nth_error folders (Z.to_nat (k - 1)) = Some f
    /\ handleCommand state folders (Js.numberToString k)
       = Some (quietTurn (opened state f)).
Proof.
  intros Hk.
  destruct (numberToString_numeral k ltac:(lia)) as [Hnum Hne].
  destruct (optIndex_in_range folders k Hk) as (f & Hopt & Hnth).
  exists f. split; [exact Hnth|].
  destruct (numeral_not_command _ Hnum) as (Hq & Hb & Hf & Ha & Hc).
  unfold handleCommand.
  rewrite (toLowerCase_numeral _ Hnum), (trim_solid _ (numeral_solid _ Hnum)),
    Hq, Hb, Hf, Ha, Hc.
  unfold isSelectionInput.
  rewrite (proj2 (String.eqb_neq _ _) Hne), (allSelectionChars_numeral _ Hnum).
  cbn [negb andb].
  rewrite parseSelection_numeral.
  destruct (Z.leb_spec 1 k); [|lia].
  destruct (Z.leb_spec k (Z.of_nat (List.length folders))); [|lia].
  cbn [andb]. rewrite Hopt. reflexivity.
Qed.

Lemma handleCommand_back state f shown :
  handleCommand (opened state f) shown "b" = Some (quietTurn state).
Proof.
  unfold handleCommand.
  change (Js.trim (JsStd.toLowerCase "b")) with "b".
  change (String.eqb "b" "q") with false.
  change (String.eqb "b" "b") with true. cbv beta iota.
  unfold opened at 1. cbn [history]. rewrite Array_pop_push.
  destruct state. reflexivity.
Qed.

(** X13. Typing the number of a folder on display opens it: the folder
    becomes the current one, its name is appended to the path, the place
    left is pushed on the history and the selection is kept.  Typing [b]
    next restores the state as it was before, whatever is on display then;
    with an empty history [b] changes nothing. *)
Theorem X13_open_then_back (state : BrowseState) (folders : list FolderEntry)
    (k : Z) :
  1 <= k <= Z.of_nat (List.length folders) ->
  (exists f,
     nth_error folders (Z.to_nat (k - 1)) = Some f
     /\ handleCommand state folders (Js.numberToString k)
        = Some (quietTurn (opened state f))
     /\ forall shown,
          handleCommand (opened state f) shown "b" = Some (quietTurn state))
  /\ (history state = [] ->
      forall shown, handleCommand state shown "b" = Some (quietTurn state)).
Proof.
  intros Hk. split.
  - destruct (handleCommand_open state folders k Hk) as (f & Hnth & Hopen).
    exists f. split; [exact Hnth|]. split; [exact Hopen|].
    intros shown. apply handleCommand_back.
  - intros Hh shown. unfold handleCommand.
    change (Js.trim (JsStd.toLowerCase "b")) with "b".
    change (String.eqb "b" "q") with false.
    change (String.eqb "b" "b") with true. cbv beta iota.
    rewrite Hh. reflexivity.
Qed.

(** Into the second of three folders and back to the root. *)
Lemma X13_open_then_back_witness :
  handleCommand atRoot threeFolders "2"
  = Some (quietTurn (opened atRoot (folderEntry 12 "Planning (2024)")))
  /\ handleCommand (opened atRoot (folderEntry 12 "Planning (2024)")) [] "b"
     = Some (quietTurn atRoot).
Proof.
  destruct (proj1 (X13_open_then_back atRoot threeFolders 2
                     ltac:(simpl; lia))) as (f & Hnth & Hopen & Hback).
  injection Hnth as <-. split; [exact Hopen|apply Hback].
Defined.

Lemma NumMap_has_In {V : Type} k (m : list (Z * V)) :
  NumMap_has k m = true <-> In k (map fst m).
Proof.
  unfold NumMap_has. rewrite existsb_exists, in_map_iff. split.
  - intros (kv & Hin & E). apply Z.eqb_eq in E. exists kv. tauto.
  - intros (kv & E & Hin). exists kv. split; [exact Hin|].
    apply Z.eqb_eq, E.
Qed.

Lemma NumMap_set_new {V : Type} k (v : V) m :
  ~ In k (map fst m) -> NumMap_set k v m = (m ++ [(k, v)])%list.
Proof.
  induction m as [|[k' v'] m IH]; intros H; [reflexivity|].
  simpl in *. destruct (Z.eqb_spec k' k) as [->|Hne]; [tauto|].
  rewrite IH by tauto. reflexivity.
Qed.

Lemma NumMap_set_keys {V : Type} k (v : V) m :
  In k (map fst m) -> map fst (NumMap_set k v m) = map fst m.
Proof.
  induction m as [|[k' v'] m IH]; intros H; [destruct H|].
  simpl in *. destruct (Z.eqb_spec k' k) as [->|Hne]; [reflexivity|].
  simpl. f_equal. apply IH. destruct H; [congruence|assumption].
Qed.

Lemma NumMap_set_entries {V : Type} k (v : V) m kv :
  In kv (NumMap_set k v m) -> kv = (k, v) \/ In kv m.
Proof.
  induction m as [|[k' v'] m IH]; simpl.
  - intros [H|[]]. left. now symmetry.
  - destruct (Z.eqb_spec k' k) as [->|Hne]; simpl.
    + intros [H|H]; [left; now symmetry|right; right; exact H].
    + intros [H|H]; [right; left; exact H|].
      destruct (IH H) as [?|?]; [left|right; right]; assumption.
Qed.

Lemma NumMap_set_wellKeyed k f m :
  id f = k -> wellKeyed m -> wellKeyed (NumMap_set k f m).
Proof.
  intros Hid [Hnd Hids]. split.
  - destruct (in_dec Z.eq_dec k (map fst m)) as [Hin|Hout].
    + now rewrite (NumMap_set_keys k f m Hin).
    + rewrite (NumMap_set_new k f m Hout), map_app. simpl.
      apply NoDup_app_remove_l with (l := []). simpl.
      clear Hids. induction Hnd as [|x l Hx Hl IH]; simpl.
      * constructor; [tauto|constructor].
      * simpl in Hout. constructor.
        -- rewrite in_app_iff. simpl. intuition.
        -- apply IH. tauto.
  - apply Forall_forall. intros kv Hin.
    destruct (NumMap_set_entries _ _ _ _ Hin) as [->|Hold];
      [exact Hid|exact (proj1 (Forall_forall _ _) Hids kv Hold)].
Qed.

Lemma NumMap_set_key_In {V : Type} k (v : V) m x :
  In x (map fst (NumMap_set k v m)) <-> x = k \/ In x (map fst m).
Proof.
  destruct (in_dec Z.eq_dec k (map fst m)) as [Hin|Hout].
  - rewrite (NumMap_set_keys k v m Hin). split; [tauto|].
    intros [->|H]; assumption.
  - rewrite (NumMap_set_new k v m Hout), map_app, in_app_iff. simpl.
    intuition.
Qed.

Lemma selectAll_keys folders : forall selected,
  wellKeyed selected ->
  wellKeyed (fold_left (fun sel f => NumMap_set (id f) f sel) folders selected)
  /\ forall k,
       In k (map fst (fold_left (fun sel f => NumMap_set (id f) f sel)
                                folders selected))
       <-> In k (map fst selected) \/ In k (map id folders).
Proof.
  induction folders as [|f folders IH]; intros selected Hw; simpl.
  - split; [exact Hw|]. intros k. tauto.
  - destruct (IH (NumMap_set (id f) f selected)
                 (NumMap_set_wellKeyed _ _ _ eq_refl Hw)) as [Hw' Hk].
    split; [exact Hw'|]. intros k. rewrite Hk, NumMap_set_key_In.
    intuition.
Qed.

Lemma addSelections_wellKeyed folders selections :
  forall selected selected',
    addSelections folders selections selected = Some selected' ->
    wellKeyed selected ->
    wellKeyed selected'
    /\ forall kv, In kv selected -> In kv selected'.
Proof.
  induction selections as [|k ks IH]; intros selected selected' H Hw;
    cbn [addSelections] in H.
  - injection H as <-. split; [exact Hw|tauto].
  - destruct (Js.optIndex (Some folders) (k - 1)) as [f|]; [|discriminate].
    destruct (NumMap_has (id f) selected) eqn:Eh; cbn [negb] in H.
    + apply (IH _ _ H Hw).
    + destruct (IH _ _ H (NumMap_set_wellKeyed _ _ _ eq_refl Hw))
        as [Hw' Hkeep].
      split; [exact Hw'|]. intros kv Hin. apply Hkeep.
      rewrite NumMap_set_new.
      * apply in_or_app. left. exact Hin.
      * intros Hk. apply NumMap_has_In in Hk. congruence.
Qed.

Lemma selectionChar_lower a : isSelectionChar a = true -> JsStd.lowerChar a = a.
Proof.
  destruct a as [[|] [|] [|] [|] [|] [|] [|] [|]]; vm_compute;
    intros H; try discriminate H; reflexivity.
Qed.

Lemma toLowerCase_selection s :
  allSelectionChars s = true -> JsStd.toLowerCase s = s.
Proof.
  induction s as [|a r IH]; [reflexivity|].
  simpl. intros H. apply andb_true_iff in H. destruct H as [Ha Hr].
  now rewrite (selectionChar_lower a Ha), (IH Hr).
Qed.

Lemma trimStart_selection s :
  allSelectionChars s = true -> allSelectionChars (Js.trimStart s) = true.
Proof.
  induction s as [|a r IH]; [reflexivity|].
  intros H. simpl. destruct (Js.isWhiteSpace a); [|exact H].
  simpl in H. apply andb_true_iff in H. apply IH, H.
Qed.

Lemma trimEnd_head s :
  match Js.trimEnd s, s with
  | String a _, String b _ => a = b
  | String _ _, EmptyString => False
  | EmptyString, _ => True
  end.
Proof.
  destruct s as [|b r]; [exact I|]. simpl.
  destruct (Js.trimEnd r); [destruct (Js.isWhiteSpace b)|]; reflexivity.
Qed.

(** A line of digits, commas, hyphens and spaces is no one-letter command. *)
Lemma selection_not_command input c :
  isSelectionInput input = true -> isSelectionChar c = false ->
  String.eqb (Js.trim (JsStd.toLowerCase input)) (String c "") = false.
Proof.
  intros Hsel Hc. unfold isSelectionInput in Hsel.
  apply andb_true_iff in Hsel. destruct Hsel as [_ Hall].
  rewrite (toLowerCase_selection _ Hall). apply String.eqb_neq. intros E.
  unfold Js.trim in E. pose proof (trimStart_selection _ Hall) as Ht.
  pose proof (trimEnd_head (Js.trimStart input)) as Hh. rewrite E in Hh.
  destruct (Js.trimStart input) as [|b r]; [exact Hh|]. subst b.
  simpl in Ht. rewrite Hc in Ht. discriminate.
Qed.

(** X14. The selection always binds distinct folder ids, each to an entry
    of that very id: every turn keeps it so.  Adding folders by a multiple
    selection keeps every folder already selected, and [a] replaces the
    selection by the folders on display, unless none is on display, in which
    case the selection stays as it was. *)
Theorem X14_selection_well_keyed (state : BrowseState)
    (folders : list FolderEntry) :
  (forall input turn,
      handleCommand state folders input = Some turn ->
      wellKeyed (selectedFolders state) ->
      wellKeyed (selectedFolders (after turn)))
  /\ (forall input turn,
        handleCommand state folders input = Some turn ->
        isSelectionInput input = true ->
        wellKeyed (selectedFolders state) ->
        forall kv, In kv (selectedFolders state) ->
                   In kv (selectedFolders (after turn)))
  /\ (folders <> [] ->
      exists selected,
        handleCommand state folders "a"
        = Some (quietTurn (withSelection state selected))
        /\ wellKeyed selected
        /\ forall k, In k (map fst selected) <-> In k (map id folders))
  /\ handleCommand state [] "a" = Some (quietTurn state).
Proof.
  split; [|split; [|split; [|reflexivity]]].
  - intros input turn H Hw. unfold handleCommand in H.
    destruct (String.eqb _ "q"); [injection H as <-; exact Hw|].
    destruct (String.eqb _ "b").
    { destruct (Array_pop (history state)) as [[prev rest]|];
        injection H as <-; exact Hw. }
    destruct (String.eqb _ "f").
    { destruct (Z.of_nat (List.length (selectedFolders state)) >? 0);
        injection H as <-; [split; constructor|exact Hw]. }
    destruct (String.eqb _ "a").
    { destruct (Z.of_nat (List.length folders) >? 0); injection H as <-;
        [|exact Hw].
      apply (selectAll_keys folders []). split; constructor. }
    destruct (String.eqb _ "c"); [injection H as <-; split; constructor|].
    destruct (isSelectionInput input); [|injection H as <-; exact Hw].
    destruct (parseSelection input (Z.of_nat (List.length folders)))
      as [|k [|k' ks]]; [injection H as <-; exact Hw| |].
    + destruct (Js.optIndex (Some folders) (k - 1)); [|discriminate].
      injection H as <-. exact Hw.
    + destruct (addSelections folders (k :: k' :: ks) (selectedFolders state))
        as [sel|] eqn:E; [|discriminate].
      injection H as <-. apply (addSelections_wellKeyed _ _ _ _ E Hw).
  - intros input turn H Hsel Hw kv Hin. unfold handleCommand in H.
    rewrite !(selection_not_command input _ Hsel) in H by reflexivity.
    rewrite Hsel in H.
    destruct (parseSelection input (Z.of_nat (List.length folders)))
      as [|k [|k' ks]]; [injection H as <-; exact Hin| |].
    + destruct (Js.optIndex (Some folders) (k - 1)); [|discriminate].
      injection H as <-. exact Hin.
    + destruct (addSelections folders (k :: k' :: ks) (selectedFolders state))
        as [sel|] eqn:E; [|discriminate].
      injection H as <-.
      apply (proj2 (addSelections_wellKeyed _ _ _ _ E Hw)), Hin.
  - intros Hne.
    exists (fold_left (fun sel f => NumMap_set (id f) f sel) folders []).
    destruct (selectAll_keys folders [] (conj (NoDup_nil _) (Forall_nil _)))
      as [Hw Hk].
    split; [|split; [exact Hw|]].
    + unfold handleCommand.
      change (Js.trim (JsStd.toLowerCase "a")) with "a".
      change (String.eqb "a" "q") with false.
      change (String.eqb "a" "b") with false.
      change (String.eqb "a" "f") with false.
      change (String.eqb "a" "a") with true. cbv beta iota.
      destruct folders as [|f fs]; [contradiction|]. reflexivity.
    + intros k. rewrite Hk. simpl. tauto.
Qed.

(** Two folders picked, then a third one added: the first two stay. *)
Lemma X14_selection_well_keyed_witness :
  exists turn,
    handleCommand
      (withSelection atRoot [(11, folderEntry 11 "City Council")])
      threeFolders "2-3" = Some turn
    /\ wellKeyed (selectedFolders (after turn))
    /\ In (11, folderEntry 11 "City Council") (selectedFolders (after turn)).
Proof.
  eexists. split; [vm_compute; reflexivity|].
  assert (Hw : wellKeyed [(11, folderEntry 11 "City Council")]).
  { split; [constructor; [simpl; tauto|constructor]|].
    constructor; [reflexivity|constructor]. }
  split.
  - apply (proj1 (X14_selection_well_keyed
                    (withSelection atRoot [(11, folderEntry 11 "City Council")])
                    threeFolders) "2-3"); [vm_compute; reflexivity|exact Hw].
  - apply (proj1 (proj2 (X14_selection_well_keyed
                    (withSelection atRoot [(11, folderEntry 11 "City Council")])
                    threeFolders)) "2-3");
      [vm_compute; reflexivity|reflexivity|exact Hw|].
    left. reflexivity.
Defined.

Lemma sanitized_char a :
  isFileChar (JsStd.lowerChar (if isAlphanumeric a then a else "-"%char))
  = true.
Proof.
  destruct a as [[|] [|] [|] [|] [|] [|] [|] [|]]; vm_compute; reflexivity.
Qed.

Lemma sanitizedName_chars name : allChars isFileChar (sanitizedName name).
Proof.
  unfold sanitizedName. induction name as [|a r IH]; [exact I|].
  split; [apply sanitized_char|exact IH].
Qed.

Lemma sanitizedName_length name :
  String.length (sanitizedName name) = String.length name.
Proof.
  unfold sanitizedName. induction name as [|a r IH]; [reflexivity|].
  simpl. now rewrite IH.
Qed.

Lemma numberToString_chars n : allChars isFileChar (Js.numberToString n).
Proof.
  assert (Hd : forall s, numeral s -> allChars isFileChar s).
  { intros s. apply numeral_allChars. intros a v Hv.
    destruct (digit_console a v Hv) as (_ & _ & H). exact H. }
  unfold Js.numberToString. destruct n as [|p|p].
  - split; [reflexivity|exact I].
  - simpl NilZero.string_of_int. destruct (string_of_pos p) as [-> _].
    apply Hd, numeral_uint.
  - simpl NilZero.string_of_int. destruct (string_of_pos p) as [-> _].
    split; [reflexivity|apply Hd, numeral_uint].
Qed.

Lemma append_assoc (a b c : string) : (a ++ b) ++ c = a ++ (b ++ c).
Proof. induction a as [|x a IH]; simpl; [reflexivity|now rewrite IH]. Qed.

(** The text after the last separator. *)
Lemma split_last c x tail :
  JsStd.includes c tail = false ->
  exists segs, segs <> []
               /\ JsStd.split c (x ++ String c tail) = (segs ++ [tail])%list.
Proof.
  intros Ht. induction x as [|a r IH].
  - exists [EmptyString]. split; [discriminate|].
    simpl. now rewrite Ascii.eqb_refl, (split_none _ _ Ht).
  - destruct IH as (segs & Hne & E). simpl. rewrite E.
    destruct (Ascii.eqb a c).
    + exists (EmptyString :: segs). split; [discriminate|reflexivity].
    + destruct segs as [|seg rest]; [contradiction|].
      exists (String a seg :: rest). split; [discriminate|reflexivity].
Qed.

Lemma last_segment_inj c x1 x2 t1 t2 :
  JsStd.includes c t1 = false -> JsStd.includes c t2 = false ->
  x1 ++ String c t1 = x2 ++ String c t2 -> t1 = t2.
Proof.
  intros H1 H2 E.
  destruct (split_last c x1 t1 H1) as (s1 & _ & E1).
  destruct (split_last c x2 t2 H2) as (s2 & _ & E2).
  rewrite E, E2 in E1. apply app_inj_tail in E1. symmetry. apply E1.
Qed.

(** X15. The name under which a selected folder is saved keeps the length
    of the folder name and holds only lower-case letters, digits and
    hyphens; for an id that is a safe integer the file name built from it
    holds, besides, only the dot of its extension, hence no path separator,
    whatever the folder is called.  Folders with different such ids that
    are not negative get different files. *)
Theorem X15_selection_filename (folder : FolderEntry) (n : Z) :
  Js.isSafeInteger n = true ->
  String.length (sanitizedName (name folder)) = String.length (name folder)
  /\ allChars isFileChar (sanitizedName (name folder))
  /\ allChars isFileNameChar (selectionFilename folder n)
  /\ JsStd.includes "/" (selectionFilename folder n) = false
  /\ (forall folder' n',
        Js.isSafeInteger n' = true ->
        0 <= n -> 0 <= n' ->
        selectionFilename folder n = selectionFilename folder' n' -> n = n').
Proof.
  intros _.
  assert (Hw : forall s, allChars isFileChar s -> allChars isFileNameChar s).
  { intros s. apply allChars_weaken. intros a Ha. unfold isFileNameChar.
    now rewrite Ha. }
  assert (Hall : allChars isFileNameChar (selectionFilename folder n)).
  { unfold selectionFilename. rewrite !allChars_app.
    split; [repeat split|]. split; [apply Hw, sanitizedName_chars|].
    split; [repeat split|]. split; [apply Hw, numberToString_chars|].
    repeat split. }
  split; [apply sanitizedName_length|].
  split; [apply sanitizedName_chars|].
  split; [exact Hall|]. split.
  - apply includes_none. apply (allChars_weaken isFileNameChar); [|exact Hall].
    intros a. destruct a as [[|] [|] [|] [|] [|] [|] [|] [|]]; vm_compute;
      intros H; try discriminate H; reflexivity.
  - intros folder' n' _ Hn Hn' E. unfold selectionFilename in E.
    rewrite <- !append_assoc in E. apply append_right_cancel in E.
    rewrite !append_assoc in E.
    destruct (numberToString_numeral n Hn) as [Hnum _].
    destruct (numberToString_numeral n' Hn') as [Hnum' _].
    apply numberToString_inj.
    apply (last_segment_inj "-"
             ("arcadia-" ++ sanitizedName (name folder))
             ("arcadia-" ++ sanitizedName (name folder'))).
    + apply includes_none, numeral_no_hyphen, Hnum.
    + apply includes_none, numeral_no_hyphen, Hnum'.
    + rewrite !append_assoc. exact E.
Qed.

(** A folder name with a path in it, and two folders of the same name. *)
Lemma X15_selection_filename_witness :
  selectionFilename (folderEntry 12 "../etc/Planning (2024)") 12
  = "arcadia----etc-planning--2024--12.json"
  /\ (selectionFilename (folderEntry 12 "Budget") 12
      = selectionFilename (folderEntry 13 "Budget") 13 -> 12 = 13).
Proof.
  split; [reflexivity|].
  apply (proj2 (proj2 (proj2 (proj2
           (X15_selection_filename (folderEntry 12 "Budget") 12 eq_refl))))
           (folderEntry 13 "Budget") 13); [reflexivity|lia|lia].
Defined.

(* ===================================================================== *)
(** ** The saved document and the entry points *)
(* ===================================================================== *)

Lemma partition_permutation {A : Type} (p : A -> bool) (l : list A) :
  Permutation (filter p l ++ filter (fun x => negb (p x)) l) l.
Proof.
  induction l as [|x l IH]; simpl; [constructor|].
  destruct (p x); simpl.
  - constructor. exact IH.
  - apply Permutation_sym, Permutation_cons_app, Permutation_sym, IH.
Qed.

Lemma partition_length {A : Type} (p : A -> bool) (l : list A) :
  (List.length (filter p l) + List.length (filter (fun x => negb (p x)) l)
   = List.length l)%nat.
Proof.
  rewrite <- length_app. apply Permutation_length, partition_permutation.
Qed.

(** X16. For a folder id and entry ids that are safe integers, the document
    [fetchCommand] builds from the contents it fetched accounts for every
    entry exactly once: its folders, the entries of type "Folder", and its
    documents, all the others, are together a rearrangement of the entries,
    and [totalEntries] is the sum of their counts.  Each folder carries the
    Browse URL of its own id and each document the DocView URL of its own
    id.  From the same contents, the legacy script builds the same document
    as [fetchCommand] does for the Arcadia configuration. *)
Theorem X16_saved_output_partition (config : WebLinkConfig) (folderId : Z)
    (contents : FolderContents) (fetchedAt : string) :
  Js.isSafeInteger folderId = true ->
  Forall (fun e => Js.isSafeInteger (id e) = true) (entries contents) ->
  Permutation
    (map fst (out_folders (fetchOutput config folderId contents fetchedAt))
     ++ map fst (out_documents (fetchOutput config folderId contents fetchedAt)))
    (entries contents)
  /\ out_totalEntries (fetchOutput config folderId contents fetchedAt)
     = Z.of_nat (List.length
                   (out_folders (fetchOutput config folderId contents fetchedAt)))
       + Z.of_nat (List.length
                     (out_documents
                        (fetchOutput config folderId contents fetchedAt)))
  /\ Forall (fun eu => type (fst eu) = "Folder"
                       /\ snd eu = browseUrl config (id (fst eu)))
            (out_folders (fetchOutput config folderId contents fetchedAt))
  /\ Forall (fun eu => type (fst eu) <> "Folder"
                       /\ snd eu = docViewUrl config (id (fst eu)))
            (out_documents (fetchOutput config folderId contents fetchedAt))
  /\ legacyOutput folderId contents fetchedAt
     = fetchOutput ARCADIA_CONFIG folderId contents fetchedAt.
Proof.
  intros _ _.
  unfold fetchOutput. cbn [out_folders out_documents out_totalEntries].
  rewrite !map_map. cbn [fst]. rewrite !map_id, !length_map.
  split; [apply partition_permutation|].
  split.
  { unfold foldersOf, documentsOf.
    rewrite <- (partition_length (fun e => String.eqb (type e) "Folder")
                                 (entries contents)). lia. }
  split.
  { apply Forall_forall. intros eu Hin. apply in_map_iff in Hin.
    destruct Hin as (e & <- & He). apply filter_In in He.
    split; [apply String.eqb_eq, He|reflexivity]. }
  split.
  { apply Forall_forall. intros eu Hin. apply in_map_iff in Hin.
    destruct Hin as (e & <- & He). apply filter_In in He.
    destruct He as [_ He]. apply negb_true_iff in He.
    split; [apply String.eqb_neq, He|reflexivity]. }
  reflexivity.
Qed.

(** Two folders and two documents, fetched in mixed order. *)
Lemma X16_saved_output_partition_witness :
  map snd (out_folders (fetchOutput ARCADIA_CONFIG 7 mixedContents "now"))
  = [browseUrl ARCADIA_CONFIG 11; browseUrl ARCADIA_CONFIG 12]
  /\ out_totalEntries (fetchOutput ARCADIA_CONFIG 7 mixedContents "now") = 4
  /\ legacyOutput 7 mixedContents "now"
     = fetchOutput ARCADIA_CONFIG 7 mixedContents "now".
Proof.
  destruct (X16_saved_output_partition ARCADIA_CONFIG 7 mixedContents "now")
    as (_ & Htotal & _ & _ & Hlegacy).
  - reflexivity.
  - repeat constructor.
  - split; [reflexivity|]. split; [|exact Hlegacy].
    rewrite Htotal. reflexivity.
Defined.

Lemma lowerChar_idem a : JsStd.lowerChar (JsStd.lowerChar a) = JsStd.lowerChar a.
Proof.
  destruct a as [[|] [|] [|] [|] [|] [|] [|] [|]]; vm_compute; reflexivity.
Qed.

Lemma toLowerCase_idem s :
  JsStd.toLowerCase (JsStd.toLowerCase s) = JsStd.toLowerCase s.
Proof.
  induction s as [|a r IH]; [reflexivity|].
  simpl. now rewrite lowerChar_idem, IH.
Qed.

Lemma fileChar_lower a : isFileChar a = true -> JsStd.lowerChar a = a.
Proof.
  destruct a as [[|] [|] [|] [|] [|] [|] [|] [|]]; vm_compute;
    intros H; try discriminate H; reflexivity.
Qed.

Lemma toLowerCase_numberToString n :
  JsStd.toLowerCase (Js.numberToString n) = Js.numberToString n.
Proof.
  pose proof (numberToString_chars n) as H.
  induction (Js.numberToString n) as [|a r IH]; [reflexivity|].
  destruct H as [Ha Hr]. simpl. now rewrite (fileChar_lower a Ha), (IH Hr).
Qed.

(** The decimal form of a number is no other text that reads otherwise. *)
Lemma numberToString_differs n s :
  JsStd.parseInt s <> Some n -> String.eqb (Js.numberToString n) s = false.
Proof.
  intros H. apply String.eqb_neq. intros E. apply H. rewrite <- E.
  apply parseInt_numberToString.
Qed.

(** X17. The entry point reads back the decimal form of every safe integer:
    as the only argument, or after [fetch], it fetches that folder, and
    after [browse] it starts browsing there.  The first argument is read
    without regard to case. *)
Theorem X17_cliMain_dispatch (n : Z) (first : string) (rest : list string) :
  Js.isSafeInteger n = true ->
  cliMain [Js.numberToString n] = RunFetch n
  /\ cliMain ["fetch"; Js.numberToString n] = RunFetch n
  /\ cliMain ["browse"; Js.numberToString n] = RunBrowse n
  /\ cliMain (JsStd.toLowerCase first :: rest) = cliMain (first :: rest).
Proof.
  intros _.
  assert (Htruthy : Js.truthy (Js.numberToString n) = true).
  { unfold Js.truthy. rewrite numberToString_differs; [reflexivity|].
    discriminate. }
  split; [|split; [|split]].
  - unfold cliMain. rewrite toLowerCase_numberToString.
    rewrite !numberToString_differs by discriminate.
    now rewrite parseInt_numberToString.
  - unfold cliMain, secondArgument.
    change (JsStd.toLowerCase "fetch") with "fetch".
    change (String.eqb "fetch" "browse") with false.
    change (String.eqb "fetch" "fetch") with true. cbv beta iota.
    now rewrite Htruthy, parseInt_numberToString.
  - unfold cliMain, secondArgument.
    change (JsStd.toLowerCase "browse") with "browse".
    change (String.eqb "browse" "browse") with true. cbv beta iota.
    now rewrite Htruthy, parseInt_numberToString.
  - unfold cliMain. now rewrite toLowerCase_idem.
Qed.

(** Folder 874714 by its number, and the command in capitals. *)
Lemma X17_cliMain_dispatch_witness :
  cliMain ["874714"] = RunFetch 874714
  /\ cliMain ["browse"; "874714"] = RunBrowse 874714
  /\ cliMain ["browse"; "12"] = cliMain ["BROWSE"; "12"].
Proof.
  destruct (X17_cliMain_dispatch 874714 "BROWSE" ["12"] eq_refl)
    as (Hone & _ & Hbrowse & Hcase).
  split; [exact Hone|]. split; [exact Hbrowse|exact Hcase].
Defined.

(** X18. The legacy script fetches the folder its argument reads as, as
    it does for the decimal form of a safe integer, except that a missing
    argument, one that does not read as a number and one that reads as 0
    all give the default folder 874714: it never fetches folder 0, which the
    entry point of the new command line does. *)
Theorem X18_legacy_folder_argument (n : Z) (arg : option string) :
  (Js.isSafeInteger n = true ->
   legacyFolderId (Some (Js.numberToString n))
   = (if n =? 0 then 874714 else n))
  /\ legacyFolderId None = 874714
  /\ (forall a, JsStd.parseInt a = None -> legacyFolderId (Some a) = 874714)
  /\ legacyFolderId arg <> 0
  /\ cliMain [Js.numberToString 0] = RunFetch 0.
Proof.
  split; [|split; [reflexivity|split; [|split; [|reflexivity]]]].
  - intros _. unfold legacyFolderId. now rewrite parseInt_numberToString.
  - intros a Ha. unfold legacyFolderId. now rewrite Ha.
  - unfold legacyFolderId. destruct arg as [a|]; [|discriminate].
    destruct (JsStd.parseInt a) as [m|]; [|discriminate].
    destruct (Z.eqb_spec m 0); [discriminate|assumption].
Qed.

(** A word that is no number. *)
Lemma X18_legacy_folder_argument_witness :
  legacyFolderId (Some "latest") = 874714
  /\ legacyFolderId (Some "12") = 12.
Proof.
  split.
  - apply (proj1 (proj2 (proj2 (X18_legacy_folder_argument 0 None)))).
    reflexivity.
  - exact (proj1 (X18_legacy_folder_argument 12 None) eq_refl).
Defined.

(* ===================================================================== *)
(** ** The requests of a run *)
(* ===================================================================== *)

Section Windows.

Context {World : Type}.
Variable URL_origin : string -> option string.
Variable transport : Request -> World -> NetResult * World.
Variable config : WebLinkConfig.

Lemma loop_windows iter : forall fuel folderId acc nm start total first
                                 (s : State World),
  exists n,
    (n <= iter)%nat /\ ((1 <= iter)%nat -> (1 <= n)%nat)
    /\ listingCalls
         (trace (snd (getAllEntries_loop URL_origin transport config iter fuel
                        folderId acc nm start total first s)))
       = (listingCalls (trace s) ++ windows folderId start n)%list.
Proof.
  induction iter as [|iter IH];
    intros fuel folderId acc nm start total first s.
  - exists 0%nat. simpl. rewrite app_nil_r. repeat split; lia.
  - rewrite loop_S.
    pose proof (getFolderListing_state URL_origin transport config fuel
                  folderId start (start + 500) s) as Hcall.
    destruct (getFolderListing _ _ _ _ _ _ _ _) as [o s1]. simpl snd in Hcall.
    assert (Hone : exists n,
               (n <= S iter)%nat /\ ((1 <= S iter)%nat -> (1 <= n)%nat)
               /\ listingCalls (trace s1)
                  = (listingCalls (trace s) ++ windows folderId start n)%list).
    { exists 1%nat. repeat split; try lia. exact Hcall. }
    destruct o as [r|e|]; try exact Hone.
    destruct (unwrapEnvelope r) as [p|]; [|exact Hone].
    cbv zeta. destruct (start + 500 <? _); [|exact Hone].
    destruct (IH fuel folderId (acc ++ pageEntries p)%list
                 (if first then orString (p_name p) "" else nm)
                 (start + 500)
                 (if first then orZero (p_totalEntries p) else total)
                 false s1) as (n & Hn & _ & E).
    exists (S n). repeat split; try lia.
    rewrite E, Hcall, <- app_assoc. reflexivity.
Qed.

(** Every request of a call repeats its options. *)
Lemma fetch_repeats n : forall url options (s : State World),
  exists sent,
    trace (snd (fetch URL_origin transport config n url options s))
    = (trace s ++ map Sent sent)%list
    /\ Forall (repeats options) sent.
Proof.
  induction n as [|n IH]; intros url options s.
  - exists []. simpl. rewrite app_nil_r. split; [reflexivity|constructor].
  - rewrite fetch_S.
    assert (Hnone : exists sent : list Request,
               trace s = (trace s ++ map Sent sent)%list
               /\ Forall (repeats options) sent).
    { exists []. simpl. rewrite app_nil_r. split; [reflexivity|constructor]. }
    destruct (fst (resolveUrl URL_origin config url s)) as [u|e|];
      try exact Hnone.
    cbv zeta.
    set (req := requestOf u (getCookieHeader (cookies s)) options).
    assert (Hreq : repeats options req) by (repeat split).
    assert (Hone : exists sent : list Request,
               (trace s ++ [Sent req])%list = (trace s ++ map Sent sent)%list
               /\ Forall (repeats options) sent).
    { exists [req]. split; [reflexivity|constructor; [exact Hreq|constructor]]. }
    destruct (transport req (world s)) as [[r|] w]; [|exact Hone].
    destruct (location r) as [loc|]; [|exact Hone].
    destruct (Js.truthy loc && isRedirectStatus (status r)); [|exact Hone].
    destruct (IH loc options (afterExchange s req r w)) as (sent & E & Hs).
    exists (req :: sent). split; [|constructor; assumption].
    rewrite E. simpl. rewrite <- app_assoc. reflexivity.
Qed.

End Windows.

Lemma pagesFor_bounds total :
  (forall k, (1 <= k < pagesFor total)%nat -> 500 * Z.of_nat k < total)
  /\ total <= 500 * Z.of_nat (pagesFor total).
Proof.
  unfold pagesFor.
  pose proof (Z.div_mod (total + 499) 500 ltac:(lia)) as Hd.
  pose proof (Z.mod_pos_bound (total + 499) 500 ltac:(lia)) as Hm.
  split; [intros k Hk|]; lia.
Qed.

(** X19. For a first page that reports the total [T], and a backend that
    serves that many pages, [getAllEntries] makes exactly one listing call
    per window of 500 up to [T], and a single one when [T] is 0 or less:
    the greater of 1 and [T] divided by 500, rounded up.  It returns the
    entries of these pages in order. *)
Theorem X19_getAllEntries_page_count {World : Type}
    (URL_origin : string -> option string)
    (transport : Request -> World -> NetResult * World)
    (config : WebLinkConfig) (fuel : nat) (folderId : Z)
    (p0 : Payload) (ps : list Payload) (s s' : State World) :
  servesPages URL_origin transport config fuel folderId 0 s (p0 :: ps) s' ->
  List.length (p0 :: ps) = pagesFor (orZero (p_totalEntries p0)) ->
  (List.length (p0 :: ps) <= fuel)%nat ->
  getAllEntries URL_origin transport config fuel folderId s
  = (Ret {| folderName := orString (p_name p0) "";
            entries := List.concat (map pageEntries (p0 :: ps)) |}, s')
  /\ listingCalls (trace s')
     = (listingCalls (trace s)
        ++ windows folderId 0 (pagesFor (orZero (p_totalEntries p0))))%list.
Proof.
  intros H Hlen Hfuel.
  destruct (pagesFor_bounds (orZero (p_totalEntries p0))) as [Hlt Hle].
  split.
  - apply getAllEntries_pages; [exact H|exact Hfuel| |].
    + intros k Hk. apply Hlt. rewrite <- Hlen. exact Hk.
    + rewrite Hlen. exact Hle.
  - rewrite <- Hlen. exact (servesPages_listingCalls _ _ _ _ _ _ _ _ _ H).
Qed.

(** Two pages for a total of 600. *)
Lemma X19_getAllEntries_page_count_witness :
  exists s',
    getAllEntries arcadiaOrigin scripted ARCADIA_CONFIG 2 1
                  (freshClient twoLayouts)
    = (Ret {| folderName := "Council";
              entries := (pageEntries pageTemplateFirst
                          ++ pageEntries pagePageCountFirst)%list |}, s')
    /\ listingCalls (trace s') = [(1, 0, 500); (1, 500, 1000)].
Proof.
  eexists.
  edestruct (X19_getAllEntries_page_count arcadiaOrigin scripted ARCADIA_CONFIG
               2 1 pageTemplateFirst [pagePageCountFirst]
               (freshClient twoLayouts)) as (E & L).
  - eapply serves_page; [vm_compute; reflexivity|reflexivity|].
    eapply serves_page; [vm_compute; reflexivity|reflexivity|].
    apply serves_none.
  - reflexivity.
  - apply le_n.
  - split; [exact E|exact L].
Defined.

(** X20. Whatever the backend answers, [getAllEntries] asks for
    consecutive windows of 500 entries, the first from 0, each with
    [end = start + 500]: its listing calls are the first [n] windows, for
    some [n] that is at least 1. *)
Theorem X20_getAllEntries_windows {World : Type}
    (URL_origin : string -> option string)
    (transport : Request -> World -> NetResult * World)
    (config : WebLinkConfig) (fuel : nat) (folderId : Z) (s : State World) :
  exists n,
    (n <= fuel)%nat /\ ((1 <= fuel)%nat -> (1 <= n)%nat)
    /\ listingCalls
         (trace (snd (getAllEntries URL_origin transport config fuel
                                    folderId s)))
       = (listingCalls (trace s) ++ windows folderId 0 n)%list.
Proof. apply loop_windows. Qed.

(** X21. Every request made by one call of [fetch], the first and those
    that follow a redirect, carries the method and the body of the call's
    options and leaves redirects to the client: a POST stays a POST with
    its body after a 301, a 302 or a 303 as well. *)
Theorem X21_fetch_repeats_request {World : Type}
    (URL_origin : string -> option string)
    (transport : Request -> World -> NetResult * World)
    (config : WebLinkConfig) (fuel : nat) (url : string)
    (options : RequestInit) (s : State World) :
  exists sent,
    trace (snd (fetch URL_origin transport config fuel url options s))
    = (trace s ++ map Sent sent)%list
    /\ Forall (repeats options) sent.
Proof. apply fetch_repeats. Qed.

(* ===================================================================== *)
(** ** The fetch command *)
(* ===================================================================== *)

Lemma outputFile_cases outputPath :
  outputFile outputPath <> ""
  /\ (outputFile outputPath = "arcadia-entries.json"
      \/ outputPath = Some (outputFile outputPath)).
Proof.
  destruct outputPath as [p|]; simpl.
  - unfold Js.truthy. destruct (String.eqb_spec p "") as [->|Hp]; simpl.
    + split; [discriminate|left; reflexivity].
    + split; [exact Hp|right; reflexivity].
  - split; [discriminate|left; reflexivity].
Qed.

(** X22. A run of [fetchCommand] that ends without an exception has set up
    a session with a client of its own, whatever cookies the caller holds,
    and fetched the folder whether or not [initSession] reported a session.
    It saves nothing when the folder has no entries; otherwise it saves the
    output of the entries fetched, which counts at least one entry, to the
    given path, or to [arcadia-entries.json] when no path, or the empty
    one, is given. *)
Theorem X22_fetchCommand_saves {World : Type}
    (URL_origin : string -> option string)
    (transport : Request -> World -> NetResult * World)
    (config : WebLinkConfig) (fuel : nat) (folderId : Z)
    (outputPath : option string) (fetchedAt : string)
    (s s' : State World) (saved : option (string * SavedOutput)) :
  fetchCommand URL_origin transport config fuel folderId outputPath fetchedAt s
  = (Ret saved, s') ->
  (exists b s1 contents s2,
      initSession URL_origin transport config fuel (newClient s) = (Ret b, s1)
      /\ getAllEntries URL_origin transport config fuel folderId s1
         = (Ret contents, s2)
      /\ world s' = world s2 /\ trace s' = trace s2 /\ cookies s' = cookies s
      /\ match saved with
         | None => entries contents = []
         | Some (file, out) =>
             out = fetchOutput config folderId contents fetchedAt
             /\ 1 <= out_totalEntries out
             /\ file = outputFile outputPath
             /\ file <> ""
             /\ (file = "arcadia-entries.json" \/ outputPath = Some file)
         end)
  /\ (forall jar,
        fst (fetchCommand URL_origin transport config fuel folderId outputPath
               fetchedAt (Build_State jar (world s) (trace s)))
        = Ret saved).
Proof.
  intros H. split.
  - unfold fetchCommand, bind in H.
    destruct (initSession URL_origin transport config fuel (newClient s))
      as [[b|e|] s1] eqn:Hi; try discriminate.
    destruct (getAllEntries URL_origin transport config fuel folderId s1)
      as [[contents|e|] s2] eqn:Hg; try discriminate.
    exists b, s1, contents, s2.
    split; [reflexivity|]. split; [exact Hg|].
    destruct (entries contents) as [|e es] eqn:E; unfold ret in H;
      injection H as <- <-; simpl.
    + repeat split; reflexivity.
    + repeat split; try reflexivity.
      * rewrite E. simpl List.length. lia.
      * apply outputFile_cases.
      * apply outputFile_cases.
  - intros jar. unfold fetchCommand in *. unfold newClient in *. simpl.
    destruct (bind _ _ _) as [o s0]. injection H as -> _. reflexivity.
Qed.

(** Over a portal that sets no cookie the two pages are fetched and saved
    all the same. *)
Lemma X22_fetchCommand_saves_witness :
  exists s1 contents,
    initSession arcadiaOrigin scripted ARCADIA_CONFIG 2
      (newClient (freshClient noCookiePortal)) = (Ret false, s1)
    /\ fst (fetchCommand arcadiaOrigin scripted ARCADIA_CONFIG 2 1 (Some "")
              "now" (freshClient noCookiePortal))
       = Ret (Some ("arcadia-entries.json",
                    fetchOutput ARCADIA_CONFIG 1 contents "now")).
Proof.
  edestruct (X22_fetchCommand_saves arcadiaOrigin scripted ARCADIA_CONFIG 2 1
               (Some "") "now" (freshClient noCookiePortal))
    as ((b & s1 & contents & s2 & Hi & Hg & _ & _ & _ & Hs) & Hj).
  - vm_compute. reflexivity.
  - cbv beta iota in Hs. destruct Hs as (Ho & _).
    exists s1, contents. split.
    + vm_compute in Hi. injection Hi as <- <-. vm_compute. reflexivity.
    + rewrite <- Ho. exact (Hj []).
Defined.
